(** * Rocket Pool performance engine: a shallow embedding

    The development follows the Python sources

      - [stats/collect_daily_stats.py]   (epoch conversion, daily snapshots,
                                          snapshot history)
      - [rocketpool_analysis_only.py]    (window aggregation, extended search,
                                          node rollup, Fusaka death tracker)

    Conventions of the embedding.

      - Python [int] is [Z].
      - Python [float] values are the exact rationals they stand for ([Q]);
        [round(x, 2)] is rounding to the nearest hundredth, ties to even.
        Where the code only compares [n / 10^9] with a constant the
        comparison on [Q] and the one on IEEE doubles agree for every integer
        [n] (neighbouring quotients are [10^-9] apart, far more than one ulp).
      - [None] is [option]; [x or 0] on a nullable integer is [or0].
      - Python [str] is [string] (ASCII); dictionaries that are iterated are
        association lists in insertion order; [list.sort] is a stable sort.
      - The time-series store is a record of query functions; a query that
        raises is [None].  No other exception is modelled.
      - Wall-clock reads ([datetime.now()]) and the local time zone are
        parameters of the functions that use them. *)

From Stdlib Require Import ZArith QArith Qround List String Ascii Bool Lia.
From Stdlib Require Import Sorting.Sorted Sorting.Permutation ListSet.
From Stdlib Require Import DecimalString DecimalZ DecimalPos.
Import ListNotations.
Local Open Scope Z_scope.

(* ================================================================== *)
(** * Part I.  Definitions                                             *)
(* ================================================================== *)

(** ** Python numerics *)

(** [x or 0] for a nullable integer column. *)
Definition or0 (x : option Z) : Z :=
  match x with
  | Some v => v
  | None => 0
  end.

(** [int(a / b)] for integers [a], [b]: true division, then truncation
    toward zero.  For the magnitudes at hand (seconds, epochs) the float
    quotient is within far less than [1 / b] of the exact one, so both
    truncate to the same integer. *)
Definition int_div (a b : Z) : Z := Z.quot a b.

(** Nearest integer, ties to the even neighbour. *)
Definition round_half_even (q : Q) : Z :=
  let f := Qfloor q in
  match Qcompare (q - inject_Z f) (1 # 2) with
  | Lt => f
  | Gt => f + 1
  | Eq => if Z.even f then f else f + 1
  end.

(** [a < b] on floats. *)
Definition qlt (a b : Q) : bool := negb (Qle_bool b a).

(** [round(q, 2)]. *)
Definition round2 (q : Q) : Q := inject_Z (round_half_even (q * 100)) / 100.

(** ** Python containers *)

(** [list.sort(key=...)] is stable: elements with equal keys keep their
    order.  Any stable sort computes the same list; this one inserts each
    element in front of the first element that is not smaller. *)
Fixpoint insert_by {A : Type} (le : A -> A -> bool) (x : A) (l : list A) : list A :=
  match l with
  | [] => [x]
  | y :: l' => if le x y then x :: l else y :: insert_by le x l'
  end.

Fixpoint stable_sort {A : Type} (le : A -> A -> bool) (l : list A) : list A :=
  match l with
  | [] => []
  | x :: l' => insert_by le x (stable_sort le l')
  end.

(** [d.get(k)] on a dictionary kept as an association list. *)
Fixpoint dict_get {K V : Type} (eqb : K -> K -> bool) (k : K) (d : list (K * V)) : option V :=
  match d with
  | [] => None
  | (k', v) :: d' => if eqb k k' then Some v else dict_get eqb k d'
  end.

(** [d[k] = v]: an existing key keeps its position, a new key goes last. *)
Fixpoint dict_set {K V : Type} (eqb : K -> K -> bool) (k : K) (v : V) (d : list (K * V)) : list (K * V) :=
  match d with
  | [] => [(k, v)]
  | (k', v') :: d' => if eqb k k' then (k, v) :: d' else (k', v') :: dict_set eqb k v d'
  end.

(** [x in l] for a list of strings. *)
Definition str_in (s : string) (l : list string) : bool :=
  existsb (String.eqb s) l.

(** [len(l)] as a Python integer. *)
Definition len {A : Type} (l : list A) : Z := Z.of_nat (List.length l).

(** [l[i:i+n] for i in range(0, len(l), n)]. *)
Fixpoint batches_aux {A : Type} (fuel n : nat) (l : list A) : list (list A) :=
  match fuel, l with
  | O, _ => []
  | _, [] => []
  | S fuel', _ => firstn n l :: batches_aux fuel' n (skipn n l)
  end.

Definition batches {A : Type} (n : nat) (l : list A) : list (list A) :=
  batches_aux (List.length l) n l.

(* ------------------------------------------------------------------ *)
(** ** [stats/collect_daily_stats.py]                                  *)
(* ------------------------------------------------------------------ *)

Module collect_daily_stats.

Definition EPOCHS_PER_DAY : Z := 225.
Definition ANALYSIS_PERIOD_EPOCHS : Z := 1575.
Definition PERFORMANCE_THRESHOLD : Q := 80.
Definition FUSAKA_EPOCH : Z := 411392.

(** *** Epoch / time converter *)

Record calendar_date := mkdate { year : Z; month : Z; day : Z }.

(** [datetime._is_leap]. *)
Definition is_leap (y : Z) : bool :=
  (y mod 4 =? 0) && (negb (y mod 100 =? 0) || (y mod 400 =? 0)).

(** [datetime._days_before_year]. *)
Definition days_before_year (y : Z) : Z :=
  let y1 := y - 1 in y1 * 365 + y1 / 4 - y1 / 100 + y1 / 400.

(** [datetime._DAYS_BEFORE_MONTH], with the leap day added after February. *)
Definition days_before_month (y m : Z) : Z :=
  nth (Z.to_nat m) [0; 0; 31; 59; 90; 120; 151; 181; 212; 243; 273; 304; 334] 0
  + (if (2 <? m) && is_leap y then 1 else 0).

(** [date.toordinal]: day 1 is 0001-01-01. *)
Definition toordinal (d : calendar_date) : Z :=
  days_before_year (year d) + days_before_month (year d) (month d) + day d.

(** Ordinal of 1970-01-01. *)
Definition unix_epoch_ordinal : Z := 719163.

(** Unix time of the instant [d hh:mm:ss] read as UTC. *)
Definition utc_timestamp (d : calendar_date) (hh mm ss : Z) : Z :=
  (toordinal d - unix_epoch_ordinal) * 86400 + hh * 3600 + mm * 60 + ss.

(** [datetime.combine(d, time(hh, mm, ss)).timestamp()]: the datetime is
    naive, so Python reads it in the local zone of the process;
    [utcoffset] is that zone's offset east of UTC, in seconds. *)
Definition naive_timestamp (utcoffset : Z) (d : calendar_date) (hh mm ss : Z) : Z :=
  utc_timestamp d hh mm ss - utcoffset.

Definition genesis_timestamp : Z := 1606824023.

Definition date_to_end_epoch (utcoffset : Z) (target_date : calendar_date) : Z :=
  let target_timestamp := naive_timestamp utcoffset target_date 23 59 59 in
  let seconds_since_genesis := target_timestamp - genesis_timestamp in
  int_div seconds_since_genesis 384.


(** *** Calendar dates as text *)

(** The character of a decimal digit [0 <= n <= 9]. *)
Definition digit (n : Z) : ascii := ascii_of_N (48 + Z.to_N n).

(** ["%0{width}d" % n] for [0 <= n < 10 ^ width]. *)
Fixpoint zero_padded (width : nat) (n : Z) : string :=
  match width with
  | O => EmptyString
  | S w => String (digit (n / 10 ^ Z.of_nat w)) (zero_padded w (n mod 10 ^ Z.of_nat w))
  end.

(** [date.isoformat()]: ["%04d-%02d-%02d"]. *)
Definition isoformat (d : calendar_date) : string :=
  (zero_padded 4 (year d) ++ "-" ++ zero_padded 2 (month d) ++ "-" ++ zero_padded 2 (day d))%string.

(** [d1 <= d2] on dates: the order of [(year, month, day)]. *)
Definition date_leb (d1 d2 : calendar_date) : bool :=
  match year d1 ?= year d2 with
  | Lt => true
  | Gt => false
  | Eq => match month d1 ?= month d2 with
          | Lt => true
          | Gt => false
          | Eq => day d1 <=? day d2
          end
  end.

(** The fields of a [date] object are in range. *)
Definition date_fields_ok (d : calendar_date) : Prop :=
  1 <= year d <= 9999 /\ 1 <= month d <= 12 /\ 1 <= day d <= 31.

(** *** Daily snapshot metrics *)

(** One element of [query_7day_performance]'s result. *)
Record PerfEntry := mkPerfEntry {
  val_id : Z;
  total_earned : Z;
  total_missed : Z;
  total_penalties : Z;
  successful_attestations : Z;
  total_epochs : Z;
  last_attestation_epoch : option Z;
  latest_balance : Z
}.

(** A row of the 7-day aggregate query, columns possibly null. *)
Record PerfRow := mkPerfRow {
  row_val_id : Z;
  row_earned : option Z;
  row_missed : option Z;
  row_penalties : option Z;
  row_successful : option Z;
  row_total : option Z;
  row_last_att : option Z;
  row_balance : option Z
}.

(** The body of the loop of [query_7day_performance] that keeps the rows
    of Rocket Pool validators. *)
Definition query_7day_performance (rp_val_ids : list Z) (result_rows : list PerfRow) : list PerfEntry :=
  map (fun row =>
         mkPerfEntry (row_val_id row) (or0 (row_earned row)) (or0 (row_missed row))
                     (or0 (row_penalties row)) (or0 (row_successful row))
                     (or0 (row_total row)) (row_last_att row) (or0 (row_balance row)))
      (filter (fun row => existsb (Z.eqb (row_val_id row)) rp_val_ids) result_rows).

Definition active_statuses : list string :=
  ["active_ongoing"; "active_exiting"; "active_slashed"]%string.

Definition exited_statuses : list string :=
  ["exited_unslashed"; "exited_slashed"; "withdrawal_possible"; "withdrawal_done"]%string.

(** [status in active_statuses] where [status] may be [None]. *)
Definition status_active (status : option string) : bool :=
  match status with
  | Some s => str_in s active_statuses
  | None => false
  end.

(** [node_assignments.get(val_id)], with [not node_addr] sending a missing
    and an empty address to [None]. *)
Definition assigned_node (node_assignments : list (Z * string)) (v : Z) : option string :=
  match dict_get Z.eqb v node_assignments with
  | Some a => if String.eqb a EmptyString then None else Some a
  | None => None
  end.

(** [node_performance[node_addr]]. *)
Record NodePerf := mkNodePerf {
  validators : list Z;
  np_successful_attestations : Z;
  np_total_epochs : Z
}.

(** [(a / b) * 100] on integers, as a float. *)
Definition percent (a b : Z) : Q := (inject_Z a / inject_Z b) * 100.

(** The undercollateralisation test of the snapshot (lines 421-422):
    [balance_eth < 31.9 and balance_eth > 0]. *)
Definition balance_eth (perf : PerfEntry) : Q :=
  inject_Z (latest_balance perf) / inject_Z 1000000000.

Definition is_below_31_9 (perf : PerfEntry) : bool :=
  negb (Qle_bool (319 # 10) (balance_eth perf)) && negb (Qle_bool (balance_eth perf) 0).

Record Metrics := mkMetrics {
  underperforming_nodes : Z;
  zero_performance_nodes : Z;
  underperforming_minipools : Z;
  zero_performance_minipools : Z;
  active_minipools : Z;
  fusaka_deaths : Z;
  below_31_9_eth : Z;
  total_earned_rewards_gwei : Z;
  total_missed_rewards_gwei : Z;
  total_penalties_gwei : Z;
  total_lost_gwei : Z;
  total_nodes : Z;
  total_minipools : Z;
  exited_minipools : Z;
  avg_performance_score : Q;
  perf_band_99_5_100 : Z;
  perf_band_95_99_5 : Z;
  perf_band_90_95 : Z;
  perf_band_80_90 : Z;
  perf_band_50_80 : Z;
  perf_band_0_50 : Z;
  perf_band_0 : Z;
  epochs_analyzed : Z;
  start_epoch : Z;
  end_epoch : Z
}.

(** First loop: network totals and the per-node accumulators. *)
Definition accumulate_perf (node_assignments : list (Z * string)) (validator_statuses : list (Z * string))
  (acc : list (string * NodePerf) * (Z * Z * Z)) (perf : PerfEntry)
  : list (string * NodePerf) * (Z * Z * Z) :=
  let '(node_performance, (earned, missed, penalties)) := acc in
  match assigned_node node_assignments (val_id perf) with
  | None => acc
  | Some node_addr =>
      let totals := (earned + total_earned perf, missed + total_missed perf,
                     penalties + total_penalties perf) in
      if negb (status_active (dict_get Z.eqb (val_id perf) validator_statuses)) then
        (node_performance, totals)
      else
        let old := match dict_get String.eqb node_addr node_performance with
                   | Some np => np
                   | None => mkNodePerf [] 0 0
                   end in
        (dict_set String.eqb node_addr
           (mkNodePerf (validators old ++ [val_id perf])
                       (np_successful_attestations old + successful_attestations perf)
                       (np_total_epochs old + total_epochs perf))
           node_performance,
         totals)
  end.

(** Number of elements of [l] that satisfy [p], as a Python counter. *)
Definition count {A : Type} (p : A -> bool) (l : list A) : Z := len (filter p l).

(** Active validators with at least one counted epoch, with their score. *)
Definition minipool_scores (node_assignments : list (Z * string)) (validator_statuses : list (Z * string))
  (performance_data : list PerfEntry) : list Q :=
  map (fun perf => percent (successful_attestations perf) (total_epochs perf))
      (filter (fun perf =>
                 match assigned_node node_assignments (val_id perf) with
                 | None => false
                 | Some _ =>
                     status_active (dict_get Z.eqb (val_id perf) validator_statuses)
                     && (0 <? total_epochs perf)
                 end)
              performance_data).

(** The band of one minipool score, 0 for [perf_band_0] up to 6 for
    [perf_band_99_5_100]. *)
Definition band (score : Q) : nat :=
  if Qeq_bool score 0 then 0%nat
  else if qlt score 50 then 1%nat
  else if qlt score 80 then 2%nat
  else if qlt score 90 then 3%nat
  else if qlt score 95 then 4%nat
  else if qlt score (995 # 10) then 5%nat
  else 6%nat.

Definition calculate_snapshot_metrics {Entry : Type} (fusaka_deaths_file : list Entry)
  (performance_data : list PerfEntry) (node_assignments : list (Z * string))
  (validator_statuses : list (Z * string)) (end_epoch : Z) : Metrics :=
  let fusaka_death_count := len fusaka_deaths_file in
  let '(node_performance, (total_earned_gwei, total_missed_gwei, total_penalties_gwei)) :=
    fold_left (accumulate_perf node_assignments validator_statuses) performance_data ([], (0, 0, 0)) in
  let scored := filter (fun kv => 0 <? np_total_epochs (snd kv)) node_performance in
  let node_score := fun kv : string * NodePerf =>
    percent (np_successful_attestations (snd kv)) (np_total_epochs (snd kv)) in
  let total_network_successful_attestations :=
    fold_left (fun a kv => a + np_successful_attestations (snd kv)) scored 0 in
  let total_network_possible_attestations :=
    fold_left (fun a kv => a + np_total_epochs (snd kv)) scored 0 in
  let mscores := minipool_scores node_assignments validator_statuses performance_data in
  let active := count (fun kv => str_in (snd kv) active_statuses) validator_statuses in
  let exited := count (fun kv => negb (str_in (snd kv) active_statuses)
                                 && str_in (snd kv) exited_statuses) validator_statuses in
  let avg_performance :=
    if 0 <? total_network_possible_attestations
    then percent total_network_successful_attestations total_network_possible_attestations
    else 0%Q in
  {| underperforming_nodes := count (fun kv => qlt (node_score kv) PERFORMANCE_THRESHOLD) scored;
     zero_performance_nodes := count (fun kv => Qeq_bool (node_score kv) 0) scored;
     underperforming_minipools := count (fun s => qlt s PERFORMANCE_THRESHOLD) mscores;
     zero_performance_minipools := count (fun s => Qeq_bool s 0) mscores;
     active_minipools := active;
     fusaka_deaths := fusaka_death_count;
     below_31_9_eth := count is_below_31_9 performance_data;
     total_earned_rewards_gwei := total_earned_gwei;
     total_missed_rewards_gwei := total_missed_gwei;
     total_penalties_gwei := total_penalties_gwei;
     total_lost_gwei := total_missed_gwei + total_penalties_gwei;
     total_nodes := len node_performance;
     total_minipools := active + exited;
     exited_minipools := exited;
     avg_performance_score := round2 avg_performance;
     perf_band_99_5_100 := count (fun s => Nat.eqb (band s) 6) mscores;
     perf_band_95_99_5 := count (fun s => Nat.eqb (band s) 5) mscores;
     perf_band_90_95 := count (fun s => Nat.eqb (band s) 4) mscores;
     perf_band_80_90 := count (fun s => Nat.eqb (band s) 3) mscores;
     perf_band_50_80 := count (fun s => Nat.eqb (band s) 2) mscores;
     perf_band_0_50 := count (fun s => Nat.eqb (band s) 1) mscores;
     perf_band_0 := count (fun s => Nat.eqb (band s) 0) mscores;
     epochs_analyzed := ANALYSIS_PERIOD_EPOCHS;
     start_epoch := end_epoch - ANALYSIS_PERIOD_EPOCHS + 1;
     end_epoch := end_epoch |}.

(** A daily snapshot: the keys the builder adds, then the metrics. *)
Record Snapshot := mkSnapshot {
  date : string;
  timestamp : string;
  collection_note : string;
  metrics : Metrics
}.

(** The snapshot built at the end of [collect_snapshot_for_date]
    (lines 606-612); [now] and [note] are the two texts made from
    [datetime.now()]. *)
Definition make_snapshot (now note : string) (target_date : calendar_date) (m : Metrics)
  : Snapshot :=
  {| date := isoformat target_date;
     timestamp := now;
     collection_note := note;
     metrics := m |}.

Record Metadata := mkMetadata {
  created_at : string;
  last_updated : string;
  total_snapshots : Z;
  description : string
}.

Record StatsHistory := mkStatsHistory {
  metadata : Metadata;
  snapshots : list Snapshot
}.

(** [s1['date'] <= s2['date']] on Python strings. *)
Definition date_le (s1 s2 : Snapshot) : bool := String.leb (date s1) (date s2).

(** [append_snapshot]; [now] is [datetime.now().isoformat()]. *)
Definition append_snapshot (now : string) (stats_history : StatsHistory) (snapshot : Snapshot) : StatsHistory :=
  let snapshot_date := date snapshot in
  let kept := filter (fun s => negb (String.eqb (date s) snapshot_date)) (snapshots stats_history) in
  let appended := kept ++ [snapshot] in
  let sorted := stable_sort date_le appended in
  {| metadata := {| created_at := created_at (metadata stats_history);
                    last_updated := now;
                    total_snapshots := len sorted;
                    description := description (metadata stats_history) |};
     snapshots := sorted |}.

(** *** Validators, ids and statuses *)

(** A node of the scan results, with the keys the collector reads
    ([.get] gives [None] for a missing address). *)
Record ScannedNode := mkScannedNode {
  scanned_node_address : option string;
  scanned_minipool_addresses : list string;
  scanned_minipool_pubkeys : list (option string)
}.

(** An element of [get_validator_list_from_scan]'s result. *)
Record ScanValidator := mkScanValidator {
  sv_node_address : option string;
  sv_minipool_address : option string;
  sv_pubkey : option string
}.

(** [enumerate(l)]. *)
Definition enumerate {A : Type} (l : list A) : list (nat * A) :=
  combine (seq 0 (List.length l)) l.

Definition get_validator_list_from_scan (scan_data : list ScannedNode) : list ScanValidator :=
  flat_map
    (fun node =>
       let node_address := scanned_node_address node in
       let minipools := scanned_minipool_addresses node in
       let pubkeys := scanned_minipool_pubkeys node in
       map (fun ip => mkScanValidator node_address (nth_error minipools (fst ip)) (snd ip))
           (enumerate pubkeys))
    scan_data.

(** The store as seen by the collector.  [None] is a query that raises. *)
Record Store := mkStore {
  latest_epoch_query : option Z;
  validator_ids_query : list string -> option (list (Z * string));
  performance_rows_query : Z -> Z -> option (list PerfRow);
  status_rows_query : Z -> option (list (Z * string))
}.

(** [f"0x{v['pubkey']}"]. *)
Definition prefixed_pubkey (v : ScanValidator) : string :=
  ("0x" ++ match sv_pubkey v with
           | Some pubkey => pubkey
           | None => "None"
           end)%string.

(** [pubkey[2:] if pubkey.startswith('0x') else pubkey]. *)
Definition clean_pubkey (pubkey : string) : string :=
  if String.prefix "0x" pubkey
  then substring 2 (String.length pubkey - 2) pubkey
  else pubkey.

(** One batch of [get_validator_ids] (lines 162-180): a query that raises
    is logged and the batch skipped. *)
Definition ids_of_batch (store : Store) (val_id_map : list (string * Z))
  (batch : list ScanValidator) : list (string * Z) :=
  match validator_ids_query store (map prefixed_pubkey batch) with
  | None => val_id_map
  | Some result_rows =>
      fold_left (fun m row => dict_set String.eqb (clean_pubkey (snd row)) (fst row) m)
                result_rows val_id_map
  end.

Definition get_validator_ids (store : Store) (validators : list ScanValidator)
  : list (string * Z) :=
  fold_left (ids_of_batch store) (batches 1000 validators) [].

(** [get_node_assignments]; a node address that is [None] is stored as the
    empty text, which the metrics skip in the same way ([if not node_addr]). *)
Definition get_node_assignments (validators : list ScanValidator)
  (val_id_map : list (string * Z)) : list (Z * string) :=
  fold_left
    (fun assignments v =>
       match sv_pubkey v with
       | Some pubkey =>
           match dict_get String.eqb pubkey val_id_map with
           | Some val_id =>
               dict_set Z.eqb val_id
                 (match sv_node_address v with
                  | Some node_address => node_address
                  | None => EmptyString
                  end)
                 assignments
           | None => assignments
           end
       | None => assignments
       end)
    validators [].

(** [get_validator_statuses]: a query that raises gives no status at all. *)
Definition get_validator_statuses (store : Store) (validator_ids : list (string * Z))
  (end_epoch : Z) : list (Z * string) :=
  let rp_val_ids := map snd validator_ids in
  match status_rows_query store end_epoch with
  | None => []
  | Some result_rows =>
      fold_left (fun statuses row =>
                   if existsb (Z.eqb (fst row)) rp_val_ids
                   then dict_set Z.eqb (fst row) (snd row) statuses
                   else statuses)
                result_rows []
  end.

(** *** Missing days and backfill

    A [date] is represented here by its proleptic Gregorian ordinal, in
    terms of which the library defines [date + timedelta(days=k)] and the
    comparison of dates.  [parse_date] is
    [datetime.fromisoformat(text).date()] and [date_of_ordinal] is
    [date.fromordinal]. *)

(** [while current <= up_to_date: if keep(current): missing.append(current);
    current += timedelta(days=1)], with the days left as fuel. *)
Fixpoint days_from (fuel : nat) (current up_to_date : Z) (keep : Z -> bool) : list Z :=
  match fuel with
  | O => []
  | S fuel' =>
      if current <=? up_to_date
      then (if keep current then [current] else [])
           ++ days_from fuel' (current + 1) up_to_date keep
      else []
  end.

Definition get_missing_dates (parse_date : string -> Z) (stats_history : StatsHistory)
  (up_to_date : Z) : list Z :=
  match snapshots stats_history with
  | [] =>
      let oldest_date := up_to_date - 119 in
      days_from (Z.to_nat (up_to_date - oldest_date + 1)) oldest_date up_to_date
                (fun _ => true)
  | s :: rest =>
      let existing_dates := map (fun s => parse_date (date s)) (s :: rest) in
      let most_recent := fold_left Z.max (map (fun s => parse_date (date s)) rest)
                                   (parse_date (date s)) in
      let current := most_recent + 1 in
      stable_sort Z.leb
        (days_from (Z.to_nat (up_to_date - current + 1)) current up_to_date
                   (fun current => negb (existsb (Z.eqb current) existing_dates)))
  end.

(** The result of a step that may end the process with [sys.exit(1)]. *)
Inductive Outcome (A : Type) : Type :=
| Exit
| Done (a : A).
Arguments Exit {A}.
Arguments Done {A} a.

(** The three readings of the clock for one collected day: the snapshot's
    [timestamp], the time in its [collection_note], and [last_updated]. *)
Record Clock := mkClock {
  timestamp_at : calendar_date -> string;
  note_at : calendar_date -> string;
  updated_at : calendar_date -> string
}.

(** [collect_snapshot_for_date]; [fusaka_file] is the list the Fusaka file
    holds.  [Done None] is a day whose end epoch the store does not have yet. *)
Definition collect_snapshot_for_date {Entry : Type} (utcoffset : Z) (clock : Clock)
  (fusaka_file : list Entry) (store : Store) (target_date : calendar_date)
  (validators : list ScanValidator) (val_id_map : list (string * Z))
  : Outcome (option Snapshot) :=
  let end_epoch := date_to_end_epoch utcoffset target_date in
  let start_epoch := end_epoch - ANALYSIS_PERIOD_EPOCHS + 1 in
  match latest_epoch_query store with
  | None => Exit
  | Some latest_epoch =>
      if latest_epoch <? end_epoch then Done None
      else
        match performance_rows_query store start_epoch end_epoch with
        | None => Exit
        | Some result_rows =>
            let performance_data := query_7day_performance (map snd val_id_map) result_rows in
            let node_assignments := get_node_assignments validators val_id_map in
            let validator_statuses := get_validator_statuses store val_id_map end_epoch in
            let metrics := calculate_snapshot_metrics fusaka_file performance_data
                             node_assignments validator_statuses end_epoch in
            Done (Some (make_snapshot (timestamp_at clock target_date)
                                      (note_at clock target_date) target_date metrics))
        end
  end.

(** One day of the loop of [backfill_missing_days]: the history and the
    number of days collected so far. *)
Definition backfill_day {Entry : Type} (utcoffset : Z) (clock : Clock)
  (fusaka_file : list Entry) (store : Store) (date_of_ordinal : Z -> calendar_date)
  (validators : list ScanValidator) (val_id_map : list (string * Z))
  (state : Outcome (StatsHistory * Z)) (target_date : Z) : Outcome (StatsHistory * Z) :=
  match state with
  | Exit => Exit
  | Done (stats_history, successful) =>
      let target := date_of_ordinal target_date in
      match collect_snapshot_for_date utcoffset clock fusaka_file store target
              validators val_id_map with
      | Exit => Exit
      | Done None => Done (stats_history, successful)
      | Done (Some snapshot) =>
          Done (append_snapshot (updated_at clock target) stats_history snapshot,
                successful + 1)
      end
  end.

(** [backfill_missing_days]: the history, and whether it was saved. *)
Definition backfill_missing_days {Entry : Type} (utcoffset : Z) (clock : Clock)
  (fusaka_file : list Entry) (store : Store) (parse_date : string -> Z)
  (date_of_ordinal : Z -> calendar_date) (stats_history : StatsHistory)
  (validators : list ScanValidator) (val_id_map : list (string * Z)) (up_to_date : Z)
  : Outcome (StatsHistory * bool) :=
  match get_missing_dates parse_date stats_history up_to_date with
  | [] => Done (stats_history, false)
  | missing_dates =>
      match fold_left (backfill_day utcoffset clock fusaka_file store date_of_ordinal
                         validators val_id_map)
                      missing_dates (Done (stats_history, 0)) with
      | Exit => Exit
      | Done (stats_history, successful) => Done (stats_history, 0 <? successful)
      end
  end.

(** [main], after the scan results and the history were loaded;
    [target_date] is [get_previous_complete_day()], yesterday.  A day that
    cannot be collected ends the process with [sys.exit(1)]. *)
Definition main {Entry : Type} (utcoffset : Z) (clock : Clock)
  (fusaka_file : list Entry) (store : Store) (parse_date : string -> Z)
  (date_of_ordinal : Z -> calendar_date) (scan_data : list ScannedNode)
  (stats_history : StatsHistory) (target_date : Z) : Outcome StatsHistory :=
  let validators := get_validator_list_from_scan scan_data in
  let val_id_map := get_validator_ids store validators in
  match backfill_missing_days utcoffset clock fusaka_file store parse_date date_of_ordinal
          stats_history validators val_id_map target_date with
  | Exit => Exit
  | Done (stats_history, _) =>
      let target := date_of_ordinal target_date in
      match collect_snapshot_for_date utcoffset clock fusaka_file store target
              validators val_id_map with
      | Exit => Exit
      | Done None => Exit
      | Done (Some snapshot) =>
          Done (append_snapshot (updated_at clock target) stats_history snapshot)
      end
  end.

End collect_daily_stats.

(* ------------------------------------------------------------------ *)
(** ** Python strings                                                  *)
(* ------------------------------------------------------------------ *)

(** [str(n)] for an integer. *)
Definition str_of_int (n : Z) : string := NilZero.string_of_int (Z.to_int n).

(** [s.isdigit()]: a non-empty run of decimal digits. *)
Definition isdigit (s : string) : bool :=
  match NilZero.uint_of_string s with
  | Some _ => true
  | None => false
  end.

(** [int(s)] for a string of decimal digits ([None] is [ValueError]). *)
Definition int_of_str (s : string) : option Z :=
  match NilZero.uint_of_string s with
  | Some u => Some (Z.of_uint u)
  | None => None
  end.

(** [s.split(sep)] for a one-character separator. *)
Fixpoint split (sep : ascii) (s : string) : list string :=
  match s with
  | EmptyString => [EmptyString]
  | String c s' =>
      if Ascii.eqb c sep then EmptyString :: split sep s'
      else match split sep s' with
           | h :: t => String c h :: t
           | [] => [String c EmptyString]
           end
  end.

(** [s.count(c)] for one character. *)
Fixpoint count_char (c : ascii) (s : string) : Z :=
  match s with
  | EmptyString => 0
  | String c' s' => (if Ascii.eqb c' c then 1 else 0) + count_char c s'
  end.

(** [s.startswith(p)]. *)
Definition startswith (p s : string) : bool := String.prefix p s.

(** [max(l, key=key)]: the first element whose key is maximal. *)
Fixpoint max_from {A : Type} (key : A -> Z) (best : A) (l : list A) : A :=
  match l with
  | [] => best
  | x :: l' => if key best <? key x then max_from key x l' else max_from key best l'
  end.

(* ------------------------------------------------------------------ *)
(** ** [rocketpool_analysis_only.py]                                   *)
(* ------------------------------------------------------------------ *)

Module rocketpool_analysis_only.

Definition EPOCHS_TO_ANALYZE : Z := 900.
Definition FUSAKA_EPOCH : Z := 411392.
Definition FUSAKA_DATETIME : string := "2025-12-03T21:49:11".
Definition genesis_timestamp : Z := 1606824023.
Definition batch_size : nat := 1000.

(** The text of a [datetime] key: the local ISO rendering of a Unix time
    ([datetime.fromtimestamp(t).isoformat()]) or a literal. *)
Inductive DateTime :=
| LocalIso (t : Z)
| Literal (s : string).

(** *** Last-attestation descriptor

    A dictionary with the keys [epoch], [timestamp], [datetime], [age_epochs]
    and [status]; a key that is absent and a key bound to [None] are both
    [None] (the code reads them with [.get]). *)
Record Descriptor := mkDescriptor {
  epoch : option Z;
  timestamp : option Z;
  datetime : option DateTime;
  age_epochs : option Z;
  status : string
}.

(** [{'status': s}]. *)
Definition status_only (s : string) : Descriptor := mkDescriptor None None None None s.

(** The descriptor built for a known last attestation. *)
Definition attested (last_attestation_epoch reference_epoch : Z) (s : string) : Descriptor :=
  let estimated_timestamp := genesis_timestamp + last_attestation_epoch * 32 * 12 in
  {| epoch := Some last_attestation_epoch;
     timestamp := Some estimated_timestamp;
     datetime := Some (LocalIso estimated_timestamp);
     age_epochs := Some (reference_epoch - last_attestation_epoch);
     status := s |}.

(** [f'older_than_{total_days}_days']. *)
Definition older_than (total_days : Z) : string :=
  ("older_than_" ++ str_of_int total_days ++ "_days")%string.

(** *** Validators of the scan *)

Module Validator.
Record t := mk {
  node_address : string;
  minipool_address : string;
  pubkey : string;
  val_id : option Z           (* set by [get_active_validators] *)
}.
End Validator.

(** *** The store *)

(** A row of the window aggregate query. *)
Record Row := mkRow {
  row_val_id : Z;
  row_total_earned : option Z;
  row_total_missed : option Z;
  row_total_penalties : option Z;
  row_total_epochs : Z;
  row_successful_attestations : option Z;
  row_last_attestation_epoch : option Z;
  row_val_balance : option Z;
  row_val_effective_balance : option Z
}.

(** A row of the extended search. *)
Record ExtRow := mkExtRow {
  ext_val_id : Z;
  ext_last_attestation_epoch : option Z;
  ext_first_epoch_in_db : option Z;
  ext_last_epoch_in_db : option Z
}.

(** The store as seen by the aggregator.  Each field is one query; [None]
    is a query that raises.  The aggregate query is given the window and
    the ids of the batch, the extended query the searched range and ids. *)
Record Client := mkClient {
  retention_query : option (option Z * option Z);
  performance_query : Z -> Z -> list (option Z) -> option (list Row);
  extended_query : Z -> Z -> list Z -> option (list ExtRow)
}.

Record Retention := mkRetention {
  oldest_epoch : option Z;
  newest_epoch : option Z;
  total_days : option Z
}.

Definition get_database_retention_info (client : Client) : Retention :=
  match retention_query client with
  | Some (Some min_epoch, Some max_epoch) =>
      let epochs_per_day := 225 in
      let total_epochs := max_epoch - min_epoch in
      mkRetention (Some min_epoch) (Some max_epoch) (Some (int_div total_epochs epochs_per_day))
  | _ => mkRetention None None None
  end.

Definition find_last_attestation_extended (client : Client) (val_id_list : list Z)
  (oldest_epoch search_end_epoch newest_epoch : Z) : list (Z * Descriptor) :=
  match extended_query client oldest_epoch search_end_epoch val_id_list with
  | None => []
  | Some result_rows =>
      fold_left
        (fun extended_attestations row =>
           match ext_last_attestation_epoch row with
           | Some last_attestation_epoch =>
               dict_set Z.eqb (ext_val_id row)
                 (attested last_attestation_epoch newest_epoch "found_extended")
                 extended_attestations
           | None =>
               let epochs_per_day := 225 in
               let total_epochs := newest_epoch - oldest_epoch in
               let total_days := int_div total_epochs epochs_per_day in
               dict_set Z.eqb (ext_val_id row) (status_only (older_than total_days))
                 extended_attestations
           end)
        result_rows []
  end.

(** *** Epoch performance record (an element of [performance_data]) *)

Module Aggregate.
Record t := mk {
  val_id : Z;
  node_address : string;
  minipool_address : string;
  pubkey : string;
  total_earned_rewards : Z;
  total_missed_rewards : Z;
  total_penalties : Z;
  total_possible_rewards : Z;
  total_lost : Z;
  total_epochs : Z;
  successful_attestations : option Z;
  performance_score : option Q;
  last_attestation : Descriptor;
  val_balance : Z;
  val_balance_eth : Q;
  val_effective_balance : Z;
  val_effective_balance_eth : Q
}.
End Aggregate.

(** [n / 1e9]. *)
Definition gwei_to_eth (n : Z) : Q := inject_Z n / inject_Z 1000000000.

(** The descriptor used when neither search knows the validator. *)
Definition fallback_descriptor (total_days : option Z) : Descriptor :=
  status_only (match total_days with
               | Some d => if d =? 0 then "older_than_10_days"%string else older_than d
               | None => "older_than_10_days"%string
               end).

(** The record stored for one row of the window query (lines 350-376). *)
Definition make_aggregate (row : Row) (validator : Validator.t)
  (last_attestation_info : Descriptor) : Aggregate.t :=
  let performance_score :=
    match row_last_attestation_epoch row with
    | None => Some 0%Q
    | Some _ => None
    end in
  let val_balance := or0 (row_val_balance row) in
  let val_effective_balance := or0 (row_val_effective_balance row) in
  {| Aggregate.val_id := row_val_id row;
     Aggregate.node_address := Validator.node_address validator;
     Aggregate.minipool_address := Validator.minipool_address validator;
     Aggregate.pubkey := Validator.pubkey validator;
     Aggregate.total_earned_rewards := or0 (row_total_earned row);
     Aggregate.total_missed_rewards := or0 (row_total_missed row);
     Aggregate.total_penalties := or0 (row_total_penalties row);
     Aggregate.total_possible_rewards := or0 (row_total_earned row) + or0 (row_total_missed row);
     Aggregate.total_lost := or0 (row_total_missed row) + or0 (row_total_penalties row);
     Aggregate.total_epochs := row_total_epochs row;
     Aggregate.successful_attestations := row_successful_attestations row;
     Aggregate.performance_score := performance_score;
     Aggregate.last_attestation := last_attestation_info;
     Aggregate.val_balance := val_balance;
     Aggregate.val_balance_eth := gwei_to_eth val_balance;
     Aggregate.val_effective_balance := val_effective_balance;
     Aggregate.val_effective_balance_eth := gwei_to_eth val_effective_balance |}.

(** *** Window performance aggregator *)

(** [v['val_id'] == val_id]. *)
Definition has_val_id (val_id : Z) (v : Validator.t) : bool :=
  match Validator.val_id v with
  | Some i => i =? val_id
  | None => false
  end.

(** One row of the first pass over a batch's rows (lines 297-314): a
    validator seen inside the window gets its ['found'] descriptor, any
    other is left for the extended search. *)
Definition split_row (end_epoch : Z) (acc : list (Z * Descriptor) * list Z) (row : Row)
  : list (Z * Descriptor) * list Z :=
  let '(validators_with_recent_attestations, validators_needing_extended_search) := acc in
  match row_last_attestation_epoch row with
  | Some last_attestation_epoch =>
      (dict_set Z.eqb (row_val_id row)
         (attested last_attestation_epoch end_epoch "found")
         validators_with_recent_attestations,
       validators_needing_extended_search)
  | None =>
      (validators_with_recent_attestations,
       validators_needing_extended_search ++ [row_val_id row])
  end.

Definition split_rows (end_epoch : Z) (result_rows : list Row)
  : list (Z * Descriptor) * list Z :=
  fold_left (split_row end_epoch) result_rows ([], []).

(** One call of [find_last_attestation_extended], as it is logged below. *)
Record ExtendedCall := mkExtendedCall {
  call_val_ids : list Z;
  call_oldest_epoch : Z;
  call_search_end_epoch : Z;
  call_newest_epoch : Z
}.

(** The extended search of a batch (lines 317-325): its result and, when
    the search ran, the call that was made. *)
Definition extended_search (client : Client) (oldest_epoch : option Z)
  (start_epoch latest_epoch : Z) (validators_needing_extended_search : list Z)
  : list (Z * Descriptor) * list ExtendedCall :=
  match validators_needing_extended_search, oldest_epoch with
  | _ :: _, Some oldest =>
      let search_end_epoch := if start_epoch - 1 <? oldest then oldest else start_epoch - 1 in
      (find_last_attestation_extended client validators_needing_extended_search
         oldest search_end_epoch latest_epoch,
       [mkExtendedCall validators_needing_extended_search oldest search_end_epoch latest_epoch])
  | _, _ => ([], [])
  end.

(** The descriptor chosen for a row (lines 332-344). *)
Definition last_attestation_info (recent extended : list (Z * Descriptor))
  (total_days : option Z) (val_id : Z) : Descriptor :=
  match dict_get Z.eqb val_id recent with
  | Some d => d
  | None =>
      match dict_get Z.eqb val_id extended with
      | Some d => d
      | None => fallback_descriptor total_days
      end
  end.

(** State of the aggregator's loop: [validator_aggregates] and the log of
    extended searches. *)
Definition AggState : Type := (list (Z * Aggregate.t) * list ExtendedCall)%type.

(** One row of the second pass (lines 328-376): the record is stored when
    the batch holds a validator with the row's id. *)
Definition store_row (batch : list Validator.t) (recent extended : list (Z * Descriptor))
  (total_days : option Z) (validator_aggregates : list (Z * Aggregate.t)) (row : Row)
  : list (Z * Aggregate.t) :=
  let val_id := row_val_id row in
  let info := last_attestation_info recent extended total_days val_id in
  match find (has_val_id val_id) batch with
  | Some validator =>
      dict_set Z.eqb val_id (make_aggregate row validator info) validator_aggregates
  | None => validator_aggregates
  end.

(** One iteration of the batch loop (lines 264-382). *)
Definition process_batch (client : Client) (retention : Retention)
  (start_epoch end_epoch latest_epoch : Z) (st : AggState) (batch : list Validator.t) : AggState :=
  let '(validator_aggregates, calls) := st in
  match performance_query client start_epoch end_epoch (map Validator.val_id batch) with
  | None => st
  | Some result_rows =>
      let '(recent, needing) := split_rows end_epoch result_rows in
      let '(extended, new_calls) :=
        extended_search client (oldest_epoch retention) start_epoch latest_epoch needing in
      (fold_left (store_row batch recent extended (total_days retention))
                 result_rows validator_aggregates,
       calls ++ new_calls)
  end.

Definition window_start (latest_epoch epochs_to_analyze : Z) : Z :=
  latest_epoch - epochs_to_analyze + 1.

(** The loop of [query_attestation_performance], with its log. *)
Definition run_batches (client : Client) (validators : list Validator.t)
  (latest_epoch epochs_to_analyze : Z) : AggState :=
  let retention_info := get_database_retention_info client in
  let start_epoch := window_start latest_epoch epochs_to_analyze in
  let end_epoch := latest_epoch in
  fold_left (process_batch client retention_info start_epoch end_epoch latest_epoch)
            (batches batch_size validators) ([], []).

(** [query_attestation_performance]: the records, [start_epoch], [end_epoch]. *)
Definition query_attestation_performance (client : Client) (validators : list Validator.t)
  (latest_epoch epochs_to_analyze : Z) : list Aggregate.t * Z * Z :=
  (map snd (fst (run_batches client validators latest_epoch epochs_to_analyze)),
   window_start latest_epoch epochs_to_analyze, latest_epoch).

(** The calls of [find_last_attestation_extended] made by
    [query_attestation_performance], in order. *)
Definition extended_calls (client : Client) (validators : list Validator.t)
  (latest_epoch epochs_to_analyze : Z) : list ExtendedCall :=
  snd (run_batches client validators latest_epoch epochs_to_analyze).

(** *** Delegate-configuration status *)

Record ScanNode := mkScanNode {
  scan_node_address : string;
  minipool_use_latest_delegate : option (list (option bool))
}.

Record UldInfo := mkUldInfo {
  uld_info_status : string;
  uld_info_count : option string
}.

Definition calculate_uld_status (node_address : string) (scan_data : option (list ScanNode)) : UldInfo :=
  let unknown := mkUldInfo "unknown" None in
  match scan_data with
  | None | Some [] => unknown
  | Some nodes =>
      match find (fun n => String.eqb (scan_node_address n) node_address) nodes with
      | None => unknown
      | Some node =>
          match minipool_use_latest_delegate node with
          | None | Some [] => unknown
          | Some flags =>
              let total := len (filter (fun f => match f with Some _ => true | None => false end) flags) in
              if total =? 0 then unknown
              else
                let true_count :=
                  len (filter (fun f => match f with Some true => true | _ => false end) flags) in
                let false_count :=
                  len (filter (fun f => match f with Some false => true | _ => false end) flags) in
                if true_count =? total then mkUldInfo "yes" None
                else if false_count =? total then mkUldInfo "no" None
                else mkUldInfo "partial" (Some (str_of_int true_count ++ "/" ++ str_of_int total)%string)
          end
      end
  end.

(** *** Node last-attestation descriptor *)

Definition is_found (att : Descriptor) : bool :=
  str_in (status att) ["found"; "found_extended"]%string.

Definition has_epoch (att : Descriptor) : bool :=
  match epoch att with
  | Some _ => true
  | None => false
  end.

(** [x['epoch']] as a sort key. *)
Definition epoch_key (att : Descriptor) : Z := or0 (epoch att).

(** The key of line 502:
    [int(s.split('_')[2]) if s.count('_') >= 2 and s.split('_')[2].isdigit() else 10].
    With two separators the third part exists, and [int] of a run of digits
    does not raise. *)
Definition older_key (att : Descriptor) : Z :=
  let s := status att in
  let part := nth 2 (split "_" s) EmptyString in
  if (2 <=? count_char "_" s) && isdigit part then
    match int_of_str part with
    | Some n => n
    | None => 10
    end
  else 10.

Definition get_node_last_attestation (attestations : list Descriptor) : Descriptor :=
  match attestations with
  | [] => status_only "no_data"
  | _ =>
      let found_attestations := filter is_found attestations in
      match found_attestations with
      | first_found :: _ =>
          let valid_attestations := filter has_epoch found_attestations in
          match valid_attestations with
          | v :: rest => max_from epoch_key v rest
          | [] => first_found
          end
      | [] =>
          let older_statuses :=
            filter (fun att => startswith "older_than_" (status att)) attestations in
          match older_statuses with
          | o :: rest => max_from older_key o rest
          | [] => status_only "older_than_10_days"
          end
      end
  end.

(** *** Fusaka death tracker *)

Record FusakaEntry := mkFusakaEntry {
  fusaka_node_address : string;
  fusaka_epoch : Z;
  fusaka_timestamp : Z;
  fusaka_datetime : string
}.

(** The content of the persistent file. *)
Record FusakaDeaths := mkFusakaDeaths {
  fusaka_validators : list FusakaEntry;
  fusaka_total_count : option Z;
  fusaka_last_updated : option string
}.

(** [node_addr in fusaka_lookup]. *)
Definition in_fusaka_lookup (node_addr : string) (fusaka_deaths : FusakaDeaths) : bool :=
  existsb (fun v => String.eqb (fusaka_node_address v) node_addr) (fusaka_validators fusaka_deaths).

(** The test of lines 552-554. *)
Definition recovered (node_last_attestation : Descriptor) : bool :=
  is_found node_last_attestation
  && match epoch node_last_attestation with
     | Some e => FUSAKA_EPOCH <? e
     | None => false
     end.

(** The override of lines 561-569. *)
Definition fusaka_override (node_last_attestation : Descriptor) : Descriptor :=
  let fusaka_timestamp := genesis_timestamp + FUSAKA_EPOCH * 32 * 12 in
  {| epoch := Some FUSAKA_EPOCH;
     timestamp := Some fusaka_timestamp;
     datetime := Some (Literal FUSAKA_DATETIME);
     age_epochs := age_epochs node_last_attestation;
     status := "fusaka_death" |}.

(** *** Node rollup *)

Record MinipoolCounts := mkMinipoolCounts {
  count_total : Z;
  count_active : Z;
  count_exited : Z
}.

(** [node_data[node_addr]]. *)
Module NodeData.
Record t := mk {
  active_validators : list Z;           (* a set, in insertion order *)
  total_earned_rewards : Z;
  total_missed_rewards : Z;
  total_penalties : Z;
  total_possible_rewards : Z;
  total_lost : Z;
  last_attestations : list Descriptor;
  validator_balances : list Q;
  total_balance : Z;
  validators_below_32_eth : Z
}.
Definition default : t := mk [] 0 0 0 0 0 [] [] 0 0.
End NodeData.

(** [performance_score]: a number or the string ["N/A"]. *)
Inductive Score :=
| NA
| Num (q : Q).

(** An element of [node_scores]. *)
Module Node.
Record t := mk {
  node_address : string;
  total_minipools : Z;
  active_minipools : Z;
  exited_minipools : Z;
  performance_score : Score;
  total_earned_rewards : Z;
  total_missed_rewards : Z;
  total_penalties : Z;
  total_lost : Z;
  total_possible_rewards : Z;
  last_attestation : Descriptor;
  is_back_up : bool;
  uld_status : string;
  uld_count : option string;
  total_balance_eth : Q;
  avg_balance_eth : Q;
  min_balance_eth : option Q;
  max_balance_eth : option Q;
  validators_below_32_eth : Z
}.
End Node.

(** [threshold_filter]: a cutoff or the string ["all"]. *)
Inductive Threshold :=
| ThresholdAll
| Cutoff (t : Q).

(** [d[k]] on a [defaultdict]. *)
Definition dict_default {V : Type} (default : V) (k : string) (d : list (string * V)) : V :=
  match dict_get String.eqb k d with
  | Some v => v
  | None => default
  end.

(** Lines 435-437: total minipools per node, in order of first appearance. *)
Definition count_minipools (all_rp_validators : list Validator.t) : list (string * MinipoolCounts) :=
  fold_left
    (fun counts validator =>
       let node_addr := Validator.node_address validator in
       let c := dict_default (mkMinipoolCounts 0 0 0) node_addr counts in
       dict_set String.eqb node_addr
         (mkMinipoolCounts (count_total c + 1) (count_active c) (count_exited c)) counts)
    all_rp_validators [].

(** Lines 456-475: the node's accumulator after one more record.  Every
    record of the aggregator has a non-empty [last_attestation] and a
    [val_balance_eth], so both guards of the loop hold. *)
Definition accumulate (d : NodeData.t) (record : Aggregate.t) : NodeData.t :=
  let balance_eth := Aggregate.val_balance_eth record in
  {| NodeData.active_validators := set_add Z.eq_dec (Aggregate.val_id record) (NodeData.active_validators d);
     NodeData.total_earned_rewards := NodeData.total_earned_rewards d + Aggregate.total_earned_rewards record;
     NodeData.total_missed_rewards := NodeData.total_missed_rewards d + Aggregate.total_missed_rewards record;
     NodeData.total_penalties := NodeData.total_penalties d + Aggregate.total_penalties record;
     NodeData.total_possible_rewards :=
       NodeData.total_possible_rewards d + Aggregate.total_possible_rewards record;
     NodeData.total_lost := NodeData.total_lost d + Aggregate.total_lost record;
     NodeData.last_attestations := NodeData.last_attestations d ++ [Aggregate.last_attestation record];
     NodeData.validator_balances := NodeData.validator_balances d ++ [balance_eth];
     NodeData.total_balance := NodeData.total_balance d + Aggregate.val_balance record;
     NodeData.validators_below_32_eth :=
       NodeData.validators_below_32_eth d + (if qlt balance_eth (319 # 10) then 1 else 0) |}.

(** Lines 454-455: the record goes to [node_data[record['node_address']]]. *)
Definition add_record (node_data : list (string * NodeData.t)) (record : Aggregate.t)
  : list (string * NodeData.t) :=
  let node_addr := Aggregate.node_address record in
  dict_set String.eqb node_addr
    (accumulate (dict_default NodeData.default node_addr node_data) record) node_data.

Definition group_by_node (performance_data : list Aggregate.t) : list (string * NodeData.t) :=
  fold_left add_record performance_data [].

(** [record.get('performance_score') == 0.0]. *)
Definition has_zero_score (record : Aggregate.t) : bool :=
  match Aggregate.performance_score record with
  | Some q => Qeq_bool q 0
  | None => false
  end.

(** Lines 526-539. *)
Definition node_performance_score (performance_data : list Aggregate.t) (node_addr : string)
  (d : NodeData.t) (active_validators : Z) : Score :=
  if 0 <? active_validators then
    let zero_score_validators :=
      filter (fun record => String.eqb (Aggregate.node_address record) node_addr
                            && has_zero_score record) performance_data in
    match zero_score_validators with
    | _ :: _ => Num 0
    | [] =>
        Num (round2 (if 0 <? NodeData.total_possible_rewards d
                     then (inject_Z (NodeData.total_earned_rewards d)
                           / inject_Z (NodeData.total_possible_rewards d)) * 100
                     else 0))
    end
  else NA.

(** Lines 572-577. *)
Definition back_up (performance_score : Score) (node_last_attestation : Descriptor) : bool :=
  match performance_score, age_epochs node_last_attestation with
  | Num q, Some age => qlt 0 q && is_found node_last_attestation && (age <=? 3)
  | _, _ => false
  end.

Definition qsum (l : list Q) : Q := fold_left Qplus l 0%Q.

(** [min(l)] and [max(l)]: the first smallest and the first largest element. *)
Fixpoint qmin_from (best : Q) (l : list Q) : Q :=
  match l with
  | [] => best
  | x :: l' => if qlt x best then qmin_from x l' else qmin_from best l'
  end.

Fixpoint qmax_from (best : Q) (l : list Q) : Q :=
  match l with
  | [] => best
  | x :: l' => if qlt best x then qmax_from x l' else qmax_from best l'
  end.

(** The body of the loop over [node_minipool_counts] (lines 511-613): the
    node's record, and whether the node left the Fusaka set. *)
Definition node_score (performance_data : list Aggregate.t) (node_data : list (string * NodeData.t))
  (scan_data : option (list ScanNode)) (fusaka_deaths : FusakaDeaths)
  (node_addr : string) (minipool_counts : MinipoolCounts) : Node.t * bool :=
  let d := dict_default NodeData.default node_addr node_data in
  let active_validators := len (NodeData.active_validators d) in
  let exited_validators := count_total minipool_counts - active_validators in
  let performance_score := node_performance_score performance_data node_addr d active_validators in
  let computed := get_node_last_attestation (NodeData.last_attestations d) in
  let tracked := in_fusaka_lookup node_addr fusaka_deaths in
  let removed := tracked && recovered computed in
  let node_last_attestation :=
    if tracked then (if recovered computed then computed else fusaka_override computed)
    else computed in
  let uld_info := calculate_uld_status node_addr scan_data in
  let balances := NodeData.validator_balances d in
  ({| Node.node_address := node_addr;
      Node.total_minipools := count_total minipool_counts;
      Node.active_minipools := active_validators;
      Node.exited_minipools := exited_validators;
      Node.performance_score := performance_score;
      Node.total_earned_rewards := NodeData.total_earned_rewards d;
      Node.total_missed_rewards := NodeData.total_missed_rewards d;
      Node.total_penalties := NodeData.total_penalties d;
      Node.total_lost := NodeData.total_lost d;
      Node.total_possible_rewards := NodeData.total_possible_rewards d;
      Node.last_attestation := node_last_attestation;
      Node.is_back_up := back_up performance_score node_last_attestation;
      Node.uld_status := uld_info_status uld_info;
      Node.uld_count := uld_info_count uld_info;
      Node.total_balance_eth := gwei_to_eth (NodeData.total_balance d);
      Node.avg_balance_eth :=
        match balances with
        | [] => 0%Q
        | _ => qsum balances / inject_Z (len balances)
        end;
      Node.min_balance_eth :=
        match balances with
        | [] => None
        | b :: rest => Some (qmin_from b rest)
        end;
      Node.max_balance_eth :=
        match balances with
        | [] => None
        | b :: rest => Some (qmax_from b rest)
        end;
      Node.validators_below_32_eth := NodeData.validators_below_32_eth d |},
   removed).

(** The unsorted [node_scores] and [validators_to_remove]. *)
Definition score_nodes (performance_data : list Aggregate.t) (all_rp_validators : list Validator.t)
  (scan_data : option (list ScanNode)) (fusaka_deaths : FusakaDeaths)
  : list Node.t * list string :=
  let node_data := group_by_node performance_data in
  let scored :=
    map (fun kv => node_score performance_data node_data scan_data fusaka_deaths (fst kv) (snd kv))
        (count_minipools all_rp_validators) in
  (map fst scored,
   map (fun nr => Node.node_address (fst nr)) (filter snd scored)).

(** Lines 616-623; [now] is [datetime.now().isoformat()]. *)
Definition update_fusaka_deaths (now : string) (fusaka_deaths : FusakaDeaths)
  (validators_to_remove : list string) : FusakaDeaths :=
  match validators_to_remove with
  | [] => fusaka_deaths
  | _ =>
      let kept := filter (fun v => negb (str_in (fusaka_node_address v) validators_to_remove))
                         (fusaka_validators fusaka_deaths) in
      {| fusaka_validators := kept;
         fusaka_total_count := Some (len kept);
         fusaka_last_updated := Some (now ++ "Z")%string |}
  end.

(** Lines 626-629. *)
Definition sort_key (x : Node.t) : Q :=
  match Node.performance_score x with
  | NA => (-1)%Q
  | Num q => q
  end.

(** [node_scores.sort(key=sort_key, reverse=True)]: descending and stable. *)
Definition sort_nodes (node_scores : list Node.t) : list Node.t :=
  stable_sort (fun a b => Qle_bool (sort_key b) (sort_key a)) node_scores.

(** Lines 634-646. *)
Definition apply_threshold (threshold_filter : option Threshold) (node_scores : list Node.t)
  : list Node.t :=
  match threshold_filter with
  | None | Some ThresholdAll => node_scores
  | Some (Cutoff t) =>
      filter (fun node => match Node.performance_score node with
                          | NA => false
                          | Num q => qlt q t
                          end) node_scores
  end.

(** Lines 424-425: [fusaka_deaths] defaults to [{'validators': []}]. *)
Definition initial_fusaka_deaths (fusaka_deaths : option FusakaDeaths) : FusakaDeaths :=
  match fusaka_deaths with
  | Some f => f
  | None => mkFusakaDeaths [] None None
  end.

Definition calculate_node_performance_scores (now : string) (performance_data : list Aggregate.t)
  (all_rp_validators : list Validator.t) (threshold_filter : option Threshold)
  (scan_data : option (list ScanNode)) (fusaka_deaths : option FusakaDeaths)
  : list Node.t * FusakaDeaths :=
  let fusaka_deaths := initial_fusaka_deaths fusaka_deaths in
  let '(node_scores, validators_to_remove) :=
    score_nodes performance_data all_rp_validators scan_data fusaka_deaths in
  (apply_threshold threshold_filter (sort_nodes node_scores),
   update_fusaka_deaths now fusaka_deaths validators_to_remove).

(** *** Status resolver *)

(** The store as seen by the resolver: the latest epoch, the index of
    public keys, and the statuses of a list of validators at an epoch.
    [None] is a query that raises. *)
Record Index := mkIndex {
  latest_epoch_query : option Z;
  index_query : list string -> option (list (Z * string));
  status_query : list Z -> Z -> option (list (Z * string))
}.

(** [validator_statuses[pubkey]]. *)
Record StatusInfo := mkStatusInfo {
  info_val_id : option Z;
  info_status : string;
  info_node_address : string;
  info_minipool_address : string
}.

(** [pubkey[2:] if pubkey.startswith('0x') else pubkey]. *)
Definition clean_pubkey (pubkey : string) : string :=
  if startswith "0x" pubkey
  then substring 2 (String.length pubkey - 2) pubkey
  else pubkey.

(** Lines 92-97: [validator_ids], from cleaned public key to id. *)
Definition index_rows (result_rows : list (Z * string)) : list (string * Z) :=
  fold_left (fun validator_ids row =>
               dict_set String.eqb (clean_pubkey (snd row)) (fst row) validator_ids)
            result_rows [].

(** Line 111: [{row[0]: row[1] for row in status_result.result_rows}]. *)
Definition status_rows (result_rows : list (Z * string)) : list (Z * string) :=
  fold_left (fun status_map row => dict_set Z.eqb (fst row) (snd row) status_map)
            result_rows [].

(** Lines 114-131: the entry recorded for one validator of the batch. *)
Definition record_status (validator_ids : list (string * Z)) (status_map : list (Z * string))
  (validator_statuses : list (string * StatusInfo)) (validator : Validator.t)
  : list (string * StatusInfo) :=
  let pubkey := Validator.pubkey validator in
  match dict_get String.eqb pubkey validator_ids with
  | Some val_id =>
      let status := match dict_get Z.eqb val_id status_map with
                    | Some s => s
                    | None => "unknown"%string
                    end in
      dict_set String.eqb pubkey
        (mkStatusInfo (Some val_id) status (Validator.node_address validator)
                      (Validator.minipool_address validator))
        validator_statuses
  | None =>
      dict_set String.eqb pubkey
        (mkStatusInfo None "not_in_database" (Validator.node_address validator)
                      (Validator.minipool_address validator))
        validator_statuses
  end.

(** One iteration of the batch loop (lines 80-138): a query that raises, or
    an index answer without rows, leaves the statuses as they are. *)
Definition resolve_batch (index : Index) (latest_epoch : Z)
  (validator_statuses : list (string * StatusInfo)) (batch : list Validator.t)
  : list (string * StatusInfo) :=
  match index_query index (map (fun v => ("0x" ++ Validator.pubkey v)%string) batch) with
  | None => validator_statuses
  | Some result_rows =>
      let validator_ids := index_rows result_rows in
      match validator_ids with
      | [] => validator_statuses
      | _ :: _ =>
          match status_query index (map snd validator_ids) latest_epoch with
          | None => validator_statuses
          | Some status_result =>
              fold_left (record_status validator_ids (status_rows status_result))
                        batch validator_statuses
          end
      end
  end.

(** [get_all_validator_statuses]; [None] when the latest-epoch query raises. *)
Definition get_all_validator_statuses (index : Index) (validators : list Validator.t)
  : option (list (string * StatusInfo) * Z) :=
  match latest_epoch_query index with
  | None => None
  | Some latest_epoch =>
      Some (fold_left (resolve_batch index latest_epoch) (batches batch_size validators) [],
            latest_epoch)
  end.

Definition active_statuses : list string := ["active_ongoing"; "active_exiting"]%string.

(** Lines 153-161: the validator, with its id set, when its status is active. *)
Definition keep_active (validator_statuses : list (string * StatusInfo))
  (validator : Validator.t) : list Validator.t :=
  match dict_get String.eqb (Validator.pubkey validator) validator_statuses with
  | Some status_info =>
      if str_in (info_status status_info) active_statuses
      then [Validator.mk (Validator.node_address validator)
                         (Validator.minipool_address validator)
                         (Validator.pubkey validator)
                         (info_val_id status_info)]
      else []
  | None => []
  end.

(** [get_active_validators]: the statuses are resolved when none are given. *)
Definition get_active_validators (index : Index) (validators : list Validator.t)
  (validator_statuses : option (list (string * StatusInfo))) : option (list Validator.t) :=
  let resolved :=
    match validator_statuses with
    | Some statuses => Some statuses
    | None =>
        match get_all_validator_statuses index validators with
        | Some (statuses, _) => Some statuses
        | None => None
        end
    end in
  match resolved with
  | Some statuses => Some (flat_map (keep_active statuses) validators)
  | None => None
  end.

(** *** The analysis run *)

(** A node of the scan results, with the keys the analysis reads. *)
Record ScanResult := mkScanResult {
  scan_node_index : Z;
  scan_address : string;
  scan_minipool_count : Z;
  scan_minipool_addresses : list string;
  scan_minipool_pubkeys : list (option string);
  scan_use_latest_delegate : option (list (option bool))
}.

(** The node as [calculate_uld_status] reads it. *)
Definition as_scan_node (node : ScanResult) : ScanNode :=
  mkScanNode (scan_address node) (scan_use_latest_delegate node).

(** [if pubkey]: neither [None] nor the empty string. *)
Definition truthy (pubkey : option string) : option string :=
  match pubkey with
  | Some (String c s) => Some (String c s)
  | _ => None
  end.

(** Lines 685-692, from index [i] on; [None] is the [IndexError] of
    [node['minipool_addresses'][i]]. *)
Fixpoint node_validators (node : ScanResult) (i : nat) (pubkeys : list (option string))
  : option (list Validator.t) :=
  match pubkeys with
  | [] => Some []
  | pubkey :: rest =>
      match truthy pubkey with
      | Some pk =>
          match nth_error (scan_minipool_addresses node) i with
          | Some minipool_address =>
              match node_validators node (S i) rest with
              | Some validators =>
                  Some (Validator.mk (scan_address node) minipool_address pk None :: validators)
              | None => None
              end
          | None => None
          end
      | None => node_validators node (S i) rest
      end
  end.

(** Lines 682-692: the validators of the scan, node by node. *)
Fixpoint extract_validators (scan_results : list ScanResult) : option (list Validator.t) :=
  match scan_results with
  | [] => Some []
  | node :: rest =>
      match (if 0 <? scan_minipool_count node
             then node_validators node 0 (scan_minipool_pubkeys node)
             else Some []) with
      | Some validators =>
          match extract_validators rest with
          | Some more => Some (validators ++ more)
          | None => None
          end
      | None => None
      end
  end.

(** An entry of [validator_balances_lookup]. *)
Record BalanceInfo := mkBalanceInfo {
  balance_val_id : Z;
  balance_eth : Q;
  effective_balance_eth : Q
}.

(** Lines 728-735; every record of the aggregator carries a [pubkey], and
    an empty one is skipped. *)
Definition validator_balances_lookup (performance_data : list Aggregate.t)
  : list (string * BalanceInfo) :=
  fold_left
    (fun lookup record =>
       match Aggregate.pubkey record with
       | EmptyString => lookup
       | pubkey =>
           dict_set String.eqb pubkey
             (mkBalanceInfo (Aggregate.val_id record) (Aggregate.val_balance_eth record)
                            (Aggregate.val_effective_balance_eth record))
             lookup
       end)
    performance_data [].

(** What [run_analysis] writes: the report and the tracking file. *)
Record Output := mkOutput {
  analysis_date : string;
  report_threshold : Z;
  epochs_analyzed : Z;
  report_start_epoch : Z;
  report_end_epoch : Z;
  report_total_nodes : Z;
  node_performance_scores : list Node.t;
  report_validator_statuses : list (string * StatusInfo);
  validator_balances : list (string * BalanceInfo);
  saved_fusaka_deaths : FusakaDeaths
}.

(** [run_analysis] between loading the inputs and writing the outputs
    (lines 670-760): [scan_results] and [fusaka_deaths] are the loaded
    files, [epochs_to_analyze] the length of the chosen period, [now] the
    clock.  [None] stands for the runs that write nothing: an empty scan,
    an [IndexError] in the scan, or a latest-epoch query that raises.  The
    store is the same for all queries of a run. *)
Definition run_analysis (index : Index) (client : Client) (now : string)
  (scan_results : list ScanResult) (fusaka_deaths : FusakaDeaths)
  (threshold epochs_to_analyze : Z) : option Output :=
  match scan_results with
  | [] => None
  | _ :: _ =>
      match extract_validators scan_results with
      | None => None
      | Some validators =>
          match latest_epoch_query index with
          | None => None
          | Some latest_epoch =>
              match get_all_validator_statuses index validators with
              | None => None
              | Some (all_validator_statuses, _) =>
                  match get_active_validators index validators (Some all_validator_statuses) with
                  | None => None
                  | Some active_validators =>
                      let '(performance_data, start_epoch, end_epoch) :=
                        query_attestation_performance client active_validators latest_epoch
                          epochs_to_analyze in
                      let '(node_scores, fusaka_deaths) :=
                        calculate_node_performance_scores now performance_data validators
                          (Some (Cutoff (inject_Z threshold)))
                          (Some (map as_scan_node scan_results)) (Some fusaka_deaths) in
                      Some {| analysis_date := now;
                              report_threshold := threshold;
                              epochs_analyzed := epochs_to_analyze;
                              report_start_epoch := start_epoch;
                              report_end_epoch := end_epoch;
                              report_total_nodes := len node_scores;
                              node_performance_scores := node_scores;
                              report_validator_statuses := all_validator_statuses;
                              validator_balances := validator_balances_lookup performance_data;
                              saved_fusaka_deaths := fusaka_deaths |}
                  end
              end
          end
      end
  end.

End rocketpool_analysis_only.

(* ================================================================== *)
(** * Part II.  Properties                                             *)
(* ================================================================== *)

(** ** Stable sorting *)

Section StableSort.

Context {A : Type}.
Variable le : A -> A -> bool.
Hypothesis le_total : forall a b, le a b = true \/ le b a = true.
Hypothesis le_trans : forall a b c, le a b = true -> le b c = true -> le a c = true.

Let R (a b : A) : Prop := le a b = true.

Lemma insert_by_perm (x : A) (l : list A) : Permutation (insert_by le x l) (x :: l).
Proof.
  induction l as [|y l IH]; simpl; [reflexivity|].
  destruct (le x y); [reflexivity|].
  rewrite IH. apply perm_swap.
Qed.

Lemma stable_sort_perm (l : list A) : Permutation (stable_sort le l) l.
Proof.
  induction l as [|x l IH]; simpl; [constructor|].
  rewrite insert_by_perm. now constructor.
Qed.

Lemma insert_by_sorted (x : A) (l : list A) :
  StronglySorted R l -> StronglySorted R (insert_by le x l).
Proof.
  induction 1 as [|y l Hs IH Hy]; simpl.
  - repeat constructor.
  - destruct (le x y) eqn:E.
    + constructor; [now constructor|].
      constructor; [exact E|].
      eapply Forall_impl; [|exact Hy]. intros z Hz. exact (le_trans _ _ _ E Hz).
    + constructor; [exact IH|].
      assert (Hyx : R y x) by (destruct (le_total x y) as [H|H]; [congruence|exact H]).
      eapply Permutation_Forall; [symmetry; apply insert_by_perm|].
      now constructor.
Qed.

Lemma stable_sort_sorted (l : list A) : StronglySorted R (stable_sort le l).
Proof.
  induction l as [|x l IH]; simpl; [constructor|]. now apply insert_by_sorted.
Qed.

Lemma insert_by_head (x : A) (l : list A) :
  Forall (R x) l -> insert_by le x l = x :: l.
Proof.
  destruct 1 as [|y l Hy _]; simpl; [reflexivity|]. unfold R in Hy. now rewrite Hy.
Qed.

Lemma filter_insert_by (p : A -> bool) (x : A) (l : list A) :
  StronglySorted R l ->
  filter p (insert_by le x l) = if p x then insert_by le x (filter p l) else filter p l.
Proof.
  induction 1 as [|y l Hs IH Hy]; simpl.
  - now destruct (p x).
  - destruct (le x y) eqn:E; simpl.
    + destruct (p x) eqn:Px; [|reflexivity].
      symmetry. apply (insert_by_head x (filter p (y :: l))).
      apply Forall_forall. intros z Hz. apply filter_In in Hz. destruct Hz as [Hz _].
      destruct Hz as [<-|Hz]; [exact E|].
      rewrite Forall_forall in Hy. exact (le_trans _ _ _ E (Hy z Hz)).
    + rewrite IH. destruct (p y), (p x); simpl; try reflexivity. now rewrite E.
Qed.

Lemma filter_stable_sort (p : A -> bool) (l : list A) :
  filter p (stable_sort le l) = stable_sort le (filter p l).
Proof.
  induction l as [|x l IH]; simpl; [reflexivity|].
  rewrite filter_insert_by by apply stable_sort_sorted.
  rewrite IH. now destruct (p x).
Qed.

Lemma insert_by_comm (a b : A) (l : list A) :
  le a b = false ->
  insert_by le b (insert_by le a l) = insert_by le a (insert_by le b l).
Proof.
  intros Hab.
  assert (Hba : le b a = true) by (destruct (le_total a b); congruence).
  induction l as [|m l IH]; simpl.
  - now rewrite Hba, Hab.
  - destruct (le a m) eqn:Eam; simpl.
    + rewrite Hba, (le_trans _ _ _ Hba Eam). simpl. now rewrite Hab, Eam.
    + destruct (le b m) eqn:Ebm; simpl.
      * now rewrite Hab, Eam.
      * now rewrite Eam, IH.
Qed.

Lemma stable_sort_insert_app (a : A) (l m : list A) :
  stable_sort le (insert_by le a l ++ m) = insert_by le a (stable_sort le (l ++ m)).
Proof.
  induction l as [|y l IH]; simpl; [reflexivity|].
  destruct (le a y) eqn:E; simpl; [reflexivity|].
  rewrite IH. now apply insert_by_comm.
Qed.

Lemma stable_sort_app_sorted (l m : list A) :
  stable_sort le (stable_sort le l ++ m) = stable_sort le (l ++ m).
Proof.
  induction l as [|x l IH]; simpl; [reflexivity|].
  now rewrite stable_sort_insert_app, IH.
Qed.

End StableSort.

(** ** The order of Python strings *)

Lemma ascii_compare_refl (c : ascii) : Ascii.compare c c = Eq.
Proof. unfold Ascii.compare. apply N.compare_refl. Qed.

Lemma ascii_compare_eq (a b : ascii) : Ascii.compare a b = Eq -> a = b.
Proof.
  unfold Ascii.compare. intros H. apply N.compare_eq in H.
  rewrite <- (ascii_N_embedding a), <- (ascii_N_embedding b). now rewrite H.
Qed.

Lemma ascii_compare_lt_trans (a b c : ascii) :
  Ascii.compare a b = Lt -> Ascii.compare b c = Lt -> Ascii.compare a c = Lt.
Proof.
  unfold Ascii.compare. rewrite !N.compare_lt_iff. apply N.lt_trans.
Qed.

Lemma ascii_compare_gt_lt (a b : ascii) :
  Ascii.compare a b = Gt -> Ascii.compare b a = Lt.
Proof.
  unfold Ascii.compare. rewrite N.compare_gt_iff, N.compare_lt_iff. auto.
Qed.

Lemma string_compare_lt_trans (s1 : string) :
  forall s2 s3, String.compare s1 s2 = Lt -> String.compare s2 s3 = Lt ->
                String.compare s1 s3 = Lt.
Proof.
  induction s1 as [|c1 s1 IH]; intros [|c2 s2] [|c3 s3]; simpl; try congruence.
  destruct (Ascii.compare c1 c2) eqn:E12; try congruence;
    destruct (Ascii.compare c2 c3) eqn:E23; try congruence; intros H12 H23.
  - apply ascii_compare_eq in E12, E23. subst. rewrite ascii_compare_refl. eauto.
  - apply ascii_compare_eq in E12. subst. now rewrite E23.
  - apply ascii_compare_eq in E23. subst. now rewrite E12.
  - now rewrite (ascii_compare_lt_trans _ _ _ E12 E23).
Qed.

Lemma string_compare_refl (s : string) : String.compare s s = Eq.
Proof.
  induction s as [|c s IH]; simpl; [reflexivity|]. now rewrite ascii_compare_refl.
Qed.

Lemma string_leb_trans (s1 s2 s3 : string) :
  String.leb s1 s2 = true -> String.leb s2 s3 = true -> String.leb s1 s3 = true.
Proof.
  unfold String.leb.
  destruct (String.compare s1 s2) eqn:E12; try discriminate;
    destruct (String.compare s2 s3) eqn:E23; try discriminate; intros _ _.
  - apply String.compare_eq_iff in E12, E23. subst.
    now rewrite string_compare_refl.
  - apply String.compare_eq_iff in E12. subst. now rewrite E23.
  - apply String.compare_eq_iff in E23. subst. now rewrite E12.
  - now rewrite (string_compare_lt_trans _ _ _ E12 E23).
Qed.

(** ** Lists *)

Lemma len_nil {A : Type} : len (@nil A) = 0.
Proof. reflexivity. Qed.

Lemma len_cons {A : Type} (x : A) (l : list A) : len (x :: l) = len l + 1.
Proof. unfold len. simpl List.length. lia. Qed.

Lemma len_nonneg {A : Type} (l : list A) : 0 <= len l.
Proof. unfold len. lia. Qed.

Lemma filter_filter_negb {A : Type} (p : A -> bool) (l : list A) :
  filter p (filter (fun x => negb (p x)) l) = [].
Proof.
  induction l as [|x l IH]; simpl; [reflexivity|].
  destruct (p x) eqn:E; simpl; [exact IH|]. now rewrite E.
Qed.

Lemma filter_idem {A : Type} (p : A -> bool) (l : list A) :
  filter p (filter p l) = filter p l.
Proof.
  induction l as [|x l IH]; simpl; [reflexivity|].
  destruct (p x) eqn:E; simpl; [|exact IH]. now rewrite E, IH.
Qed.


(** The batches of a list cover it, in order: the loop
    [for i in range(0, len(l), n)] reaches every element. *)
Lemma batches_aux_concat {A : Type} (n : nat) (fuel : nat) :
  forall l : list A,
    (0 < n)%nat -> (List.length l <= fuel)%nat -> List.concat (batches_aux fuel n l) = l.
Proof.
  induction fuel as [|fuel IH]; intros l Hn Hl.
  - destruct l; [reflexivity|simpl in Hl; lia].
  - destruct l as [|x l]; [reflexivity|].
    cbn [batches_aux List.concat]. rewrite IH.
    + apply firstn_skipn.
    + exact Hn.
    + rewrite length_skipn. simpl List.length in *. lia.
Qed.

Lemma batches_concat {A : Type} (n : nat) (l : list A) :
  (0 < n)%nat -> List.concat (batches n l) = l.
Proof. intros Hn. apply batches_aux_concat; [exact Hn|lia]. Qed.

(* ------------------------------------------------------------------ *)
(** ** Epoch conversion and snapshot history                           *)
(* ------------------------------------------------------------------ *)

Module DailyStats.
Import collect_daily_stats.

(** *** Epoch conversion *)





(** *** ISO dates sort chronologically *)

Lemma digit_compare (a b : Z) :
  0 <= a <= 9 -> 0 <= b <= 9 -> Ascii.compare (digit a) (digit b) = (a ?= b).
Proof.
  intros Ha Hb.
  assert (Ea : a = 0 \/ a = 1 \/ a = 2 \/ a = 3 \/ a = 4 \/ a = 5 \/ a = 6 \/ a = 7
               \/ a = 8 \/ a = 9) by lia.
  assert (Eb : b = 0 \/ b = 1 \/ b = 2 \/ b = 3 \/ b = 4 \/ b = 5 \/ b = 6 \/ b = 7
               \/ b = 8 \/ b = 9) by lia.
  repeat (destruct Ea as [-> | Ea]); try subst a;
    repeat (destruct Eb as [-> | Eb]); try subst b; reflexivity.
Qed.

(** Two numbers printed with the same width compare as they do. *)
Lemma compare_zero_padded (w : nat) :
  forall (a b : Z) (s t : string),
    0 <= a < 10 ^ Z.of_nat w -> 0 <= b < 10 ^ Z.of_nat w ->
    String.compare (zero_padded w a ++ s) (zero_padded w b ++ t)
    = match a ?= b with
      | Eq => String.compare s t
      | c => c
      end.
Proof.
  induction w as [|w IH]; intros a b s t Ha Hb.
  - change (10 ^ Z.of_nat 0) with 1 in *.
    assert (a = 0) by lia. assert (b = 0) by lia. subst. reflexivity.
  - rewrite Nat2Z.inj_succ, Z.pow_succ_r in Ha, Hb by lia.
    set (p := 10 ^ Z.of_nat w) in *.
    assert (Hp : 0 < p) by (apply Z.pow_pos_nonneg; lia).
    cbn [zero_padded append String.compare]. fold p. clearbody p.
    pose proof (Z.div_mod a p ltac:(lia)) as Da.
    pose proof (Z.div_mod b p ltac:(lia)) as Db.
    pose proof (Z.mod_pos_bound a p Hp) as Ra.
    pose proof (Z.mod_pos_bound b p Hp) as Rb.
    assert (Qa : 0 <= a / p <= 9).
    { split; [apply Z.div_pos; lia|]. apply Z.lt_succ_r. apply Z.div_lt_upper_bound; lia. }
    assert (Qb : 0 <= b / p <= 9).
    { split; [apply Z.div_pos; lia|]. apply Z.lt_succ_r. apply Z.div_lt_upper_bound; lia. }
    rewrite (digit_compare _ _ Qa Qb), (IH _ _ s t Ra Rb).
    destruct (a / p ?= b / p) eqn:Ecmp.
    + apply Z.compare_eq in Ecmp.
      replace (a ?= b) with (a mod p ?= b mod p); [reflexivity|].
      rewrite Da, Db at 2. rewrite Ecmp. now rewrite Z.add_compare_mono_l.
    + apply (proj1 (Z.compare_lt_iff _ _)) in Ecmp.
      replace (a ?= b) with Lt; [reflexivity|]. symmetry. apply Z.compare_lt_iff.
      assert (p * (a / p + 1) <= p * (b / p)) by (apply Z.mul_le_mono_nonneg_l; lia).
      lia.
    + apply (proj1 (Z.compare_gt_iff _ _)) in Ecmp.
      replace (a ?= b) with Gt; [reflexivity|]. symmetry. apply Z.compare_gt_iff.
      assert (p * (b / p + 1) <= p * (a / p)) by (apply Z.mul_le_mono_nonneg_l; lia).
      lia.
Qed.

Lemma append_empty_r (s : string) : (s ++ EmptyString)%string = s.
Proof. induction s as [|c s IH]; simpl; [reflexivity|]. now rewrite IH. Qed.

(** On ISO dates the order of Python strings is the order of the dates. *)
Lemma isoformat_leb (d1 d2 : calendar_date) :
  date_fields_ok d1 -> date_fields_ok d2 ->
  String.leb (isoformat d1) (isoformat d2) = date_leb d1 d2.
Proof.
  intros (Hy1 & Hm1 & Hd1) (Hy2 & Hm2 & Hd2).
  unfold String.leb, isoformat, date_leb.
  rewrite (compare_zero_padded 4) by (change (10 ^ Z.of_nat 4) with 10000; lia).
  destruct (year d1 ?= year d2); try reflexivity.
  cbn [append String.compare]. change (Ascii.compare "-" "-") with Eq. cbv iota.
  rewrite (compare_zero_padded 2) by (change (10 ^ Z.of_nat 2) with 100; lia).
  destruct (month d1 ?= month d2); try reflexivity.
  cbn [append String.compare]. change (Ascii.compare "-" "-") with Eq. cbv iota.
  rewrite <- (append_empty_r (zero_padded 2 (day d1))).
  rewrite <- (append_empty_r (zero_padded 2 (day d2))).
  rewrite (compare_zero_padded 2) by (change (10 ^ Z.of_nat 2) with 100; lia).
  unfold Z.leb. now destruct (day d1 ?= day d2).
Qed.

(** *** Snapshot history *)

Definition date_sorted : list Snapshot -> Prop :=
  StronglySorted (fun a b => String.leb (date a) (date b) = true).

Lemma date_le_total (a b : Snapshot) : date_le a b = true \/ date_le b a = true.
Proof. apply String.leb_total. Qed.

Lemma date_le_trans (a b c : Snapshot) :
  date_le a b = true -> date_le b c = true -> date_le a c = true.
Proof. apply string_leb_trans. Qed.

Lemma snapshots_append (now : string) (h : StatsHistory) (s : Snapshot) :
  snapshots (append_snapshot now h s)
  = stable_sort date_le
      (filter (fun x => negb (String.eqb (date x) (date s))) (snapshots h) ++ [s]).
Proof. reflexivity. Qed.

(** C3: after [append_snapshot] the history holds exactly one snapshot for
    the new snapshot's date, the new one; it is sorted ascending by date;
    the snapshots of other dates are kept; and appending again for the same
    date gives what appending the second snapshot alone gives.  The dates
    are the ISO texts the builder stores, whose order as Python strings is
    the order of the calendar dates. *)
Theorem append_snapshot_dedup_sorted (now : string) (h : StatsHistory) (s : Snapshot) :
  let h' := append_snapshot now h s in
  filter (fun x => String.eqb (date x) (date s)) (snapshots h') = [s]
  /\ date_sorted (snapshots h')
  /\ Permutation (snapshots h')
       (filter (fun x => negb (String.eqb (date x) (date s))) (snapshots h) ++ [s])
  /\ (forall (now2 : string) (s2 : Snapshot),
         date s2 = date s ->
         append_snapshot now2 h' s2 = append_snapshot now2 h s2)
  /\ (forall (now1 note1 now2 note2 : string) (d1 d2 : calendar_date) (m1 m2 : Metrics),
         date_fields_ok d1 -> date_fields_ok d2 ->
         date_le (make_snapshot now1 note1 d1 m1) (make_snapshot now2 note2 d2 m2)
         = date_leb d1 d2).
Proof.
  intros h'. subst h'.
  split; [|split; [|split; [|split; [|intros; now apply isoformat_leb]]]].
  - rewrite snapshots_append.
    rewrite (filter_stable_sort date_le date_le_total date_le_trans).
    rewrite filter_app, (filter_filter_negb (fun x => String.eqb (date x) (date s))).
    simpl. now rewrite String.eqb_refl.
  - rewrite snapshots_append. apply (stable_sort_sorted date_le date_le_total date_le_trans).
  - rewrite snapshots_append. apply stable_sort_perm.
  - intros now2 s2 Hd.
    assert (Hs : stable_sort date_le
                   (filter (fun x => negb (String.eqb (date x) (date s2)))
                           (snapshots (append_snapshot now h s)) ++ [s2])
                 = stable_sort date_le
                     (filter (fun x => negb (String.eqb (date x) (date s2))) (snapshots h) ++ [s2])).
    { rewrite snapshots_append, Hd.
      rewrite (filter_stable_sort date_le date_le_total date_le_trans).
      rewrite filter_app, filter_idem. simpl. rewrite String.eqb_refl. simpl.
      rewrite List.app_nil_r.
      apply (stable_sort_app_sorted date_le date_le_total date_le_trans). }
    unfold append_snapshot at 1 3. cbv zeta. rewrite Hs. reflexivity.
Qed.

Definition snap (d : string) (n : Z) : Snapshot :=
  mkSnapshot d "12:00" "note"
    (mkMetrics n 0 0 0 0 0 0 0 0 0 0 0 0 0 0 0 0 0 0 0 0 0 0 0 0).

Definition two_days : StatsHistory :=
  mkStatsHistory (mkMetadata "t0" "t0" 2 "history") [snap "2024-03-14" 1; snap "2024-03-16" 2].

Lemma append_snapshot_dedup_sorted_witness :
  append_snapshot "t2" (append_snapshot "t1" two_days (snap "2024-03-15" 3)) (snap "2024-03-15" 4)
  = append_snapshot "t2" two_days (snap "2024-03-15" 4).
Proof.
  apply (proj1 (proj2 (proj2 (proj2
           (append_snapshot_dedup_sorted "t1" two_days (snap "2024-03-15" 3)))))).
  reflexivity.
Defined.

(** C9: after [append_snapshot] the metadata's [total_snapshots] is the
    length of the snapshots list. *)
Theorem append_snapshot_total_snapshots (now : string) (h : StatsHistory) (s : Snapshot) :
  total_snapshots (metadata (append_snapshot now h s))
  = len (snapshots (append_snapshot now h s)).
Proof. reflexivity. Qed.

End DailyStats.

(** ** Dictionaries *)

Section Dict.

Context {K V : Type}.
Variable eqb : K -> K -> bool.
Hypothesis eqb_spec : forall a b, reflect (a = b) (eqb a b).

Lemma dict_get_set_eq (k : K) (v : V) (d : list (K * V)) :
  dict_get eqb k (dict_set eqb k v d) = Some v.
Proof.
  induction d as [|[k' v'] d IH]; simpl.
  - now destruct (eqb_spec k k).
  - destruct (eqb_spec k k') as [->|Hn]; simpl.
    + now destruct (eqb_spec k' k').
    + now destruct (eqb_spec k k').
Qed.

Lemma dict_get_set_neq (k k' : K) (v : V) (d : list (K * V)) :
  k <> k' -> dict_get eqb k (dict_set eqb k' v d) = dict_get eqb k d.
Proof.
  intros Hn. induction d as [|[k2 v2] d IH]; simpl.
  - now destruct (eqb_spec k k').
  - destruct (eqb_spec k' k2) as [->|Hn2]; simpl.
    + now destruct (eqb_spec k k2).
    + now rewrite IH.
Qed.

Lemma dict_set_keys (k : K) (v : V) (d : list (K * V)) :
  map fst (dict_set eqb k v d)
  = if existsb (eqb k) (map fst d) then map fst d else map fst d ++ [k].
Proof.
  induction d as [|[k' v'] d IH]; simpl; [reflexivity|].
  destruct (eqb_spec k k') as [->|Hn]; simpl; [reflexivity|].
  rewrite IH. now destruct (existsb (eqb k) (map fst d)).
Qed.

Lemma existsb_eqb_In (k : K) (l : list K) : existsb (eqb k) l = true <-> In k l.
Proof.
  rewrite existsb_exists. split.
  - intros [x [Hx E]]. now destruct (eqb_spec k x) as [->|]; [|discriminate].
  - intros H. exists k. split; [exact H|]. now destruct (eqb_spec k k).
Qed.

Lemma dict_set_keys_NoDup (k : K) (v : V) (d : list (K * V)) :
  NoDup (map fst d) -> NoDup (map fst (dict_set eqb k v d)).
Proof.
  intros H. rewrite dict_set_keys.
  destruct (existsb (eqb k) (map fst d)) eqn:E; [exact H|].
  apply NoDup_app; [exact H|repeat constructor; intros []|].
  intros x Hx [<-|[]].
  apply existsb_eqb_In in Hx. congruence.
Qed.

Lemma dict_set_keys_In (k k' : K) (v : V) (d : list (K * V)) :
  In k (map fst (dict_set eqb k' v d)) <-> k = k' \/ In k (map fst d).
Proof.
  rewrite dict_set_keys.
  destruct (existsb (eqb k') (map fst d)) eqn:E.
  - apply existsb_eqb_In in E. split; [auto|]. now intros [->|H].
  - rewrite in_app_iff. simpl. intuition.
Qed.

Lemma dict_get_In (k : K) (v : V) (d : list (K * V)) :
  NoDup (map fst d) -> In (k, v) d -> dict_get eqb k d = Some v.
Proof.
  induction d as [|[k' v'] d IH]; simpl; [intros _ []|].
  intros Hnd [E|Hin].
  - inversion E; subst. now destruct (eqb_spec k k).
  - inversion Hnd as [|? ? Hk Hnd']; subst.
    destruct (eqb_spec k k') as [->|Hn].
    + exfalso. apply Hk. now apply (in_map fst) in Hin.
    + now apply IH.
Qed.

Lemma dict_get_Some_In (k : K) (v : V) (d : list (K * V)) :
  dict_get eqb k d = Some v -> In (k, v) d.
Proof.
  induction d as [|[k' v'] d IH]; simpl; [discriminate|].
  destruct (eqb_spec k k') as [->|Hn].
  - intros [= ->]. now left.
  - intros H. right. now apply IH.
Qed.

Lemma dict_get_key (k : K) (d : list (K * V)) :
  In k (map fst d) -> exists v, dict_get eqb k d = Some v.
Proof.
  induction d as [|[k' v'] d IH]; simpl; [intros []|].
  destruct (eqb_spec k k') as [->|Hn]; [eauto|].
  intros [E|H]; [congruence|auto].
Qed.

Lemma dict_set_values (P : V -> Prop) (k : K) (v : V) (d : list (K * V)) :
  P v -> Forall (fun kv => P (snd kv)) d ->
  Forall (fun kv => P (snd kv)) (dict_set eqb k v d).
Proof.
  intros Hv. induction 1 as [|[k' v'] d Hx Hd IH]; simpl.
  - repeat constructor. exact Hv.
  - destruct (eqb k k'); constructor; auto.
Qed.

End Dict.

Lemma string_eqb_spec (a b : string) : reflect (a = b) (String.eqb a b).
Proof. apply String.eqb_spec. Qed.

Lemma Z_eqb_spec (a b : Z) : reflect (a = b) (Z.eqb a b).
Proof. apply Z.eqb_spec. Qed.

(** Sum of a list of Python integers. *)
Definition zsum (l : list Z) : Z := fold_right Z.add 0 l.

Lemma zsum_nonneg (l : list Z) : Forall (fun x => 0 <= x) l -> 0 <= zsum l.
Proof. induction 1; simpl; lia. Qed.

(* ------------------------------------------------------------------ *)
(** ** Window aggregation and node rollup                              *)
(* ------------------------------------------------------------------ *)

Module Analysis.
Import rocketpool_analysis_only.

(** *** Grouping by node *)

(** The records of [performance_data] that belong to node [a]. *)
Definition records_of (a : string) (performance_data : list Aggregate.t) : list Aggregate.t :=
  filter (fun r => String.eqb (Aggregate.node_address r) a) performance_data.

(** The roster validators owned by node [a]. *)
Definition roster_of (a : string) (all_rp_validators : list Validator.t) : list Validator.t :=
  filter (fun v => String.eqb (Validator.node_address v) a) all_rp_validators.

Lemma dict_default_set_eq {V : Type} (dflt v : V) (k : string) (d : list (string * V)) :
  dict_default dflt k (dict_set String.eqb k v d) = v.
Proof. unfold dict_default. now rewrite (dict_get_set_eq String.eqb string_eqb_spec). Qed.

Lemma dict_default_set_neq {V : Type} (dflt v : V) (k k' : string) (d : list (string * V)) :
  k <> k' -> dict_default dflt k (dict_set String.eqb k' v d) = dict_default dflt k d.
Proof. intros H. unfold dict_default. now rewrite (dict_get_set_neq String.eqb string_eqb_spec). Qed.

Lemma fold_add_record (a : string) (performance_data : list Aggregate.t) :
  forall node_data,
    dict_default NodeData.default a (fold_left add_record performance_data node_data)
    = fold_left accumulate (records_of a performance_data)
                (dict_default NodeData.default a node_data).
Proof.
  induction performance_data as [|r l IH]; intros nd; simpl; [reflexivity|].
  rewrite IH. unfold add_record.
  destruct (String.eqb_spec (Aggregate.node_address r) a) as [E|Hn]; simpl.
  - rewrite E. now rewrite dict_default_set_eq.
  - rewrite dict_default_set_neq by congruence. reflexivity.
Qed.

Lemma group_by_node_spec (a : string) (performance_data : list Aggregate.t) :
  dict_default NodeData.default a (group_by_node performance_data)
  = fold_left accumulate (records_of a performance_data) NodeData.default.
Proof. unfold group_by_node. now rewrite fold_add_record. Qed.

Lemma accumulate_earned (l : list Aggregate.t) :
  forall d, NodeData.total_earned_rewards (fold_left accumulate l d)
            = NodeData.total_earned_rewards d + zsum (map Aggregate.total_earned_rewards l).
Proof. induction l as [|r l IH]; intros d; simpl; [lia|]. rewrite IH. simpl. lia. Qed.

Lemma accumulate_missed (l : list Aggregate.t) :
  forall d, NodeData.total_missed_rewards (fold_left accumulate l d)
            = NodeData.total_missed_rewards d + zsum (map Aggregate.total_missed_rewards l).
Proof. induction l as [|r l IH]; intros d; simpl; [lia|]. rewrite IH. simpl. lia. Qed.

Lemma accumulate_possible (l : list Aggregate.t) :
  forall d, NodeData.total_possible_rewards (fold_left accumulate l d)
            = NodeData.total_possible_rewards d + zsum (map Aggregate.total_possible_rewards l).
Proof. induction l as [|r l IH]; intros d; simpl; [lia|]. rewrite IH. simpl. lia. Qed.

Lemma accumulate_last_attestations (l : list Aggregate.t) :
  forall d, NodeData.last_attestations (fold_left accumulate l d)
            = NodeData.last_attestations d ++ map Aggregate.last_attestation l.
Proof.
  induction l as [|r l IH]; intros d; simpl; [now rewrite List.app_nil_r|].
  rewrite IH. simpl. now rewrite <- app_assoc.
Qed.

Lemma accumulate_below (l : list Aggregate.t) :
  forall d, NodeData.validators_below_32_eth (fold_left accumulate l d)
            = NodeData.validators_below_32_eth d
              + len (filter (fun r => qlt (Aggregate.val_balance_eth r) (319 # 10)) l).
Proof.
  induction l as [|r l IH]; intros d; simpl; [rewrite len_nil; lia|].
  rewrite IH. simpl.
  destruct (qlt (Aggregate.val_balance_eth r) (319 # 10)); rewrite ?len_cons; lia.
Qed.

Lemma accumulate_active_In (l : list Aggregate.t) :
  forall d x, In x (NodeData.active_validators (fold_left accumulate l d))
              <-> In x (NodeData.active_validators d) \/ In x (map Aggregate.val_id l).
Proof.
  induction l as [|r l IH]; intros d x; simpl; [tauto|].
  rewrite IH. simpl. rewrite set_add_iff. intuition.
Qed.

Lemma accumulate_active_NoDup (l : list Aggregate.t) :
  forall d, NoDup (NodeData.active_validators d) ->
            NoDup (NodeData.active_validators (fold_left accumulate l d)).
Proof.
  induction l as [|r l IH]; intros d H; simpl; [exact H|].
  apply IH. simpl. now apply set_add_nodup.
Qed.

(** The set of a node's active validators has one element per distinct id. *)
Lemma accumulate_active_len (l : list Aggregate.t) :
  len (NodeData.active_validators (fold_left accumulate l NodeData.default))
  = len (nodup Z.eq_dec (map Aggregate.val_id l)).
Proof.
  unfold len. f_equal. apply Permutation_length. apply NoDup_Permutation.
  - apply accumulate_active_NoDup. constructor.
  - apply NoDup_nodup.
  - intros x. rewrite accumulate_active_In, nodup_In. simpl. tauto.
Qed.

(** *** Minipool counts *)

Definition count_step (counts : list (string * MinipoolCounts)) (validator : Validator.t) :=
  let node_addr := Validator.node_address validator in
  let c := dict_default (mkMinipoolCounts 0 0 0) node_addr counts in
  dict_set String.eqb node_addr
    (mkMinipoolCounts (count_total c + 1) (count_active c) (count_exited c)) counts.

Lemma count_minipools_fold (all_rp_validators : list Validator.t) :
  count_minipools all_rp_validators = fold_left count_step all_rp_validators [].
Proof. reflexivity. Qed.

Lemma fold_count_step_total (a : string) (l : list Validator.t) :
  forall counts,
    count_total (dict_default (mkMinipoolCounts 0 0 0) a (fold_left count_step l counts))
    = count_total (dict_default (mkMinipoolCounts 0 0 0) a counts) + len (roster_of a l).
Proof.
  unfold roster_of.
  induction l as [|v l IH]; intros counts; simpl; [rewrite (@len_nil Validator.t); lia|].
  rewrite IH. unfold count_step.
  destruct (String.eqb_spec (Validator.node_address v) a) as [E|Hn].
  - rewrite E, dict_default_set_eq, len_cons. cbn [count_total]. lia.
  - rewrite dict_default_set_neq by congruence. reflexivity.
Qed.

Lemma fold_count_step_NoDup (l : list Validator.t) :
  forall counts, NoDup (map fst counts) -> NoDup (map fst (fold_left count_step l counts)).
Proof.
  induction l as [|v l IH]; intros counts H; simpl; [exact H|].
  apply IH. unfold count_step. now apply (dict_set_keys_NoDup String.eqb string_eqb_spec).
Qed.

Lemma fold_count_step_keys (a : string) (l : list Validator.t) :
  forall counts,
    In a (map fst (fold_left count_step l counts))
    <-> In a (map fst counts) \/ In a (map Validator.node_address l).
Proof.
  induction l as [|v l IH]; intros counts; simpl; [tauto|].
  rewrite IH. unfold count_step. rewrite (dict_set_keys_In String.eqb string_eqb_spec).
  intuition.
Qed.

Lemma count_minipools_NoDup (all_rp_validators : list Validator.t) :
  NoDup (map fst (count_minipools all_rp_validators)).
Proof. rewrite count_minipools_fold. apply fold_count_step_NoDup. constructor. Qed.

Lemma count_minipools_keys (a : string) (all_rp_validators : list Validator.t) :
  In a (map fst (count_minipools all_rp_validators))
  <-> In a (map Validator.node_address all_rp_validators).
Proof. rewrite count_minipools_fold, fold_count_step_keys. simpl. tauto. Qed.

Lemma count_minipools_total (a : string) (c : MinipoolCounts) (all_rp_validators : list Validator.t) :
  In (a, c) (count_minipools all_rp_validators) ->
  count_total c = len (roster_of a all_rp_validators).
Proof.
  intros H.
  pose proof (fold_count_step_total a all_rp_validators []) as T.
  rewrite <- count_minipools_fold in T.
  unfold dict_default at 1 in T.
  rewrite (dict_get_In String.eqb string_eqb_spec a c) in T
    by (auto using count_minipools_NoDup).
  rewrite T. reflexivity.
Qed.

(** *** The node list *)




Lemma sort_nodes_perm (l : list Node.t) : Permutation (sort_nodes l) l.
Proof. apply stable_sort_perm. Qed.


Lemma apply_threshold_In (t : option Threshold) (l : list Node.t) (n : Node.t) :
  In n (apply_threshold t l) -> In n l.
Proof.
  destruct t as [[|q]|]; simpl; auto. intros H. now apply filter_In in H.
Qed.


(** The record computed for node [a] with counts [c]. *)
Definition node_record (performance_data : list Aggregate.t) (scan_data : option (list ScanNode))
  (fusaka_deaths : option FusakaDeaths) (a : string) (c : MinipoolCounts) : Node.t :=
  fst (node_score performance_data (group_by_node performance_data) scan_data
         (initial_fusaka_deaths fusaka_deaths) a c).

Lemma score_nodes_records (performance_data : list Aggregate.t) (all_rp_validators : list Validator.t)
  (scan_data : option (list ScanNode)) (fusaka_deaths : option FusakaDeaths) :
  fst (score_nodes performance_data all_rp_validators scan_data (initial_fusaka_deaths fusaka_deaths))
  = map (fun kv => node_record performance_data scan_data fusaka_deaths (fst kv) (snd kv))
        (count_minipools all_rp_validators).
Proof. unfold score_nodes. simpl. now rewrite map_map. Qed.

Lemma calculate_fst (now : string) (performance_data : list Aggregate.t)
  (all_rp_validators : list Validator.t) (threshold_filter : option Threshold)
  (scan_data : option (list ScanNode)) (fusaka_deaths : option FusakaDeaths) :
  fst (calculate_node_performance_scores now performance_data all_rp_validators
         threshold_filter scan_data fusaka_deaths)
  = apply_threshold threshold_filter
      (sort_nodes (fst (score_nodes performance_data all_rp_validators scan_data
                          (initial_fusaka_deaths fusaka_deaths)))).
Proof.
  unfold calculate_node_performance_scores.
  destruct (score_nodes _ _ _ _). reflexivity.
Qed.

Lemma calculate_snd (now : string) (performance_data : list Aggregate.t)
  (all_rp_validators : list Validator.t) (threshold_filter : option Threshold)
  (scan_data : option (list ScanNode)) (fusaka_deaths : option FusakaDeaths) :
  snd (calculate_node_performance_scores now performance_data all_rp_validators
         threshold_filter scan_data fusaka_deaths)
  = update_fusaka_deaths now (initial_fusaka_deaths fusaka_deaths)
      (snd (score_nodes performance_data all_rp_validators scan_data
              (initial_fusaka_deaths fusaka_deaths))).
Proof.
  unfold calculate_node_performance_scores.
  destruct (score_nodes _ _ _ _). reflexivity.
Qed.

(** Every node of the returned list is the record of a roster node. *)
Lemma calculate_nodes (now : string) (performance_data : list Aggregate.t)
  (all_rp_validators : list Validator.t) (threshold_filter : option Threshold)
  (scan_data : option (list ScanNode)) (fusaka_deaths : option FusakaDeaths) (n : Node.t) :
  In n (fst (calculate_node_performance_scores now performance_data all_rp_validators
               threshold_filter scan_data fusaka_deaths)) ->
  exists a c, In (a, c) (count_minipools all_rp_validators)
              /\ n = node_record performance_data scan_data fusaka_deaths a c.
Proof.
  rewrite calculate_fst. intros H. apply apply_threshold_In in H.
  apply (Permutation_in _ (sort_nodes_perm _)) in H.
  rewrite score_nodes_records in H. apply in_map_iff in H.
  destruct H as [[a c] [E H]]. exists a, c. split; [exact H|now symmetry].
Qed.

(** *** C5 *)

(** C5: in every node record of the rollup, active plus exited minipools is
    the total; the total is the number of roster validators of the node,
    active is the number of distinct validator ids among the node's
    performance records, and exited is the rest. *)
Theorem minipool_count_invariant (now : string) (performance_data : list Aggregate.t)
  (all_rp_validators : list Validator.t) (threshold_filter : option Threshold)
  (scan_data : option (list ScanNode)) (fusaka_deaths : option FusakaDeaths) (n : Node.t) :
  In n (fst (calculate_node_performance_scores now performance_data all_rp_validators
               threshold_filter scan_data fusaka_deaths)) ->
  Node.active_minipools n + Node.exited_minipools n = Node.total_minipools n
  /\ Node.total_minipools n = len (roster_of (Node.node_address n) all_rp_validators)
  /\ Node.active_minipools n
     = len (nodup Z.eq_dec
              (map Aggregate.val_id (records_of (Node.node_address n) performance_data)))
  /\ Node.exited_minipools n = Node.total_minipools n - Node.active_minipools n.
Proof.
  intros H. apply calculate_nodes in H. destruct H as [a [c [Hin ->]]].
  unfold node_record, node_score. cbn [fst Node.active_minipools Node.exited_minipools
    Node.total_minipools Node.node_address].
  rewrite group_by_node_spec, accumulate_active_len.
  rewrite (count_minipools_total a c all_rp_validators Hin).
  repeat split; lia.
Qed.

(** *** C10 *)

Lemma qlt_iff (a b : Q) : qlt a b = true <-> (a < b)%Q.
Proof.
  unfold qlt. rewrite negb_true_iff. split.
  - intros H. apply Qnot_le_lt. intros Hle. apply Qle_bool_iff in Hle. congruence.
  - intros H. destruct (Qle_bool b a) eqn:E; [|reflexivity].
    apply Qle_bool_iff in E. exfalso. exact (Qlt_not_le _ _ H E).
Qed.

Lemma gwei_below_31_9 (b : Z) :
  qlt (inject_Z b / inject_Z 1000000000) (319 # 10) = (b <? 31900000000).
Proof.
  unfold qlt.
  destruct (Qle_bool (319 # 10) (inject_Z b / inject_Z 1000000000)) eqn:E.
  - apply Qle_bool_iff in E. unfold Qle in E. cbn in E.
    symmetry. apply Z.ltb_ge. lia.
  - assert (H : ~ (319 # 10 <= inject_Z b / inject_Z 1000000000)%Q)
      by (rewrite <- Qle_bool_iff; congruence).
    unfold Qle in H. cbn in H. symmetry. apply Z.ltb_lt. lia.
Qed.

Lemma gwei_positive (b : Z) :
  qlt 0 (inject_Z b / inject_Z 1000000000) = (0 <? b).
Proof.
  unfold qlt.
  destruct (Qle_bool (inject_Z b / inject_Z 1000000000) 0) eqn:E.
  - apply Qle_bool_iff in E. unfold Qle in E. cbn in E.
    symmetry. apply Z.ltb_ge. lia.
  - assert (H : ~ (inject_Z b / inject_Z 1000000000 <= 0)%Q)
      by (rewrite <- Qle_bool_iff; congruence).
    unfold Qle in H. cbn in H. symmetry. apply Z.ltb_lt. lia.
Qed.

Lemma is_below_31_9_int (p : collect_daily_stats.PerfEntry) :
  collect_daily_stats.is_below_31_9 p
  = (collect_daily_stats.latest_balance p <? 31900000000)
    && (0 <? collect_daily_stats.latest_balance p).
Proof.
  unfold collect_daily_stats.is_below_31_9, collect_daily_stats.balance_eth.
  fold (qlt (inject_Z (collect_daily_stats.latest_balance p) / inject_Z 1000000000) (319 # 10)).
  fold (qlt 0 (inject_Z (collect_daily_stats.latest_balance p) / inject_Z 1000000000)).
  now rewrite gwei_below_31_9, gwei_positive.
Qed.

Lemma snapshot_below_31_9 {Entry : Type} (fusaka_file : list Entry)
  (performance_data : list collect_daily_stats.PerfEntry)
  (node_assignments validator_statuses : list (Z * string)) (end_epoch : Z) :
  collect_daily_stats.below_31_9_eth
    (collect_daily_stats.calculate_snapshot_metrics fusaka_file performance_data
       node_assignments validator_statuses end_epoch)
  = collect_daily_stats.count collect_daily_stats.is_below_31_9 performance_data.
Proof.
  unfold collect_daily_stats.calculate_snapshot_metrics.
  destruct (fold_left _ performance_data _) as [np [[e m] p]]. reflexivity.
Qed.

Lemma node_record_below (performance_data : list Aggregate.t) (scan_data : option (list ScanNode))
  (fusaka_deaths : option FusakaDeaths) (a : string) (c : MinipoolCounts) :
  Node.validators_below_32_eth (node_record performance_data scan_data fusaka_deaths a c)
  = len (filter (fun r => qlt (Aggregate.val_balance_eth r) (319 # 10))
                (records_of a performance_data)).
Proof.
  unfold node_record, node_score. cbn [fst Node.validators_below_32_eth].
  rewrite group_by_node_spec, accumulate_below. reflexivity.
Qed.

(** C10: the snapshot's [below_31_9_eth] counts exactly the validators
    whose latest balance in ETH is strictly between 0 and 31.9 (in gwei:
    [0 < b < 31_900_000_000]), so a zero balance is never counted; the
    rollup's [validators_below_32_eth] counts every record of the node whose
    balance in ETH is strictly below 31.9, and a record with a zero (or
    null) balance is among them. *)
Theorem below_31_9_excludes_zero_balance :
  (forall (fusaka_file : list FusakaEntry) performance_data node_assignments
          validator_statuses end_epoch,
      collect_daily_stats.below_31_9_eth
        (collect_daily_stats.calculate_snapshot_metrics fusaka_file performance_data
           node_assignments validator_statuses end_epoch)
      = len (filter collect_daily_stats.is_below_31_9 performance_data))
  /\ (forall p,
         collect_daily_stats.is_below_31_9 p = true
         <-> (0 < collect_daily_stats.balance_eth p
              /\ collect_daily_stats.balance_eth p < 319 # 10)%Q)
  /\ (forall p,
         collect_daily_stats.is_below_31_9 p = true
         <-> 0 < collect_daily_stats.latest_balance p < 31900000000)
  /\ (forall p,
         collect_daily_stats.latest_balance p = 0 ->
         collect_daily_stats.is_below_31_9 p = false)
  /\ (forall now performance_data all_rp_validators threshold_filter scan_data fusaka_deaths n,
         In n (fst (calculate_node_performance_scores now performance_data all_rp_validators
                      threshold_filter scan_data fusaka_deaths)) ->
         Node.validators_below_32_eth n
         = len (filter (fun r => qlt (Aggregate.val_balance_eth r) (319 # 10))
                       (records_of (Node.node_address n) performance_data)))
  /\ (forall row validator info,
         or0 (row_val_balance row) = 0 ->
         qlt (Aggregate.val_balance_eth (make_aggregate row validator info)) (319 # 10) = true).
Proof.
  split; [|split; [|split; [|split; [|split]]]].
  - intros. apply snapshot_below_31_9.
  - intros p. unfold collect_daily_stats.is_below_31_9.
    fold (qlt (collect_daily_stats.balance_eth p) (319 # 10)).
    fold (qlt 0 (collect_daily_stats.balance_eth p)).
    rewrite andb_true_iff, !qlt_iff. tauto.
  - intros p. rewrite is_below_31_9_int, andb_true_iff, !Z.ltb_lt. lia.
  - intros p H. rewrite is_below_31_9_int, H. reflexivity.
  - intros now performance_data all_rp_validators threshold_filter scan_data fusaka_deaths n H.
    apply calculate_nodes in H. destruct H as [a [c [_ ->]]].
    rewrite node_record_below. reflexivity.
  - intros row validator info H. cbn [make_aggregate Aggregate.val_balance_eth].
    unfold gwei_to_eth. rewrite H. reflexivity.
Qed.

(** *** The window aggregator *)

(** A row without a successful attestation inside the window. *)
Definition silent (row : Row) : bool :=
  match row_last_attestation_epoch row with
  | None => true
  | Some _ => false
  end.

Definition found_value (kv : Z * Descriptor) : Prop := status (snd kv) = "found"%string.

Lemma split_row_needing (end_epoch : Z) (rows : list Row) :
  forall acc,
    snd (fold_left (split_row end_epoch) rows acc)
    = snd acc ++ map row_val_id (filter silent rows).
Proof.
  induction rows as [|row rows IH]; intros [recent needing]; simpl;
    [now rewrite List.app_nil_r|].
  rewrite IH. unfold silent.
  destruct (row_last_attestation_epoch row); simpl; [reflexivity|].
  now rewrite <- app_assoc.
Qed.

Lemma split_row_found (end_epoch : Z) (rows : list Row) :
  forall acc,
    Forall found_value (fst acc) ->
    Forall found_value (fst (fold_left (split_row end_epoch) rows acc)).
Proof.
  induction rows as [|row rows IH]; intros [recent needing] H; simpl; [exact H|].
  apply IH. destruct (row_last_attestation_epoch row); simpl; [|exact H].
  apply (dict_set_values Z.eqb (fun d => status d = "found"%string)); [reflexivity|exact H].
Qed.

Lemma split_row_keys (end_epoch : Z) (rows : list Row) :
  forall acc k,
    In k (map fst (fst (fold_left (split_row end_epoch) rows acc)))
    <-> In k (map fst (fst acc))
        \/ exists row, In row rows /\ silent row = false /\ row_val_id row = k.
Proof.
  induction rows as [|row rows IH]; intros [recent needing] k; simpl.
  - split; [auto|]. intros [H|[row [[] _]]]. exact H.
  - rewrite IH.
    destruct (row_last_attestation_epoch row) eqn:E; simpl.
    + assert (Hrow : silent row = false) by (unfold silent; now rewrite E).
      rewrite (dict_set_keys_In Z.eqb Z_eqb_spec). split.
      * intros [[->|H]|[r [Hr [Hs Hk]]]]; eauto 7.
      * intros [H|[r [[<-|Hr] [Hs Hk]]]]; eauto 7.
    + assert (Hrow : silent row = true) by (unfold silent; now rewrite E).
      split.
      * intros [H|[r [Hr [Hs Hk]]]]; eauto 7.
      * intros [H|[r [[<-|Hr] [Hs Hk]]]]; eauto 7. congruence.
Qed.

(** A validator seen inside the window has a ['found'] descriptor. *)
Lemma split_rows_recent (end_epoch : Z) (rows : list Row) (row : Row) :
  In row rows -> silent row = false ->
  exists d, dict_get Z.eqb (row_val_id row) (fst (split_rows end_epoch rows)) = Some d
            /\ status d = "found"%string.
Proof.
  intros Hin Hs. unfold split_rows.
  destruct (dict_get_key Z.eqb Z_eqb_spec (row_val_id row)
              (fst (fold_left (split_row end_epoch) rows ([], [])))) as [d Hd].
  { apply split_row_keys. right. eauto. }
  exists d. split; [exact Hd|].
  apply (dict_get_Some_In Z.eqb Z_eqb_spec) in Hd.
  pose proof (split_row_found end_epoch rows ([], []) (Forall_nil _)) as F.
  rewrite Forall_forall in F. exact (F _ Hd).
Qed.

Lemma split_rows_needing (end_epoch : Z) (rows : list Row) :
  snd (split_rows end_epoch rows) = map row_val_id (filter silent rows).
Proof. unfold split_rows. now rewrite split_row_needing. Qed.

(** The extended searches made while one batch is processed. *)
Definition batch_calls (client : Client) (retention : Retention)
  (start_epoch end_epoch latest_epoch : Z) (batch : list Validator.t) : list ExtendedCall :=
  match performance_query client start_epoch end_epoch (map Validator.val_id batch) with
  | None => []
  | Some result_rows =>
      snd (extended_search client (oldest_epoch retention) start_epoch latest_epoch
             (snd (split_rows end_epoch result_rows)))
  end.

Lemma process_batch_calls (client : Client) (retention : Retention)
  (start_epoch end_epoch latest_epoch : Z) (st : AggState) (batch : list Validator.t) :
  snd (process_batch client retention start_epoch end_epoch latest_epoch st batch)
  = snd st ++ batch_calls client retention start_epoch end_epoch latest_epoch batch.
Proof.
  unfold process_batch, batch_calls. destruct st as [aggs calls].
  destruct (performance_query _ _ _ _) as [rows|]; simpl; [|now rewrite List.app_nil_r].
  destruct (split_rows end_epoch rows) as [recent needing]. simpl.
  destruct (extended_search _ _ _ _ _) as [extended new_calls]. reflexivity.
Qed.

Lemma fold_process_batch_calls (client : Client) (retention : Retention)
  (start_epoch end_epoch latest_epoch : Z) (bs : list (list Validator.t)) :
  forall st,
    snd (fold_left (process_batch client retention start_epoch end_epoch latest_epoch) bs st)
    = snd st ++ flat_map (batch_calls client retention start_epoch end_epoch latest_epoch) bs.
Proof.
  induction bs as [|b bs IH]; intros st; simpl; [now rewrite List.app_nil_r|].
  now rewrite IH, process_batch_calls, <- app_assoc.
Qed.

(** The calls of a batch name exactly the silent validators of its rows,
    and only when the oldest retained epoch is known. *)
Lemma batch_calls_ids (client : Client) (retention : Retention)
  (start_epoch end_epoch latest_epoch : Z) (batch : list Validator.t) (rows : list Row) (k : Z) :
  performance_query client start_epoch end_epoch (map Validator.val_id batch) = Some rows ->
  (exists c, In c (batch_calls client retention start_epoch end_epoch latest_epoch batch)
             /\ In k (call_val_ids c))
  <-> (In k (map row_val_id (filter silent rows)) /\ oldest_epoch retention <> None).
Proof.
  intros Hq. unfold batch_calls. rewrite Hq, split_rows_needing.
  unfold extended_search.
  destruct (map row_val_id (filter silent rows)) as [|x needing] eqn:En.
  - simpl. split; [intros [c [[] _]]|intros [[] _]].
  - destruct (oldest_epoch retention) as [oldest|]; simpl.
    + split.
      * intros [c [[<-|[]] Hk]]. simpl in Hk. split; [exact Hk|discriminate].
      * intros [Hk _]. eexists. split; [left; reflexivity|exact Hk].
    + split; [intros [c [[] _]]|intros [_ H]; congruence].
Qed.

Lemma NoDup_map_eq {A B : Type} (f : A -> B) (l : list A) (x y : A) :
  NoDup (map f l) -> In x l -> In y l -> f x = f y -> x = y.
Proof.
  induction l as [|a l IH]; simpl; [intros _ []|].
  intros Hnd Hx Hy E. inversion Hnd as [|? ? Hn Hnd']; subst.
  destruct Hx as [<-|Hx], Hy as [<-|Hy]; auto.
  - exfalso. apply Hn. rewrite E. now apply in_map.
  - exfalso. apply Hn. rewrite <- E. now apply in_map.
Qed.

(** A record built from a row the store returned for the window; a row
    with an attestation inside the window carries a ['found'] descriptor. *)
Definition from_window (client : Client) (start_epoch end_epoch : Z) (r : Aggregate.t) : Prop :=
  exists ids rows row validator info,
    performance_query client start_epoch end_epoch ids = Some rows
    /\ In row rows
    /\ r = make_aggregate row validator info
    /\ (silent row = false -> status info = "found"%string).

Lemma store_row_from_window (client : Client) (start_epoch end_epoch : Z)
  (ids : list (option Z)) (rows : list Row) (batch : list Validator.t)
  (extended : list (Z * Descriptor)) (total_days : option Z) :
  performance_query client start_epoch end_epoch ids = Some rows ->
  forall rows', incl rows' rows ->
  forall aggs,
    Forall (fun kv => from_window client start_epoch end_epoch (snd kv)) aggs ->
    Forall (fun kv => from_window client start_epoch end_epoch (snd kv))
           (fold_left (store_row batch (fst (split_rows end_epoch rows)) extended total_days)
                      rows' aggs).
Proof.
  intros Hq. induction rows' as [|row rows' IH]; intros Hincl aggs H; simpl; [exact H|].
  apply IH; [intros x Hx; apply Hincl; now right|].
  unfold store_row. destruct (find _ batch) as [validator|]; [|exact H].
  apply (dict_set_values Z.eqb); [|exact H].
  exists ids, rows, row, validator. eexists. repeat split; [exact Hq|apply Hincl; now left|].
  intros Hs. unfold last_attestation_info.
  destruct (split_rows_recent end_epoch rows row (Hincl row (or_introl eq_refl)) Hs) as [d [Hd Hf]].
  now rewrite Hd.
Qed.

Lemma process_batch_from_window (client : Client) (retention : Retention)
  (start_epoch end_epoch latest_epoch : Z) (st : AggState) (batch : list Validator.t) :
  Forall (fun kv => from_window client start_epoch end_epoch (snd kv)) (fst st) ->
  Forall (fun kv => from_window client start_epoch end_epoch (snd kv))
         (fst (process_batch client retention start_epoch end_epoch latest_epoch st batch)).
Proof.
  intros H. unfold process_batch. destruct st as [aggs calls].
  destruct (performance_query _ _ _ _) as [rows|] eqn:Hq; [|exact H].
  pose proof (store_row_from_window client start_epoch end_epoch
                (map Validator.val_id batch) rows batch) as S.
  destruct (split_rows end_epoch rows) as [recent needing]. simpl in S.
  destruct (extended_search _ _ _ _ _) as [extended new_calls]. simpl.
  apply (S extended (total_days retention) Hq rows (incl_refl _) aggs H).
Qed.

Lemma query_from_window (client : Client) (validators : list Validator.t)
  (latest_epoch epochs_to_analyze : Z) (r : Aggregate.t) :
  In r (fst (fst (query_attestation_performance client validators latest_epoch epochs_to_analyze))) ->
  from_window client (window_start latest_epoch epochs_to_analyze) latest_epoch r.
Proof.
  unfold query_attestation_performance, run_batches. cbn [fst].
  intros H. apply in_map_iff in H. destruct H as [[k r'] [<- H]].
  assert (F : forall bs st,
             Forall (fun kv => from_window client (window_start latest_epoch epochs_to_analyze)
                                 latest_epoch (snd kv)) (fst st) ->
             Forall (fun kv => from_window client (window_start latest_epoch epochs_to_analyze)
                                 latest_epoch (snd kv))
                    (fst (fold_left (process_batch client (get_database_retention_info client)
                                       (window_start latest_epoch epochs_to_analyze)
                                       latest_epoch latest_epoch) bs st))).
  { induction bs as [|b bs IH]; intros st Hst; simpl; [exact Hst|].
    apply IH. now apply process_batch_from_window. }
  specialize (F (batches batch_size validators) ([], []) (Forall_nil _)).
  rewrite Forall_forall in F. exact (F _ H).
Qed.

(** *** Worked example

    Node [0xA] owns validators 1 and 2, node [0xC] an unresolved one.
    Validator 1 earned 900 and missed 100 inside the window; validator 2 is
    silent inside the window and was last seen at epoch 500. *)

Definition vA : Validator.t := Validator.mk "0xA" "mpA" "pkA" (Some 1).
Definition vB : Validator.t := Validator.mk "0xA" "mpB" "pkB" (Some 2).
Definition vC : Validator.t := Validator.mk "0xC" "mpC" "pkC" None.

Definition rowA : Row :=
  mkRow 1 (Some 900) (Some 100) (Some 0) 225 (Some 200) (Some 990)
        (Some 32000000000) (Some 32000000000).
Definition rowB : Row := mkRow 2 None None None 225 (Some 0) None None None.

Definition example_rows (ids : list (option Z)) : list Row :=
  filter (fun row => existsb (fun i => match i with
                                       | Some i => i =? row_val_id row
                                       | None => false
                                       end) ids) [rowA; rowB].

Definition example_client : Client :=
  mkClient (Some (Some 100, Some 1000))
           (fun _ _ ids => Some (example_rows ids))
           (fun _ _ _ => Some [mkExtRow 2 (Some 500) (Some 100) (Some 700)]).

(** The same store when the retention query raises. *)
Definition example_client_no_retention : Client :=
  mkClient None (performance_query example_client) (extended_query example_client).

Definition example_performance : list Aggregate.t :=
  fst (fst (query_attestation_performance example_client [vA; vB] 1000 225)).

(** *** C6 *)

(** C6, as stated, fails: when the retention query raises, the oldest
    retained epoch is unknown and the extended search is skipped although
    validator 2 has no attestation inside the window. *)
Lemma extended_search_skipped_without_retention :
  performance_query example_client_no_retention (window_start 1000 225) 1000
    (map Validator.val_id [vA; vB]) = Some [rowA; rowB]
  /\ row_last_attestation_epoch rowB = None
  /\ extended_calls example_client_no_retention [vA; vB] 1000 225 = [].
Proof. repeat split. Qed.

(** C6 (amended): the extended searches of a run are those of its batches;
    in a batch whose window query answered (one row per validator id), the
    extended search is invoked for a validator if and only if its row has
    no attestation inside the window and the retention lookup gave an
    oldest epoch; so it is never invoked for a validator attested inside
    the window, and every record built from such a row carries a descriptor
    with status ['found']. *)
Theorem extended_search_iff_silent (client : Client) (validators : list Validator.t)
  (latest_epoch epochs_to_analyze : Z) :
  let retention := get_database_retention_info client in
  let start_epoch := window_start latest_epoch epochs_to_analyze in
  extended_calls client validators latest_epoch epochs_to_analyze
  = flat_map (batch_calls client retention start_epoch latest_epoch latest_epoch)
             (batches batch_size validators)
  /\ (forall batch rows row,
         performance_query client start_epoch latest_epoch (map Validator.val_id batch) = Some rows ->
         NoDup (map row_val_id rows) ->
         In row rows ->
         ((exists c, In c (batch_calls client retention start_epoch latest_epoch latest_epoch batch)
                     /\ In (row_val_id row) (call_val_ids c))
          <-> (row_last_attestation_epoch row = None /\ oldest_epoch retention <> None)))
  /\ (forall r,
         In r (fst (fst (query_attestation_performance client validators
                           latest_epoch epochs_to_analyze))) ->
         exists ids rows row validator info,
           performance_query client start_epoch latest_epoch ids = Some rows
           /\ In row rows
           /\ r = make_aggregate row validator info
           /\ (row_last_attestation_epoch row <> None ->
               status (Aggregate.last_attestation r) = "found"%string)).
Proof.
  intros retention start_epoch. split; [|split].
  - unfold extended_calls, run_batches. now rewrite fold_process_batch_calls.
  - intros batch rows row Hq Hnd Hin.
    rewrite (batch_calls_ids client retention start_epoch latest_epoch latest_epoch batch rows
               (row_val_id row) Hq).
    split; intros [H Ho]; (split; [|exact Ho]).
    + apply in_map_iff in H. destruct H as [row' [Hk H']]. apply filter_In in H'.
      destruct H' as [Hin' Hs].
      assert (row' = row) by (eapply NoDup_map_eq; eauto). subst row'.
      unfold silent in Hs. now destruct (row_last_attestation_epoch row).
    + apply in_map_iff. exists row. split; [reflexivity|].
      apply filter_In. split; [exact Hin|]. unfold silent. now rewrite H.
  - intros r Hr. apply query_from_window in Hr.
    destruct Hr as (ids & rows & row & validator & info & Hq & Hin & -> & Hf).
    exists ids, rows, row, validator, info. repeat split; auto.
    intros Hne. cbn [make_aggregate Aggregate.last_attestation]. apply Hf.
    unfold silent. now destruct (row_last_attestation_epoch row).
Qed.

Lemma extended_search_iff_silent_witness :
  (exists c, In c (batch_calls example_client (get_database_retention_info example_client)
                     (window_start 1000 225) 1000 1000 [vA; vB])
             /\ In (row_val_id rowB) (call_val_ids c))
  <-> (row_last_attestation_epoch rowB = None
       /\ oldest_epoch (get_database_retention_info example_client) <> None).
Proof.
  apply (proj1 (proj2 (extended_search_iff_silent example_client [vA; vB] 1000 225))
           [vA; vB] [rowA; rowB] rowB).
  - reflexivity.
  - repeat constructor; simpl; intuition discriminate.
  - simpl. auto.
Defined.

(** *** C1 *)



Lemma filter_filter {A : Type} (p q : A -> bool) (l : list A) :
  filter p (filter q l) = filter (fun x => q x && p x) l.
Proof.
  induction l as [|x l IH]; simpl; [reflexivity|].
  destruct (q x); simpl; [|exact IH]. now destruct (p x); rewrite IH.
Qed.

Lemma filter_nil_existsb {A : Type} (p : A -> bool) (l : list A) :
  filter p l = [] <-> existsb p l = false.
Proof.
  induction l as [|x l IH]; simpl; [tauto|].
  destruct (p x); simpl; [split; discriminate|exact IH].
Qed.

Lemma node_record_score (performance_data : list Aggregate.t) (scan_data : option (list ScanNode))
  (fusaka_deaths : option FusakaDeaths) (a : string) (c : MinipoolCounts) :
  let n := node_record performance_data scan_data fusaka_deaths a c in
  let mine := records_of a performance_data in
  let earned := zsum (map Aggregate.total_earned_rewards mine) in
  let possible := zsum (map Aggregate.total_possible_rewards mine) in
  Node.performance_score n
  = if 0 <? Node.active_minipools n then
      if existsb has_zero_score mine then Num 0
      else Num (round2 (if 0 <? possible
                        then inject_Z earned / inject_Z possible * 100
                        else 0))
    else NA.
Proof.
  unfold node_record, node_score.
  cbn [fst Node.performance_score Node.active_minipools].
  unfold node_performance_score. rewrite group_by_node_spec.
  destruct (0 <? len _); [|reflexivity].
  rewrite accumulate_earned, accumulate_possible. cbn [NodeData.default
    NodeData.total_earned_rewards NodeData.total_possible_rewards]. rewrite !Z.add_0_l.
  rewrite <- (filter_filter has_zero_score
                (fun r => String.eqb (Aggregate.node_address r) a) performance_data).
  fold (records_of a performance_data).
  destruct (existsb has_zero_score (records_of a performance_data)) eqn:E.
  - destruct (filter has_zero_score (records_of a performance_data)) eqn:F; [|reflexivity].
    apply filter_nil_existsb in F. congruence.
  - apply filter_nil_existsb in E. now rewrite E.
Qed.

(** The records of the aggregator have [total_possible = earned + missed]. *)
Lemma from_window_possible (client : Client) (s e : Z) (l : list Aggregate.t) :
  Forall (from_window client s e) l ->
  zsum (map Aggregate.total_possible_rewards l)
  = zsum (map Aggregate.total_earned_rewards l) + zsum (map Aggregate.total_missed_rewards l).
Proof.
  induction 1 as [|r l Hr Hl IH]; simpl; [reflexivity|].
  destruct Hr as (ids & rows & row & validator & info & _ & _ & -> & _).
  cbn [make_aggregate Aggregate.total_possible_rewards Aggregate.total_earned_rewards
       Aggregate.total_missed_rewards]. lia.
Qed.


Definition example_nodes : list Node.t :=
  fst (calculate_node_performance_scores "now" example_performance [vA; vB; vC]
         None None None).


(** Without validator 2, validator 1 gives its node 90%. *)
Example validator_1_alone_scores_90 :
  map Node.performance_score
      (fst (calculate_node_performance_scores "now"
              (filter (fun r => Aggregate.val_id r =? 1) example_performance)
              [vA; vB; vC] None None None))
  = [Num (9000 # 100); NA].
Proof. reflexivity. Qed.

(** Delegate flags [true, true, false] are ['partial'], ["2/3"]. *)
Example uld_partial :
  calculate_uld_status "0xA"
    (Some [mkScanNode "0xA" (Some [Some true; Some true; Some false])])
  = mkUldInfo "partial" (Some "2/3"%string).
Proof. reflexivity. Qed.

(** *** C8 *)



Lemma round_half_even_nonneg (q : Q) : (0 <= q)%Q -> 0 <= round_half_even q.
Proof.
  intros H. unfold round_half_even.
  assert (F : 0 <= Qfloor q) by (change 0 with (Qfloor 0); now apply Qfloor_resp_le).
  destruct (Qcompare _ _); [destruct (Z.even _)| |]; lia.
Qed.

Lemma round2_nonneg (q : Q) : (0 <= q)%Q -> (0 <= round2 q)%Q.
Proof.
  intros H. unfold round2.
  assert (F : 0 <= round_half_even (q * 100)).
  { apply round_half_even_nonneg. apply Qmult_le_0_compat; [exact H|discriminate]. }
  unfold Qle. cbn. lia.
Qed.

Lemma percent_nonneg (e p : Z) : 0 <= e -> 0 < p -> (0 <= inject_Z e / inject_Z p * 100)%Q.
Proof.
  intros He Hp. apply Qmult_le_0_compat; [|discriminate].
  apply Qle_shift_div_l.
  - change 0%Q with (inject_Z 0). rewrite <- Zlt_Qlt. exact Hp.
  - rewrite Qmult_0_l. change 0%Q with (inject_Z 0). rewrite <- Zle_Qle. exact He.
Qed.

Lemma node_record_score_nonneg (performance_data : list Aggregate.t)
  (scan_data : option (list ScanNode)) (fusaka_deaths : option FusakaDeaths)
  (a : string) (c : MinipoolCounts) (q : Q) :
  (forall r, In r performance_data -> 0 <= Aggregate.total_earned_rewards r) ->
  Node.performance_score (node_record performance_data scan_data fusaka_deaths a c) = Num q ->
  (0 <= q)%Q.
Proof.
  intros Hpos. rewrite node_record_score.
  destruct (0 <? _); [|discriminate].
  destruct (existsb _ _); intros [= <-]; [discriminate|].
  apply round2_nonneg.
  destruct (0 <? zsum (map Aggregate.total_possible_rewards _)) eqn:Ep; [|discriminate].
  apply percent_nonneg; [|now apply Z.ltb_lt].
  apply zsum_nonneg. apply Forall_forall. intros x Hx.
  apply in_map_iff in Hx. destruct Hx as [r [<- Hr]].
  apply filter_In in Hr. apply Hpos. exact (proj1 Hr).
Qed.



(** *** C2 *)

(** The descriptor the rollup computes for node [a] before any override. *)
Definition computed_descriptor (performance_data : list Aggregate.t) (a : string) : Descriptor :=
  get_node_last_attestation (map Aggregate.last_attestation (records_of a performance_data)).

(** [a] is a node of the roster. *)
Definition in_roster (a : string) (all_rp_validators : list Validator.t) : bool :=
  existsb (String.eqb a) (map Validator.node_address all_rp_validators).

Lemma node_data_last_attestations (performance_data : list Aggregate.t) (a : string) :
  NodeData.last_attestations (dict_default NodeData.default a (group_by_node performance_data))
  = map Aggregate.last_attestation (records_of a performance_data).
Proof. now rewrite group_by_node_spec, accumulate_last_attestations. Qed.

Lemma node_record_last_attestation (performance_data : list Aggregate.t)
  (scan_data : option (list ScanNode)) (fusaka_deaths : option FusakaDeaths)
  (a : string) (c : MinipoolCounts) :
  Node.last_attestation (node_record performance_data scan_data fusaka_deaths a c)
  = let computed := computed_descriptor performance_data a in
    if in_fusaka_lookup a (initial_fusaka_deaths fusaka_deaths)
    then (if recovered computed then computed else fusaka_override computed)
    else computed.
Proof.
  unfold node_record, node_score. cbn [fst Node.last_attestation].
  now rewrite node_data_last_attestations.
Qed.

Lemma node_score_removed (performance_data : list Aggregate.t)
  (scan_data : option (list ScanNode)) (f : FusakaDeaths) (a : string) (c : MinipoolCounts) :
  snd (node_score performance_data (group_by_node performance_data) scan_data f a c)
  = in_fusaka_lookup a f && recovered (computed_descriptor performance_data a).
Proof.
  unfold node_score. cbn [snd]. now rewrite node_data_last_attestations.
Qed.

(** The nodes removed in a run: tracked roster nodes that recovered. *)
Lemma validators_to_remove_spec (performance_data : list Aggregate.t)
  (all_rp_validators : list Validator.t) (scan_data : option (list ScanNode))
  (f : FusakaDeaths) (a : string) :
  str_in a (snd (score_nodes performance_data all_rp_validators scan_data f))
  = in_roster a all_rp_validators
    && in_fusaka_lookup a f
    && recovered (computed_descriptor performance_data a).
Proof.
  apply eq_true_iff_eq. unfold str_in, in_roster.
  rewrite !andb_true_iff, !(existsb_eqb_In String.eqb string_eqb_spec).
  rewrite <- count_minipools_keys.
  unfold score_nodes. cbn [snd]. rewrite !in_map_iff. split.
  - intros [[n b] [<- H]]. apply filter_In in H. destruct H as [H Hb].
    apply in_map_iff in H. destruct H as [[k c] [E H]].
    cbn [fst snd] in *. subst b.
    assert (Hn : Node.node_address n = k) by (now inversion E).
    rewrite Hn.
    assert (Hr : snd (node_score performance_data (group_by_node performance_data)
                        scan_data f k c) = true) by (now rewrite E).
    rewrite node_score_removed in Hr. apply andb_true_iff in Hr.
    repeat split; try tauto. exists (k, c). auto.
  - intros [[[[k c] [Hk H]] Ht] Hr]. cbn [fst] in Hk. subst k.
    exists (node_score performance_data (group_by_node performance_data) scan_data f a c).
    split; [reflexivity|]. apply filter_In. split.
    + apply in_map_iff. exists (a, c). auto.
    + rewrite node_score_removed. now rewrite Ht, Hr.
Qed.

Lemma update_fusaka_deaths_validators (now : string) (f : FusakaDeaths) (to_remove : list string) :
  fusaka_validators (update_fusaka_deaths now f to_remove)
  = filter (fun v => negb (str_in (fusaka_node_address v) to_remove)) (fusaka_validators f).
Proof.
  destruct to_remove as [|x l]; [|reflexivity].
  simpl. symmetry. apply forallb_filter_id. apply forallb_forall. reflexivity.
Qed.

Lemma in_fusaka_lookup_filter (a : string) (p : string -> bool) (l : list FusakaEntry)
  (count : option Z) (updated : option string) :
  in_fusaka_lookup a (mkFusakaDeaths (filter (fun v => p (fusaka_node_address v)) l) count updated)
  = in_fusaka_lookup a (mkFusakaDeaths l None None) && p a.
Proof.
  unfold in_fusaka_lookup. cbn [fusaka_validators].
  induction l as [|v l IH]; simpl; [reflexivity|].
  destruct (p (fusaka_node_address v)) eqn:Ep; simpl; rewrite IH.
  - destruct (String.eqb_spec (fusaka_node_address v) a) as [E|Hn]; simpl; [|reflexivity].
    now rewrite <- E, Ep.
  - destruct (String.eqb_spec (fusaka_node_address v) a) as [E|Hn]; simpl; [|reflexivity].
    rewrite <- E, Ep. now rewrite !andb_false_r.
Qed.

(** C2: for a roster node that is in the persistent Fusaka set when the
    rollup starts: if its freshly computed descriptor has status ['found']
    or ['found_extended'] and an epoch above the fork epoch 411392, the node
    is not in the set the run returns and every record reported for it
    carries the computed descriptor; otherwise it stays in the set and
    every record reported for it carries the ['fusaka_death'] descriptor
    pinned at the fork epoch.  The returned set is the initial one without
    the recovered roster nodes: nothing else is added or removed. *)
Theorem fusaka_death_tracker (now : string) (performance_data : list Aggregate.t)
  (all_rp_validators : list Validator.t) (threshold_filter : option Threshold)
  (scan_data : option (list ScanNode)) (f : FusakaDeaths) (a : string) :
  in_roster a all_rp_validators = true ->
  in_fusaka_lookup a f = true ->
  let computed := computed_descriptor performance_data a in
  let result := calculate_node_performance_scores now performance_data all_rp_validators
                  threshold_filter scan_data (Some f) in
  (recovered computed = true
   <-> (status computed = "found"%string \/ status computed = "found_extended"%string)
       /\ exists e, epoch computed = Some e /\ 411392 < e)
  /\ (if recovered computed then
        in_fusaka_lookup a (snd result) = false
        /\ forall n, In n (fst result) -> Node.node_address n = a ->
                     Node.last_attestation n = computed
      else
        in_fusaka_lookup a (snd result) = true
        /\ forall n, In n (fst result) -> Node.node_address n = a ->
                     Node.last_attestation n
                     = mkDescriptor (Some 411392) (Some (1606824023 + 411392 * 32 * 12))
                                    (Some (Literal "2025-12-03T21:49:11"))
                                    (age_epochs computed) "fusaka_death")
  /\ ((threshold_filter = None \/ threshold_filter = Some ThresholdAll) ->
      exists n, In n (fst result) /\ Node.node_address n = a)
  /\ fusaka_validators (snd result)
     = filter (fun v => negb (in_roster (fusaka_node_address v) all_rp_validators
                              && recovered (computed_descriptor performance_data
                                              (fusaka_node_address v))))
              (fusaka_validators f).
Proof.
  intros Hroster Htracked computed result.
  assert (Hrec : forall n, In n (fst result) -> Node.node_address n = a ->
                           Node.last_attestation n
                           = if recovered computed then computed else fusaka_override computed).
  { intros n Hn Ha. apply calculate_nodes in Hn. destruct Hn as [k [c [_ ->]]].
    change (k = a) in Ha. subst k.
    rewrite node_record_last_attestation. cbn [initial_fusaka_deaths].
    now rewrite Htracked. }
  assert (Hset : fusaka_validators (snd result)
                 = filter (fun v => negb (in_roster (fusaka_node_address v) all_rp_validators
                                          && recovered (computed_descriptor performance_data
                                                          (fusaka_node_address v))))
                          (fusaka_validators f)).
  { unfold result. rewrite calculate_snd, update_fusaka_deaths_validators.
    cbn [initial_fusaka_deaths].
    apply filter_ext_in. intros v Hv. rewrite validators_to_remove_spec.
    assert (Hl : in_fusaka_lookup (fusaka_node_address v) f = true).
    { unfold in_fusaka_lookup. apply existsb_exists. exists v.
      split; [exact Hv|apply String.eqb_refl]. }
    now rewrite Hl, andb_true_r. }
  split; [|split; [|split]].
  - unfold recovered, is_found, str_in. cbn [existsb]. rewrite orb_false_r.
    rewrite andb_true_iff, orb_true_iff, !String.eqb_eq. fold FUSAKA_EPOCH.
    split.
    + intros [Hs He]. split; [exact Hs|].
      destruct (epoch computed) as [e|]; [|discriminate].
      exists e. split; [reflexivity|]. now apply Z.ltb_lt.
    + intros [Hs [e [He Hlt]]]. split; [exact Hs|].
      rewrite He. now apply Z.ltb_lt.
  - assert (Hlook : in_fusaka_lookup a (snd result) = negb (recovered computed)).
    { destruct (snd result) as [vals cnt upd] eqn:Er.
      cbn [fusaka_validators] in Hset. rewrite Hset.
      rewrite (in_fusaka_lookup_filter a
                 (fun b => negb (in_roster b all_rp_validators
                                 && recovered (computed_descriptor performance_data b)))).
      rewrite Hroster. cbn [andb].
      replace (in_fusaka_lookup a (mkFusakaDeaths (fusaka_validators f) None None))
        with (in_fusaka_lookup a f) by reflexivity.
      now rewrite Htracked. }
    destruct (recovered computed) eqn:Er; (split; [now rewrite Hlook|]).
    + intros n Hn Ha. now rewrite (Hrec n Hn Ha).
    + intros n Hn Ha. rewrite (Hrec n Hn Ha). reflexivity.
  - intros Hall. unfold in_roster in Hroster.
    apply (existsb_eqb_In String.eqb string_eqb_spec) in Hroster.
    apply count_minipools_keys in Hroster. apply in_map_iff in Hroster.
    destruct Hroster as [[k c] [Hk Hin]]. cbn [fst] in Hk. subst k.
    exists (node_record performance_data scan_data (Some f) a c). split; [|reflexivity].
    unfold result. rewrite calculate_fst.
    assert (Hs : In (node_record performance_data scan_data (Some f) a c)
                    (sort_nodes (fst (score_nodes performance_data all_rp_validators scan_data
                                        (initial_fusaka_deaths (Some f)))))).
    { apply (Permutation_in _ (Permutation_sym (sort_nodes_perm _))).
      rewrite score_nodes_records. apply in_map_iff. exists (a, c). auto. }
    destruct Hall as [-> | ->]; exact Hs.
  - exact Hset.
Qed.

Definition example_fusaka : FusakaDeaths :=
  mkFusakaDeaths [mkFusakaEntry "0xA" 411392 1764798551 "2025-12-03T21:49:11"] (Some 1) None.

(** Node [0xA] was last seen at epoch 990, before the fork: it stays tracked. *)
Lemma fusaka_death_tracker_witness :
  in_fusaka_lookup "0xA"
    (snd (calculate_node_performance_scores "now" example_performance [vA; vB; vC]
            None None (Some example_fusaka))) = true.
Proof.
  pose proof (fusaka_death_tracker "now" example_performance [vA; vB; vC] None None
                example_fusaka "0xA" eq_refl eq_refl) as H.
  cbv zeta in H. destruct H as [_ [H _]]. exact (proj1 H).
Defined.

(** Recovery: validator 1 attests at epoch 500000, after the fork; its node
    leaves the set in the same run and is reported with the real
    descriptor. *)
Definition late_client : Client :=
  mkClient (Some (Some 499000, Some 500010))
           (fun _ _ _ => Some [mkRow 1 (Some 900) (Some 100) (Some 0) 225 (Some 200)
                                     (Some 500000) (Some 32000000000) (Some 32000000000)])
           (fun _ _ _ => Some []).

Example fusaka_recovery :
  let performance_data := fst (fst (query_attestation_performance late_client [vA] 500010 225)) in
  let result := calculate_node_performance_scores "now" performance_data [vA] None None
                  (Some example_fusaka) in
  fusaka_validators (snd result) = []
  /\ fusaka_total_count (snd result) = Some 0
  /\ map (fun n => (status (Node.last_attestation n), epoch (Node.last_attestation n)))
         (fst result)
     = [("found"%string, Some 500000)].
Proof. repeat split. Qed.

Lemma minipool_count_invariant_witness :
  Node.active_minipools (node_record example_performance None None "0xA" (mkMinipoolCounts 2 0 0))
  + Node.exited_minipools (node_record example_performance None None "0xA" (mkMinipoolCounts 2 0 0))
  = Node.total_minipools (node_record example_performance None None "0xA" (mkMinipoolCounts 2 0 0)).
Proof.
  apply (minipool_count_invariant "now" example_performance [vA; vB; vC] None None None).
  left. reflexivity.
Defined.

Lemma below_31_9_excludes_zero_balance_witness :
  collect_daily_stats.is_below_31_9 (collect_daily_stats.mkPerfEntry 7 0 0 0 0 225 None 0) = false.
Proof.
  apply (proj1 (proj2 (proj2 (proj2 below_31_9_excludes_zero_balance)))).
  reflexivity.
Defined.

(** *** C7 *)

Lemma max_from_In {A : Type} (key : A -> Z) (l : list A) :
  forall best, In (max_from key best l) (best :: l).
Proof.
  induction l as [|x l IH]; intros best; simpl; [auto|].
  destruct (key best <? key x).
  - right. apply IH.
  - destruct (IH best) as [H|H]; auto.
Qed.

Lemma max_from_ge {A : Type} (key : A -> Z) (l : list A) :
  forall best x, In x (best :: l) -> key x <= key (max_from key best l).
Proof.
  induction l as [|y l IH]; intros best x; simpl.
  - intros [<-|[]]. lia.
  - destruct (key best <? key y) eqn:E.
    + apply Z.ltb_lt in E. intros [<-|[<-|H]].
      * pose proof (IH y y (or_introl eq_refl)). lia.
      * apply IH. now left.
      * apply IH. now right.
    + apply Z.ltb_ge in E. intros [<-|[<-|H]].
      * apply IH. now left.
      * pose proof (IH best best (or_introl eq_refl)). lia.
      * apply IH. now right.
Qed.

Lemma count_char_nonneg (c : ascii) (s : string) : 0 <= count_char c s.
Proof. induction s as [|c' s IH]; simpl; [lia|]. destruct (Ascii.eqb c' c); lia. Qed.

Lemma count_char_app (c : ascii) (s1 s2 : string) :
  count_char c (s1 ++ s2) = count_char c s1 + count_char c s2.
Proof. induction s1 as [|c' s1 IH]; simpl; [reflexivity|]. rewrite IH. lia. Qed.

Lemma split_until (sep : ascii) (s t : string) :
  count_char sep s = 0 -> split sep (s ++ String sep t) = s :: split sep t.
Proof.
  induction s as [|c s IH]; simpl.
  - intros _. now rewrite Ascii.eqb_refl.
  - pose proof (count_char_nonneg sep s). destruct (Ascii.eqb c sep); [lia|].
    intros H0. rewrite IH by lia. reflexivity.
Qed.

Lemma digits_no_underscore (u : Decimal.uint) :
  count_char "_" (NilEmpty.string_of_uint u) = 0.
Proof. induction u; simpl; auto. Qed.

Lemma str_of_int_no_underscore (n : Z) : 0 <= n -> count_char "_" (str_of_int n) = 0.
Proof.
  intros H. unfold str_of_int. destruct n as [|p|p]; [reflexivity| |lia].
  simpl. unfold NilZero.string_of_uint.
  destruct (Pos.to_uint p); try apply digits_no_underscore. reflexivity.
Qed.

Lemma int_of_str_of_int (n : Z) : 0 <= n -> int_of_str (str_of_int n) = Some n.
Proof.
  intros H. unfold int_of_str, str_of_int. destruct n as [|p|p]; [reflexivity| |lia].
  simpl. rewrite NilZero.usu by apply DecimalPos.Unsigned.to_uint_nonnil.
  f_equal. exact (DecimalZ.of_to (Z.pos p)).
Qed.

(** The day count of [older_than_N_days] is [N]. *)
Lemma older_key_older_than (att : Descriptor) (n : Z) :
  0 <= n -> status att = older_than n -> older_key att = n.
Proof.
  intros Hn Hs. unfold older_key. rewrite Hs.
  change (older_than n)
    with ("older" ++ String "_" ("than" ++ String "_" (str_of_int n ++ String "_" "days")))%string.
  rewrite !count_char_app. cbn [count_char Ascii.eqb Bool.eqb]. rewrite !count_char_app.
  cbn [count_char Ascii.eqb Bool.eqb]. rewrite !count_char_app.
  rewrite (str_of_int_no_underscore n Hn). cbn [count_char Ascii.eqb Bool.eqb].
  rewrite (split_until "_" "older") by reflexivity.
  rewrite (split_until "_" "than") by reflexivity.
  rewrite (split_until "_" (str_of_int n)) by now apply str_of_int_no_underscore.
  cbn [nth]. unfold isdigit.
  pose proof (int_of_str_of_int n Hn) as Hi. unfold int_of_str in *.
  destruct (NilZero.uint_of_string (str_of_int n)); [|discriminate].
  now inversion Hi.
Qed.

Definition is_older (att : Descriptor) : bool := startswith "older_than_" (status att).

(** C7, as stated, fails: node [0xC] has no active validator, so no
    descriptor is collected for it, and the rollup reports ['no_data'], not
    ['older_than_10_days']. *)
Lemma node_without_descriptors_is_no_data :
  In (node_record example_performance None None "0xC" (mkMinipoolCounts 1 0 0)) example_nodes
  /\ records_of "0xC" example_performance = []
  /\ Node.last_attestation
       (node_record example_performance None None "0xC" (mkMinipoolCounts 1 0 0))
     = status_only "no_data"
  /\ status_only "no_data" <> status_only "older_than_10_days".
Proof.
  split; [right; left; reflexivity|]. split; [reflexivity|]. split; [reflexivity|discriminate].
Qed.

(** C7 (amended): for a node with at least one collected validator
    descriptor, the node-level descriptor is the first one of maximal epoch
    among those with status ['found'] or ['found_extended'] that carry an
    epoch (the first such descriptor when none carries an epoch); if there
    is none with these statuses it is one of maximal day count among the
    ['older_than_...'] descriptors, where the day count of
    ['older_than_N_days'] is [N]; if there is none either it is the fixed
    ['older_than_10_days'] descriptor.  A node without any collected
    descriptor gets ['no_data'].  For a node outside the Fusaka set this is
    the descriptor the rollup reports. *)
Theorem get_node_last_attestation_spec (attestations : list Descriptor) :
  let result := get_node_last_attestation attestations in
  let found := filter is_found attestations in
  let dated := filter has_epoch found in
  let older := filter is_older attestations in
  (attestations = [] -> result = status_only "no_data")
  /\ (dated <> [] ->
      In result dated /\ forall att, In att dated -> epoch_key att <= epoch_key result)
  /\ (found <> [] -> dated = [] -> hd_error found = Some result)
  /\ (attestations <> [] -> found = [] -> older <> [] ->
      In result older /\ forall att, In att older -> older_key att <= older_key result)
  /\ (attestations <> [] -> found = [] -> older = [] ->
      result = status_only "older_than_10_days")
  /\ (forall att n, 0 <= n -> status att = older_than n -> older_key att = n)
  /\ (forall performance_data scan_data fusaka_deaths a c,
         in_fusaka_lookup a (initial_fusaka_deaths fusaka_deaths) = false ->
         Node.last_attestation (node_record performance_data scan_data fusaka_deaths a c)
         = get_node_last_attestation
             (map Aggregate.last_attestation (records_of a performance_data))).
Proof.
  cbv zeta. unfold get_node_last_attestation. fold is_older.
  destruct attestations as [|a0 l0].
  - split; [reflexivity|].
    do 4 (split; [intros H; now destruct H|]).
    split; [apply older_key_older_than|].
    intros performance_data scan_data fusaka_deaths a c Hl.
    rewrite node_record_last_attestation. cbv zeta. now rewrite Hl.
  - remember (a0 :: l0) as atts eqn:Ea.
    split; [intros ->; discriminate|].
    split; [|split; [|split; [|split; [|split]]]].
    + destruct (filter is_found atts) as [|f0 fl]; [intros H; now destruct H|].
      destruct (filter has_epoch (f0 :: fl)) as [|v vs]; [intros H; now destruct H|].
      intros _. split; [apply max_from_In|]. intros att. apply max_from_ge.
    + destruct (filter is_found atts) as [|f0 fl]; [intros H; now destruct H|].
      intros _ ->. reflexivity.
    + intros _ ->. destruct (filter is_older atts) as [|o os]; [intros H; now destruct H|].
      intros _. split; [apply max_from_In|]. intros att. apply max_from_ge.
    + intros _ -> ->. reflexivity.
    + apply older_key_older_than.
    + intros performance_data scan_data fusaka_deaths a c Hl.
      rewrite node_record_last_attestation. cbv zeta. now rewrite Hl.
Qed.

Lemma get_node_last_attestation_spec_witness :
  In (get_node_last_attestation (map Aggregate.last_attestation example_performance))
     (filter has_epoch (filter is_found (map Aggregate.last_attestation example_performance)))
  /\ forall att,
       In att (filter has_epoch
                 (filter is_found (map Aggregate.last_attestation example_performance))) ->
       epoch_key att
       <= epoch_key (get_node_last_attestation
                       (map Aggregate.last_attestation example_performance)).
Proof.
  apply (proj1 (proj2 (get_node_last_attestation_spec
                         (map Aggregate.last_attestation example_performance)))).
  discriminate.
Defined.

End Analysis.

(* ================================================================== *)
(** * Part III.  Further properties of the code                        *)
(* ================================================================== *)

(* ------------------------------------------------------------------ *)
(** ** The node rollup                                                 *)
(* ------------------------------------------------------------------ *)

Module Rollup.
Import rocketpool_analysis_only.
Import Analysis.

(** *** One record per roster node *)

Lemma node_record_address (performance_data : list Aggregate.t) (scan_data : option (list ScanNode))
  (fusaka_deaths : option FusakaDeaths) (l : list (string * MinipoolCounts)) :
  map Node.node_address
      (map (fun kv => node_record performance_data scan_data fusaka_deaths (fst kv) (snd kv)) l)
  = map fst l.
Proof. rewrite map_map. apply map_ext. reflexivity. Qed.

Lemma unfiltered_addresses (performance_data : list Aggregate.t)
  (all_rp_validators : list Validator.t) (scan_data : option (list ScanNode))
  (fusaka_deaths : option FusakaDeaths) :
  Permutation
    (map Node.node_address
         (sort_nodes (fst (score_nodes performance_data all_rp_validators scan_data
                             (initial_fusaka_deaths fusaka_deaths)))))
    (map fst (count_minipools all_rp_validators)).
Proof.
  rewrite <- (node_record_address performance_data scan_data fusaka_deaths).
  rewrite <- score_nodes_records. apply Permutation_map. apply sort_nodes_perm.
Qed.

(** Dropping nodes keeps the addresses distinct. *)
Lemma kept_addresses_distinct (keep : Node.t -> bool) (nodes : list Node.t) :
  NoDup (map Node.node_address nodes) ->
  NoDup (map Node.node_address (filter keep nodes)).
Proof.
  induction nodes as [|n nodes IH]; intros Hd; [exact Hd|].
  cbn [map] in Hd. apply NoDup_cons_iff in Hd. destruct Hd as [Hn Hd].
  cbn [filter]. destruct (keep n); [|exact (IH Hd)].
  cbn [map]. apply NoDup_cons; [|exact (IH Hd)].
  intros Hin. apply Hn. apply in_map_iff in Hin. destruct Hin as [m [E Hm]].
  apply filter_In in Hm. apply in_map_iff. exists m. tauto.
Qed.

Lemma apply_threshold_filter (t : option Threshold) (l : list Node.t) :
  exists p, apply_threshold t l = filter p l.
Proof.
  destruct t as [[|q]|].
  - exists (fun _ => true). simpl. symmetry. apply forallb_filter_id.
    apply forallb_forall. reflexivity.
  - eexists. reflexivity.
  - exists (fun _ => true). simpl. symmetry. apply forallb_filter_id.
    apply forallb_forall. reflexivity.
Qed.

(** The rollup reports every node of the roster once: in the list returned
    without a cutoff the node addresses are pairwise distinct and are
    exactly the addresses that own a roster validator; with a cutoff the
    addresses are still distinct and all belong to the roster. *)
Theorem one_record_per_roster_node (now : string) (performance_data : list Aggregate.t)
  (all_rp_validators : list Validator.t) (threshold_filter : option Threshold)
  (scan_data : option (list ScanNode)) (fusaka_deaths : option FusakaDeaths) :
  let nodes t := fst (calculate_node_performance_scores now performance_data all_rp_validators
                        t scan_data fusaka_deaths) in
  NoDup (map Node.node_address (nodes threshold_filter))
  /\ incl (map Node.node_address (nodes threshold_filter))
          (map Validator.node_address all_rp_validators)
  /\ (forall a, In a (map Node.node_address (nodes None))
                <-> In a (map Validator.node_address all_rp_validators))
  /\ nodes (Some ThresholdAll) = nodes None
  /\ len (nodes None)
     = len (nodup string_dec (map Validator.node_address all_rp_validators)).
Proof.
  intros nodes. subst nodes. cbv beta.
  pose proof (unfiltered_addresses performance_data all_rp_validators scan_data fusaka_deaths)
    as P.
  assert (Hnd : NoDup (map Node.node_address
                         (sort_nodes (fst (score_nodes performance_data all_rp_validators
                                             scan_data (initial_fusaka_deaths fusaka_deaths)))))).
  { apply (Permutation_NoDup (Permutation_sym P)). apply count_minipools_NoDup. }
  rewrite !calculate_fst. split; [|split; [|split; [|split]]].
  - destruct (apply_threshold_filter threshold_filter
                (sort_nodes (fst (score_nodes performance_data all_rp_validators scan_data
                                    (initial_fusaka_deaths fusaka_deaths))))) as [p ->].
    now apply kept_addresses_distinct.
  - intros a Ha. apply in_map_iff in Ha. destruct Ha as [n [<- Hn]].
    apply apply_threshold_In in Hn. apply count_minipools_keys.
    apply (Permutation_in _ P). now apply in_map.
  - intros a. cbn [apply_threshold]. rewrite <- count_minipools_keys.
    split; intros H.
    + exact (Permutation_in _ P H).
    + exact (Permutation_in _ (Permutation_sym P) H).
  - reflexivity.
  - cbn [apply_threshold]. unfold len. f_equal.
    rewrite <- (length_map Node.node_address). rewrite (Permutation_length P).
    apply Permutation_length. apply NoDup_Permutation.
    + apply count_minipools_NoDup.
    + apply NoDup_nodup.
    + intros a. rewrite nodup_In. apply count_minipools_keys.
Qed.

(** *** The threshold filter *)

(** The test of line 641 on one node. *)
Definition below_cutoff (t : Q) (n : Node.t) : Prop :=
  exists q, Node.performance_score n = Num q /\ (q < t)%Q.

(** A cutoff keeps exactly the nodes of the full list whose score is a
    number strictly below it (never an ["N/A"] node), in the order of the
    full list; raising the cutoff only adds nodes; and the Fusaka set that
    is returned does not depend on the filter. *)
Theorem threshold_filter_selects_below (now : string) (performance_data : list Aggregate.t)
  (all_rp_validators : list Validator.t) (scan_data : option (list ScanNode))
  (fusaka_deaths : option FusakaDeaths) (t : Q) :
  let run f := calculate_node_performance_scores now performance_data all_rp_validators
                 f scan_data fusaka_deaths in
  (forall n, In n (fst (run (Some (Cutoff t))))
             <-> In n (fst (run None)) /\ below_cutoff t n)
  /\ (exists keep, fst (run (Some (Cutoff t))) = filter keep (fst (run None)))
  /\ (forall t' n, (t <= t')%Q -> In n (fst (run (Some (Cutoff t)))) ->
                   In n (fst (run (Some (Cutoff t')))))
  /\ (forall f, snd (run f) = snd (run None)).
Proof.
  intros run. subst run. cbv beta.
  assert (K : forall c n,
             In n (fst (calculate_node_performance_scores now performance_data
                          all_rp_validators (Some (Cutoff c)) scan_data fusaka_deaths))
             <-> In n (fst (calculate_node_performance_scores now performance_data
                              all_rp_validators None scan_data fusaka_deaths))
                 /\ below_cutoff c n).
  { intros c n. rewrite !calculate_fst. cbn [apply_threshold]. rewrite filter_In.
    unfold below_cutoff. split; intros [Hin H]; (split; [exact Hin|]).
    - destruct (Node.performance_score n) as [|q]; [discriminate|].
      exists q. split; [reflexivity|]. now apply qlt_iff.
    - destruct H as [q [-> Hq]]. now apply qlt_iff. }
  split; [apply K|]. split; [|split].
  - rewrite !calculate_fst. eexists. reflexivity.
  - intros t' n Hle Hn. apply K in Hn. apply K. destruct Hn as [Hin [q [Hs Hq]]].
    split; [exact Hin|]. exists q. split; [exact Hs|]. eapply Qlt_le_trans; eauto.
  - intros f. now rewrite !calculate_snd.
Qed.

(** *** Node totals *)

Lemma accumulate_penalties (l : list Aggregate.t) :
  forall d, NodeData.total_penalties (fold_left accumulate l d)
            = NodeData.total_penalties d + zsum (map Aggregate.total_penalties l).
Proof. induction l as [|r l IH]; intros d; simpl; [lia|]. rewrite IH. simpl. lia. Qed.

Lemma accumulate_lost (l : list Aggregate.t) :
  forall d, NodeData.total_lost (fold_left accumulate l d)
            = NodeData.total_lost d + zsum (map Aggregate.total_lost l).
Proof. induction l as [|r l IH]; intros d; simpl; [lia|]. rewrite IH. simpl. lia. Qed.

Lemma from_window_lost (client : Client) (s e : Z) (l : list Aggregate.t) :
  Forall (from_window client s e) l ->
  zsum (map Aggregate.total_lost l)
  = zsum (map Aggregate.total_missed_rewards l) + zsum (map Aggregate.total_penalties l).
Proof.
  induction 1 as [|r l Hr Hl IH]; simpl; [reflexivity|].
  destruct Hr as (ids & rows & row & validator & info & _ & _ & -> & _).
  cbn [make_aggregate Aggregate.total_lost Aggregate.total_penalties
       Aggregate.total_missed_rewards]. lia.
Qed.

(** Over the records of the window aggregator, every node record carries
    the sums of its validators' earned, missed and penalty amounts, its
    possible rewards are earned plus missed, and its lost amount is missed
    plus penalties. *)
Theorem node_totals_are_sums (client : Client) (validators : list Validator.t)
  (latest_epoch epochs_to_analyze : Z) (now : string) (all_rp_validators : list Validator.t)
  (threshold_filter : option Threshold) (scan_data : option (list ScanNode))
  (fusaka_deaths : option FusakaDeaths) (n : Node.t) :
  let performance_data :=
    fst (fst (query_attestation_performance client validators latest_epoch epochs_to_analyze)) in
  In n (fst (calculate_node_performance_scores now performance_data all_rp_validators
               threshold_filter scan_data fusaka_deaths)) ->
  let mine := records_of (Node.node_address n) performance_data in
  Node.total_earned_rewards n = zsum (map Aggregate.total_earned_rewards mine)
  /\ Node.total_missed_rewards n = zsum (map Aggregate.total_missed_rewards mine)
  /\ Node.total_penalties n = zsum (map Aggregate.total_penalties mine)
  /\ Node.total_possible_rewards n = Node.total_earned_rewards n + Node.total_missed_rewards n
  /\ Node.total_lost n = Node.total_missed_rewards n + Node.total_penalties n.
Proof.
  intros performance_data Hn. apply calculate_nodes in Hn. destruct Hn as [a [c [_ ->]]].
  unfold node_record, node_score.
  cbn [fst Node.node_address Node.total_earned_rewards Node.total_missed_rewards
       Node.total_penalties Node.total_possible_rewards Node.total_lost].
  rewrite group_by_node_spec, accumulate_earned, accumulate_missed, accumulate_penalties,
    accumulate_possible, accumulate_lost.
  cbn [NodeData.default NodeData.total_earned_rewards NodeData.total_missed_rewards
       NodeData.total_penalties NodeData.total_possible_rewards NodeData.total_lost].
  assert (F : Forall (from_window client (window_start latest_epoch epochs_to_analyze)
                        latest_epoch) (records_of a performance_data)).
  { apply Forall_forall. intros r Hr. apply filter_In in Hr.
    apply (query_from_window client validators latest_epoch epochs_to_analyze).
    exact (proj1 Hr). }
  rewrite (from_window_possible _ _ _ _ F), (from_window_lost _ _ _ _ F).
  repeat split; lia.
Qed.

Lemma node_totals_are_sums_witness :
  Node.total_lost (node_record example_performance None None "0xA" (mkMinipoolCounts 2 0 0))
  = Node.total_missed_rewards
      (node_record example_performance None None "0xA" (mkMinipoolCounts 2 0 0))
    + Node.total_penalties
        (node_record example_performance None None "0xA" (mkMinipoolCounts 2 0 0)).
Proof.
  apply (node_totals_are_sums example_client [vA; vB] 1000 225 "now" [vA; vB; vC]
           None None None).
  left. reflexivity.
Defined.

(** *** Scores lie between 0 and 100 *)

Lemma round_half_even_le (q : Q) (k : Z) : (q <= inject_Z k)%Q -> round_half_even q <= k.
Proof.
  intros H. unfold round_half_even.
  assert (F : Qfloor q <= k).
  { rewrite <- (Qfloor_Z k). now apply Qfloor_resp_le. }
  destruct (Z.eq_dec (Qfloor q) k) as [E|Hne].
  - assert (L : (q - inject_Z (Qfloor q) < 1 # 2)%Q).
    { rewrite E. apply Qle_lt_trans with (y := 0%Q); [|reflexivity].
      apply (Qplus_le_l _ _ (inject_Z k)). ring_simplify. exact H. }
    cbv zeta. rewrite (proj1 (Qlt_alt _ _) L). lia.
  - destruct (Qcompare _ _); [destruct (Z.even _)| |]; lia.
Qed.

Lemma round2_le_100 (q : Q) : (q <= 100)%Q -> (round2 q <= 100)%Q.
Proof.
  intros H. unfold round2.
  assert (F : round_half_even (q * 100) <= 10000).
  { apply round_half_even_le. change (inject_Z 10000) with (100 * 100)%Q.
    apply Qmult_le_compat_r; [exact H|discriminate]. }
  unfold Qle. cbn. lia.
Qed.

Lemma percent_le_100 (e p : Z) : e <= p -> 0 < p -> (inject_Z e / inject_Z p * 100 <= 100)%Q.
Proof.
  intros He Hp.
  setoid_replace 100%Q with (1 * 100)%Q at 2 by reflexivity.
  apply Qmult_le_compat_r; [|discriminate].
  apply Qle_shift_div_r.
  - change 0%Q with (inject_Z 0). rewrite <- Zlt_Qlt. exact Hp.
  - rewrite Qmult_1_l. rewrite <- Zle_Qle. exact He.
Qed.

(** When no record has a negative earned or missed reward and each
    record's possible rewards are earned plus missed (as the aggregator
    builds them), every numeric node score lies between 0 and 100. *)
Theorem numeric_scores_within_0_100 (now : string) (performance_data : list Aggregate.t)
  (all_rp_validators : list Validator.t) (threshold_filter : option Threshold)
  (scan_data : option (list ScanNode)) (fusaka_deaths : option FusakaDeaths) :
  (forall r, In r performance_data ->
             0 <= Aggregate.total_earned_rewards r
             /\ 0 <= Aggregate.total_missed_rewards r
             /\ Aggregate.total_possible_rewards r
                = Aggregate.total_earned_rewards r + Aggregate.total_missed_rewards r) ->
  forall n q,
    In n (fst (calculate_node_performance_scores now performance_data all_rp_validators
                 threshold_filter scan_data fusaka_deaths)) ->
    Node.performance_score n = Num q ->
    (0 <= q <= 100)%Q.
Proof.
  intros Hrec n q Hn Hq. apply calculate_nodes in Hn. destruct Hn as [a [c [_ ->]]].
  split.
  - apply (node_record_score_nonneg performance_data scan_data fusaka_deaths a c q);
      [|exact Hq]. intros r Hr. exact (proj1 (Hrec r Hr)).
  - rewrite node_record_score in Hq. destruct (0 <? _); [|discriminate].
    destruct (existsb _ _); injection Hq as <-; [discriminate|].
    apply round2_le_100.
    destruct (0 <? zsum (map Aggregate.total_possible_rewards (records_of a performance_data)))
      eqn:Ep; [|discriminate].
    apply percent_le_100; [|now apply Z.ltb_lt].
    assert (G : forall l, (forall r, In r l -> In r performance_data) ->
                          zsum (map Aggregate.total_earned_rewards l)
                          <= zsum (map Aggregate.total_possible_rewards l)).
    { induction l as [|r l IH]; intros Hl; simpl; [lia|].
      destruct (Hrec r (Hl r (or_introl eq_refl))) as (_ & Hm & ->).
      specialize (IH (fun x Hx => Hl x (or_intror Hx))). lia. }
    apply G. intros r Hr. apply filter_In in Hr. exact (proj1 Hr).
Qed.

(** Validator 1 alone: its node scores 90. *)
Definition healthy_performance : list Aggregate.t :=
  filter (fun r => Aggregate.val_id r =? 1) example_performance.

Lemma numeric_scores_within_0_100_witness :
  (0 <= 9000 # 100 <= 100)%Q.
Proof.
  apply (numeric_scores_within_0_100 "now" healthy_performance [vA; vB; vC] None None None)
    with (n := node_record healthy_performance None None "0xA" (mkMinipoolCounts 2 0 0)).
  - intros r [<-|[]]; repeat split; discriminate.
  - left. reflexivity.
  - reflexivity.
Defined.

(** *** The back-up flag *)

(** Validator 1 attested one epoch before the latest epoch. *)
Definition fresh_client : Client :=
  mkClient (Some (Some 100, Some 1000))
           (fun _ _ _ => Some [mkRow 1 (Some 900) (Some 100) (Some 0) 225 (Some 200)
                                     (Some 999) (Some 32000000000) (Some 32000000000)])
           (fun _ _ _ => Some []).

Definition fresh_performance : list Aggregate.t :=
  fst (fst (query_attestation_performance fresh_client [vA] 1000 225)).

(** A node is flagged as back up only if it has an active validator, none
    of its validators was zeroed, its score is positive, and the descriptor
    reported for it was found by one of the two searches at most 3 epochs
    before the latest epoch; a node kept as a Fusaka death is never flagged. *)
Theorem back_up_needs_fresh_attestation (now : string) (performance_data : list Aggregate.t)
  (all_rp_validators : list Validator.t) (threshold_filter : option Threshold)
  (scan_data : option (list ScanNode)) (fusaka_deaths : option FusakaDeaths) (n : Node.t) :
  In n (fst (calculate_node_performance_scores now performance_data all_rp_validators
               threshold_filter scan_data fusaka_deaths)) ->
  Node.is_back_up n = true ->
  0 < Node.active_minipools n
  /\ existsb has_zero_score (records_of (Node.node_address n) performance_data) = false
  /\ (exists q, Node.performance_score n = Num q /\ (0 < q)%Q)
  /\ (status (Node.last_attestation n) = "found"%string
      \/ status (Node.last_attestation n) = "found_extended"%string)
  /\ status (Node.last_attestation n) <> "fusaka_death"%string
  /\ exists age, age_epochs (Node.last_attestation n) = Some age /\ age <= 3.
Proof.
  intros Hn Hb. apply calculate_nodes in Hn. destruct Hn as [a [c [_ ->]]].
  change (Node.node_address (node_record performance_data scan_data fusaka_deaths a c)) with a.
  change (back_up (Node.performance_score
                     (node_record performance_data scan_data fusaka_deaths a c))
                  (Node.last_attestation
                     (node_record performance_data scan_data fusaka_deaths a c)) = true) in Hb.
  pose proof (node_record_score performance_data scan_data fusaka_deaths a c) as Hs.
  cbv zeta in Hs.
  set (n := node_record performance_data scan_data fusaka_deaths a c) in *.
  unfold back_up in Hb.
  destruct (Node.performance_score n) as [|q] eqn:Eq; [discriminate|].
  destruct (age_epochs (Node.last_attestation n)) as [age|] eqn:Ea; [|discriminate].
  apply andb_true_iff in Hb. destruct Hb as [Hb Hage].
  apply andb_true_iff in Hb. destruct Hb as [Hpos Hfound].
  assert (Hst : status (Node.last_attestation n) = "found"%string
                \/ status (Node.last_attestation n) = "found_extended"%string).
  { unfold is_found, str_in in Hfound. cbn [existsb] in Hfound.
    rewrite orb_false_r in Hfound. apply orb_true_iff in Hfound.
    now rewrite !String.eqb_eq in Hfound. }
  destruct (0 <? Node.active_minipools n) eqn:Eact; [|discriminate].
  destruct (existsb has_zero_score (records_of a performance_data)) eqn:Ez.
  { injection Hs as ->. discriminate. }
  split; [now apply Z.ltb_lt|]. split; [reflexivity|].
  split; [exists q; split; [reflexivity|now apply qlt_iff]|].
  split; [exact Hst|]. split.
  - intros E. rewrite E in Hst. destruct Hst; discriminate.
  - exists age. split; [reflexivity|now apply Z.leb_le].
Qed.

Lemma back_up_needs_fresh_attestation_witness :
  exists age,
    age_epochs (Node.last_attestation
                  (node_record fresh_performance None None "0xA" (mkMinipoolCounts 1 0 0)))
    = Some age /\ age <= 3.
Proof.
  apply (back_up_needs_fresh_attestation "now" fresh_performance [vA] None None None).
  - left. reflexivity.
  - reflexivity.
Defined.

(** *** Balance statistics *)








(** *** Use-latest-delegate status *)

(** The delegate flags recorded for a node: those of the first scan entry
    with its address, or none. *)
Definition delegate_flags (node_address : string) (scan_data : option (list ScanNode))
  : list (option bool) :=
  match scan_data with
  | None => []
  | Some nodes =>
      match find (fun n => String.eqb (scan_node_address n) node_address) nodes with
      | None => []
      | Some node =>
          match minipool_use_latest_delegate node with
          | None => []
          | Some flags => flags
          end
      end
  end.

Definition count_flag (b : bool) (flags : list (option bool)) : Z :=
  len (filter (fun f => match f with
                        | Some c => Bool.eqb c b
                        | None => false
                        end) flags).

Definition count_known (flags : list (option bool)) : Z :=
  len (filter (fun f => match f with Some _ => true | None => false end) flags).

Lemma count_flags (flags : list (option bool)) :
  count_flag true flags + count_flag false flags = count_known flags
  /\ (0 < count_flag true flags <-> In (Some true) flags)
  /\ (0 < count_flag false flags <-> In (Some false) flags)
  /\ 0 <= count_flag true flags /\ 0 <= count_flag false flags.
Proof.
  unfold count_flag, count_known.
  induction flags as [|f flags IH]; cbn [filter].
  - rewrite !(@len_nil (option bool)). cbn [In]. repeat split; try lia; tauto.
  - destruct IH as (S & T & F & Tn & Fn).
    destruct f as [[|]|]; cbn [Bool.eqb In]; rewrite ?len_cons.
    + split; [lia|]. split; [split; [intros _; now left|intros _; lia]|].
      split; [|lia]. rewrite F. split; [tauto|intros [H|H]; [discriminate|exact H]].
    + split; [lia|]. split; [|split; [split; [intros _; now left|intros _; lia]|lia]].
      rewrite T. split; [tauto|intros [H|H]; [discriminate|exact H]].
    + split; [lia|]. split; [|split; [|lia]].
      * rewrite T. split; [tauto|intros [H|H]; [discriminate|exact H]].
      * rewrite F. split; [tauto|intros [H|H]; [discriminate|exact H]].
Qed.

Lemma calculate_uld_status_counts (node_address : string) (scan_data : option (list ScanNode)) :
  calculate_uld_status node_address scan_data
  = let flags := delegate_flags node_address scan_data in
    if count_known flags =? 0 then mkUldInfo "unknown" None
    else if count_flag true flags =? count_known flags then mkUldInfo "yes" None
    else if count_flag false flags =? count_known flags then mkUldInfo "no" None
    else mkUldInfo "partial"
           (Some (str_of_int (count_flag true flags) ++ "/"
                  ++ str_of_int (count_known flags))%string).
Proof.
  unfold calculate_uld_status, delegate_flags.
  destruct scan_data as [[|n ns]|]; try reflexivity.
  destruct (find _ (n :: ns)) as [node|]; [|reflexivity].
  destruct (minipool_use_latest_delegate node) as [[|f flags]|]; reflexivity.
Qed.

Ltac uld_clause :=
  split; [ (let E := fresh in intros E; discriminate E) || (intros _; lia)
         | intros; (reflexivity || (exfalso; lia)) ].

Ltac uld_clauses :=
  split; [uld_clause|]; split; [uld_clause|]; split; [uld_clause|];
  split; [uld_clause|reflexivity].

(** The delegate status of a node is decided by the flags recorded for it
    in the scan, disregarding null flags: ['unknown'] when no flag is known,
    ['yes'] when all known flags are true, ['no'] when all are false, and
    ['partial'] when both occur; only ['partial'] carries a count, the
    number of true flags over the number of known flags. *)
Theorem calculate_uld_status_classifies (node_address : string)
  (scan_data : option (list ScanNode)) :
  let u := calculate_uld_status node_address scan_data in
  let flags := delegate_flags node_address scan_data in
  (uld_info_status u = "unknown"%string
   <-> ~ In (Some true) flags /\ ~ In (Some false) flags)
  /\ (uld_info_status u = "yes"%string <-> In (Some true) flags /\ ~ In (Some false) flags)
  /\ (uld_info_status u = "no"%string <-> In (Some false) flags /\ ~ In (Some true) flags)
  /\ (uld_info_status u = "partial"%string <-> In (Some true) flags /\ In (Some false) flags)
  /\ uld_info_count u
     = if String.eqb (uld_info_status u) "partial"
       then Some (str_of_int (count_flag true flags) ++ "/"
                  ++ str_of_int (count_known flags))%string
       else None.
Proof.
  cbv zeta. rewrite calculate_uld_status_counts. cbv zeta.
  destruct (count_flags (delegate_flags node_address scan_data)) as (S & T & F & Tn & Fn).
  rewrite <- T, <- F.
  destruct (count_known _ =? 0) eqn:E0;
    [apply Z.eqb_eq in E0|apply Z.eqb_neq in E0];
    [cbn [uld_info_status uld_info_count]; uld_clauses|].
  destruct (count_flag true _ =? count_known _) eqn:E1;
    [apply Z.eqb_eq in E1|apply Z.eqb_neq in E1];
    [cbn [uld_info_status uld_info_count]; uld_clauses|].
  destruct (count_flag false _ =? count_known _) eqn:E2;
    [apply Z.eqb_eq in E2|apply Z.eqb_neq in E2];
    cbn [uld_info_status uld_info_count]; uld_clauses.
Qed.

(** *** The tracking set after a run *)

Lemma lookup_after_update (now : string) (f : FusakaDeaths) (l : list string) (a : string) :
  in_fusaka_lookup a (update_fusaka_deaths now f l)
  = in_fusaka_lookup a f && negb (str_in a l).
Proof.
  unfold in_fusaka_lookup at 1. rewrite update_fusaka_deaths_validators.
  exact (in_fusaka_lookup_filter a (fun b => negb (str_in b l)) (fusaka_validators f) None None).
Qed.

Lemma str_in_nil (l : list string) : (forall a, str_in a l = false) -> l = [].
Proof.
  destruct l as [|x l]; [reflexivity|]. intros H. specialize (H x).
  unfold str_in in H. cbn [existsb] in H. now rewrite String.eqb_refl in H.
Qed.

(** A tracked roster node whose computed descriptor shows an attestation
    after the fork. *)
Definition came_back (performance_data : list Aggregate.t) (all_rp_validators : list Validator.t)
  (f : FusakaDeaths) (a : string) : bool :=
  in_roster a all_rp_validators
  && in_fusaka_lookup a f
  && recovered (computed_descriptor performance_data a).

Lemma filter_length_lt {A : Type} (p : A -> bool) (l : list A) (x : A) :
  In x l -> p x = false -> len (filter p l) < len l.
Proof.
  induction l as [|y l IH]; intros Hin Hp; [destruct Hin|].
  cbn [filter]. pose proof (filter_length_le p l) as Hle.
  destruct Hin as [->|Hin].
  - rewrite Hp, len_cons. unfold len. lia.
  - specialize (IH Hin Hp). destruct (p y); rewrite !len_cons; lia.
Qed.

(** The tracking set a run returns is settled: a second run on the same
    data that starts from it returns the same node list and the same set,
    whatever the clock shows.  If no tracked roster node came back the set
    is returned as it was given, count and update time included; otherwise
    it loses at least one entry, its count is the number of entries left and
    its update time is the clock's time followed by [Z]. *)
Theorem fusaka_tracking_settles (now now' : string) (performance_data : list Aggregate.t)
  (all_rp_validators : list Validator.t) (threshold_filter : option Threshold)
  (scan_data : option (list ScanNode)) (fusaka_deaths : option FusakaDeaths) :
  let f := initial_fusaka_deaths fusaka_deaths in
  let first := calculate_node_performance_scores now performance_data all_rp_validators
                 threshold_filter scan_data fusaka_deaths in
  let second := calculate_node_performance_scores now' performance_data all_rp_validators
                  threshold_filter scan_data (Some (snd first)) in
  second = first
  /\ ((forall a, came_back performance_data all_rp_validators f a = false) -> snd first = f)
  /\ (forall a, came_back performance_data all_rp_validators f a = true ->
                len (fusaka_validators (snd first)) < len (fusaka_validators f)
                /\ fusaka_total_count (snd first) = Some (len (fusaka_validators (snd first)))
                /\ fusaka_last_updated (snd first) = Some (now ++ "Z")%string).
Proof.
  intros f first second.
  remember (snd (score_nodes performance_data all_rp_validators scan_data f)) as to_remove
    eqn:Er.
  assert (Hsnd : snd first = update_fusaka_deaths now f to_remove)
    by (unfold first; now rewrite calculate_snd, Er).
  assert (Hrm : forall a, str_in a to_remove
                          = came_back performance_data all_rp_validators f a)
    by (intros a; rewrite Er; apply validators_to_remove_spec).
  split; [|split].
  - assert (Hrm2 : snd (score_nodes performance_data all_rp_validators scan_data (snd first))
                   = []).
    { apply str_in_nil. intros a. rewrite validators_to_remove_spec, Hsnd, lookup_after_update,
        Hrm. unfold came_back.
      destruct (in_roster a all_rp_validators), (in_fusaka_lookup a f),
        (recovered (computed_descriptor performance_data a)); reflexivity. }
    rewrite (surjective_pairing second), (surjective_pairing first). f_equal.
    + unfold second, first. rewrite !calculate_fst. fold first.
      cbn [initial_fusaka_deaths]. fold f. f_equal. f_equal. unfold score_nodes. cbn [fst]. rewrite !map_map.
      apply map_ext_in. intros [a c] Hin. cbn [fst snd].
      assert (Hroster : in_roster a all_rp_validators = true).
      { unfold in_roster. apply (existsb_eqb_In String.eqb string_eqb_spec).
        apply count_minipools_keys. apply in_map_iff. exists (a, c). auto. }
      unfold node_score. cbn [fst]. rewrite Hsnd, lookup_after_update, Hrm.
      unfold came_back. rewrite Hroster, node_data_last_attestations.
      fold (computed_descriptor performance_data a).
      destruct (in_fusaka_lookup a f), (recovered (computed_descriptor performance_data a));
        reflexivity.
    + unfold second. rewrite calculate_snd. cbn [initial_fusaka_deaths]. now rewrite Hrm2.
  - intros Hnone. rewrite Hsnd.
    assert (E : to_remove = []).
    { apply str_in_nil. intros a. now rewrite Hrm. }
    now rewrite E.
  - intros a Ha. rewrite Hsnd. pose proof Ha as Ha'. rewrite <- Hrm in Ha'.
    clear Er. destruct to_remove as [|x l]; [discriminate Ha'|].
    cbn [update_fusaka_deaths fusaka_validators fusaka_total_count fusaka_last_updated].
    split; [|split; reflexivity].
    unfold came_back in Ha.
    apply andb_true_iff in Ha. destruct Ha as [Ha _].
    apply andb_true_iff in Ha. destruct Ha as [_ Ha].
    unfold in_fusaka_lookup in Ha. apply existsb_exists in Ha. destruct Ha as [v [Hv Hva]].
    apply String.eqb_eq in Hva. apply (filter_length_lt _ _ v Hv).
    now rewrite Hva, Ha'.
Qed.

(** *** Nodes without a score *)

Lemma node_record_active (performance_data : list Aggregate.t)
  (scan_data : option (list ScanNode)) (fusaka_deaths : option FusakaDeaths)
  (a : string) (c : MinipoolCounts) :
  Node.active_minipools (node_record performance_data scan_data fusaka_deaths a c)
  = len (nodup Z.eq_dec (map Aggregate.val_id (records_of a performance_data))).
Proof.
  unfold node_record, node_score. cbn [fst Node.active_minipools].
  now rewrite group_by_node_spec, accumulate_active_len.
Qed.

Lemma len_nodup_pos (l : list Z) : l <> [] -> 0 < len (nodup Z.eq_dec l).
Proof.
  destruct l as [|x l]; [congruence|]. intros _.
  assert (H : In x (nodup Z.eq_dec (x :: l))) by (apply nodup_In; now left).
  destruct (nodup Z.eq_dec (x :: l)); [destruct H|]. rewrite len_cons.
  pose proof (len_nonneg l0). lia.
Qed.

(** A node's score is ["N/A"] exactly when no performance record names the
    node; such a node has no active minipool, all its reward totals and its
    balance figures are 0 and it is not flagged as back up. *)
Theorem na_iff_no_records (now : string) (performance_data : list Aggregate.t)
  (all_rp_validators : list Validator.t) (threshold_filter : option Threshold)
  (scan_data : option (list ScanNode)) (fusaka_deaths : option FusakaDeaths) (n : Node.t) :
  In n (fst (calculate_node_performance_scores now performance_data all_rp_validators
               threshold_filter scan_data fusaka_deaths)) ->
  (Node.performance_score n = NA <-> records_of (Node.node_address n) performance_data = [])
  /\ (Node.performance_score n = NA ->
      Node.active_minipools n = 0
      /\ Node.exited_minipools n = Node.total_minipools n
      /\ Node.total_earned_rewards n = 0
      /\ Node.total_missed_rewards n = 0
      /\ Node.total_penalties n = 0
      /\ Node.total_possible_rewards n = 0
      /\ Node.total_lost n = 0
      /\ Node.total_balance_eth n = gwei_to_eth 0
      /\ Node.validators_below_32_eth n = 0
      /\ Node.is_back_up n = false).
Proof.
  intros Hn. apply calculate_nodes in Hn. destruct Hn as [a [c [_ ->]]].
  change (Node.node_address (node_record performance_data scan_data fusaka_deaths a c)) with a.
  assert (Hiff : Node.performance_score
                   (node_record performance_data scan_data fusaka_deaths a c) = NA
                 <-> records_of a performance_data = []).
  { rewrite node_record_score, node_record_active. split.
    - intros H. destruct (records_of a performance_data) as [|r l] eqn:E; [reflexivity|].
      assert (Hp : 0 < len (nodup Z.eq_dec (map Aggregate.val_id (r :: l))))
        by (apply len_nodup_pos; discriminate).
      apply Z.ltb_lt in Hp. rewrite Hp in H. destruct (existsb _ _); discriminate.
    - intros ->. reflexivity. }
  split; [exact Hiff|]. intros Hna. apply Hiff in Hna.
  unfold node_record, node_score.
  cbn [fst Node.active_minipools Node.exited_minipools Node.total_minipools
       Node.total_earned_rewards Node.total_missed_rewards Node.total_penalties
       Node.total_possible_rewards Node.total_lost Node.total_balance_eth
       Node.validators_below_32_eth Node.is_back_up].
  rewrite group_by_node_spec, Hna. cbn [fold_left NodeData.default
    NodeData.active_validators NodeData.total_earned_rewards NodeData.total_missed_rewards
    NodeData.total_penalties NodeData.total_possible_rewards NodeData.total_lost
    NodeData.total_balance NodeData.validators_below_32_eth].
  rewrite (@len_nil Z). repeat split; try reflexivity; lia.
Qed.

Lemma na_iff_no_records_witness :
  Node.performance_score (node_record example_performance None None "0xC" (mkMinipoolCounts 1 0 0))
  = NA
  <-> records_of "0xC" example_performance = [].
Proof.
  apply (na_iff_no_records "now" example_performance [vA; vB; vC] None None None).
  right. left. reflexivity.
Defined.

End Rollup.

(* ------------------------------------------------------------------ *)
(** ** The window aggregator                                           *)
(* ------------------------------------------------------------------ *)

Module Aggregator.
Import rocketpool_analysis_only.
Import Analysis.

Lemma dict_set_entries {K V : Type} (eqb : K -> K -> bool) (P : K * V -> Prop)
  (k : K) (v : V) (d : list (K * V)) :
  P (k, v) -> Forall P d -> Forall P (dict_set eqb k v d).
Proof.
  intros Hv. induction 1 as [|[k' v'] d Hx Hd IH]; simpl.
  - repeat constructor. exact Hv.
  - destruct (eqb k k'); constructor; auto.
Qed.

(** The two shapes of a validator's last-attestation descriptor: a dated
    one, found by the window query or by the extended search, and an
    undated ['older_than_N_days'] one. *)
Definition dated (reference_epoch : Z) (d : Descriptor) : Prop :=
  exists e s, (s = "found" \/ s = "found_extended")%string
              /\ d = attested e reference_epoch s.

Definition undated (d : Descriptor) : Prop :=
  exists n, d = status_only (older_than n).

Definition shaped (reference_epoch : Z) (d : Descriptor) : Prop :=
  dated reference_epoch d \/ undated d.

Lemma split_row_shaped (end_epoch : Z) (rows : list Row) :
  forall acc,
    Forall (fun kv => shaped end_epoch (snd kv)) (fst acc) ->
    Forall (fun kv => shaped end_epoch (snd kv)) (fst (fold_left (split_row end_epoch) rows acc)).
Proof.
  induction rows as [|row rows IH]; intros [recent needing] H; simpl; [exact H|].
  apply IH. destruct (row_last_attestation_epoch row) as [e|]; simpl; [|exact H].
  apply dict_set_entries; [|exact H]. left. exists e, "found"%string. auto.
Qed.

Lemma find_last_attestation_extended_shaped (client : Client) (val_id_list : list Z)
  (oldest search_end newest : Z) :
  Forall (fun kv => shaped newest (snd kv))
         (find_last_attestation_extended client val_id_list oldest search_end newest).
Proof.
  unfold find_last_attestation_extended.
  destruct (extended_query client oldest search_end val_id_list) as [rows|]; [|constructor].
  assert (G : forall acc : list (Z * Descriptor),
             Forall (fun kv => shaped newest (snd kv)) acc ->
             Forall (fun kv => shaped newest (snd kv))
                    (fold_left
                       (fun extended_attestations row =>
                          match ext_last_attestation_epoch row with
                          | Some last_attestation_epoch =>
                              dict_set Z.eqb (ext_val_id row)
                                (attested last_attestation_epoch newest "found_extended")
                                extended_attestations
                          | None =>
                              dict_set Z.eqb (ext_val_id row)
                                (status_only (older_than (int_div (newest - oldest) 225)))
                                extended_attestations
                          end) rows acc)).
  { induction rows as [|row rows IH]; intros acc H; simpl; [exact H|].
    apply IH. destruct (ext_last_attestation_epoch row) as [e|].
    - apply dict_set_entries; [|exact H]. left. exists e, "found_extended"%string. auto.
    - apply dict_set_entries; [|exact H]. right. eexists. reflexivity. }
  apply G. constructor.
Qed.

Lemma extended_search_shaped (client : Client) (oldest : option Z)
  (start_epoch latest_epoch : Z) (needing : list Z) :
  Forall (fun kv => shaped latest_epoch (snd kv))
         (fst (extended_search client oldest start_epoch latest_epoch needing)).
Proof.
  unfold extended_search. destruct needing as [|k ks]; [constructor|].
  destruct oldest as [o|]; [|constructor].
  cbn [fst]. apply find_last_attestation_extended_shaped.
Qed.

Lemma fallback_descriptor_shaped (reference_epoch : Z) (total_days : option Z) :
  shaped reference_epoch (fallback_descriptor total_days).
Proof.
  right. unfold fallback_descriptor. destruct total_days as [d|]; [|now exists 10].
  destruct (d =? 0); [now exists 10|now exists d].
Qed.

Lemma last_attestation_info_shaped (reference_epoch : Z) (recent extended : list (Z * Descriptor))
  (total_days : option Z) (val_id : Z) :
  Forall (fun kv => shaped reference_epoch (snd kv)) recent ->
  Forall (fun kv => shaped reference_epoch (snd kv)) extended ->
  shaped reference_epoch (last_attestation_info recent extended total_days val_id).
Proof.
  intros Hr He. unfold last_attestation_info.
  destruct (dict_get Z.eqb val_id recent) as [d|] eqn:Er.
  - apply (dict_get_Some_In Z.eqb Z_eqb_spec) in Er. rewrite Forall_forall in Hr.
    exact (Hr _ Er).
  - destruct (dict_get Z.eqb val_id extended) as [d|] eqn:Ee.
    + apply (dict_get_Some_In Z.eqb Z_eqb_spec) in Ee. rewrite Forall_forall in He.
      exact (He _ Ee).
    + apply fallback_descriptor_shaped.
Qed.

(** What holds of every entry of [validator_aggregates]. *)
Definition entry_ok (validators : list Validator.t) (latest_epoch : Z) (kv : Z * Aggregate.t)
  : Prop :=
  Aggregate.val_id (snd kv) = fst kv
  /\ (exists v, In v validators
                /\ Validator.val_id v = Some (fst kv)
                /\ Aggregate.node_address (snd kv) = Validator.node_address v
                /\ Aggregate.minipool_address (snd kv) = Validator.minipool_address v
                /\ Aggregate.pubkey (snd kv) = Validator.pubkey v)
  /\ shaped latest_epoch (Aggregate.last_attestation (snd kv))
  /\ (Aggregate.performance_score (snd kv) = None
      \/ Aggregate.performance_score (snd kv) = Some 0%Q)
  /\ Aggregate.total_possible_rewards (snd kv)
     = Aggregate.total_earned_rewards (snd kv) + Aggregate.total_missed_rewards (snd kv)
  /\ Aggregate.total_lost (snd kv)
     = Aggregate.total_missed_rewards (snd kv) + Aggregate.total_penalties (snd kv).

Definition table_ok (validators : list Validator.t) (latest_epoch : Z)
  (aggs : list (Z * Aggregate.t)) : Prop :=
  NoDup (map fst aggs) /\ Forall (entry_ok validators latest_epoch) aggs.

Lemma has_val_id_spec (val_id : Z) (v : Validator.t) :
  has_val_id val_id v = true -> Validator.val_id v = Some val_id.
Proof.
  unfold has_val_id. destruct (Validator.val_id v) as [i|]; [|discriminate].
  intros H. apply Z.eqb_eq in H. now subst.
Qed.

Lemma store_row_table_ok (validators batch : list Validator.t) (latest_epoch : Z)
  (recent extended : list (Z * Descriptor)) (total_days : option Z) :
  incl batch validators ->
  Forall (fun kv => shaped latest_epoch (snd kv)) recent ->
  Forall (fun kv => shaped latest_epoch (snd kv)) extended ->
  forall rows aggs,
    table_ok validators latest_epoch aggs ->
    table_ok validators latest_epoch
      (fold_left (store_row batch recent extended total_days) rows aggs).
Proof.
  intros Hb Hr He. induction rows as [|row rows IH]; intros aggs H; simpl; [exact H|].
  apply IH. unfold store_row.
  destruct (find (has_val_id (row_val_id row)) batch) as [v|] eqn:Ef; [|exact H].
  apply find_some in Ef. destruct Ef as [Hv Hid]. apply has_val_id_spec in Hid.
  destruct H as [Hnd Hall]. split.
  - now apply (dict_set_keys_NoDup Z.eqb Z_eqb_spec).
  - apply dict_set_entries; [|exact Hall].
    unfold entry_ok. cbn [fst snd make_aggregate Aggregate.val_id Aggregate.node_address
      Aggregate.minipool_address Aggregate.pubkey Aggregate.last_attestation
      Aggregate.performance_score Aggregate.total_possible_rewards
      Aggregate.total_earned_rewards Aggregate.total_missed_rewards
      Aggregate.total_lost Aggregate.total_penalties].
    split; [reflexivity|]. split; [exists v; auto|]. split.
    + now apply last_attestation_info_shaped.
    + split; [destruct (row_last_attestation_epoch row); auto|]. split; reflexivity.
Qed.

Lemma process_batch_table_ok (client : Client) (retention : Retention)
  (validators : list Validator.t) (start_epoch latest_epoch : Z) (st : AggState)
  (batch : list Validator.t) :
  incl batch validators ->
  table_ok validators latest_epoch (fst st) ->
  table_ok validators latest_epoch
    (fst (process_batch client retention start_epoch latest_epoch latest_epoch st batch)).
Proof.
  intros Hb H. unfold process_batch. destruct st as [aggs calls].
  destruct (performance_query _ _ _ _) as [rows|]; [|exact H].
  pose proof (split_row_shaped latest_epoch rows ([], []) (Forall_nil _)) as Hr.
  fold (split_rows latest_epoch rows) in Hr.
  destruct (split_rows latest_epoch rows) as [recent needing]. cbn [fst] in Hr.
  pose proof (extended_search_shaped client (oldest_epoch retention) start_epoch latest_epoch
                needing) as He.
  destruct (extended_search _ _ _ _ _) as [extended new_calls]. cbn [fst] in *.
  now apply store_row_table_ok.
Qed.

Lemma batch_incl {A : Type} (n : nat) (l batch : list A) :
  (0 < n)%nat -> In batch (batches n l) -> incl batch l.
Proof.
  intros Hn Hb x Hx. rewrite <- (batches_concat n l Hn).
  apply in_concat. exists batch. auto.
Qed.

Lemma run_batches_table_ok (client : Client) (validators : list Validator.t)
  (latest_epoch epochs_to_analyze : Z) :
  table_ok validators latest_epoch
    (fst (run_batches client validators latest_epoch epochs_to_analyze)).
Proof.
  unfold run_batches.
  assert (G : forall bs st,
             (forall b, In b bs -> incl b validators) ->
             table_ok validators latest_epoch (fst st) ->
             table_ok validators latest_epoch
               (fst (fold_left (process_batch client (get_database_retention_info client)
                                  (window_start latest_epoch epochs_to_analyze)
                                  latest_epoch latest_epoch) bs st))).
  { induction bs as [|b bs IH]; intros st Hbs Hst; simpl; [exact Hst|].
    apply IH; [intros b' Hb'; apply Hbs; now right|].
    apply process_batch_table_ok; [apply Hbs; now left|exact Hst]. }
  apply G.
  - intros b Hb. apply (batch_incl batch_size); [unfold batch_size; lia|exact Hb].
  - split; constructor.
Qed.

Lemma record_entry (client : Client) (validators : list Validator.t)
  (latest_epoch epochs_to_analyze : Z) (r : Aggregate.t) :
  In r (fst (fst (query_attestation_performance client validators latest_epoch
                    epochs_to_analyze))) ->
  entry_ok validators latest_epoch (Aggregate.val_id r, r).
Proof.
  unfold query_attestation_performance. cbn [fst]. intros H.
  apply in_map_iff in H. destruct H as [[k r'] [E H]]. cbn [snd] in E. subst r'.
  destruct (run_batches_table_ok client validators latest_epoch epochs_to_analyze) as [_ F].
  rewrite Forall_forall in F. specialize (F _ H).
  assert (Hk : Aggregate.val_id r = k) by exact (proj1 F). now rewrite Hk.
Qed.

(** The aggregator returns one record per validator id, and only for
    validators it was given: the ids of the records are pairwise distinct,
    every record carries the node address, minipool address and public key
    of an input validator with the record's id, and there are at most as
    many records as validators. *)
Theorem records_are_input_validators (client : Client) (validators : list Validator.t)
  (latest_epoch epochs_to_analyze : Z) :
  let records := fst (fst (query_attestation_performance client validators latest_epoch
                             epochs_to_analyze)) in
  NoDup (map Aggregate.val_id records)
  /\ (forall r, In r records ->
                exists v, In v validators
                          /\ Validator.val_id v = Some (Aggregate.val_id r)
                          /\ Aggregate.node_address r = Validator.node_address v
                          /\ Aggregate.minipool_address r = Validator.minipool_address v
                          /\ Aggregate.pubkey r = Validator.pubkey v)
  /\ len records <= len validators.
Proof.
  intros records.
  assert (Hmem : forall r, In r records ->
                           exists v, In v validators
                                     /\ Validator.val_id v = Some (Aggregate.val_id r)
                                     /\ Aggregate.node_address r = Validator.node_address v
                                     /\ Aggregate.minipool_address r = Validator.minipool_address v
                                     /\ Aggregate.pubkey r = Validator.pubkey v).
  { intros r Hr. apply record_entry in Hr. exact (proj1 (proj2 Hr)). }
  assert (Hnd : NoDup (map Aggregate.val_id records)).
  { destruct (run_batches_table_ok client validators latest_epoch epochs_to_analyze)
      as [Hnd F].
    unfold records, query_attestation_performance. cbn [fst]. rewrite map_map.
    rewrite (map_ext_in (fun kv => Aggregate.val_id (snd kv)) fst); [exact Hnd|].
    intros kv Hkv. rewrite Forall_forall in F. exact (proj1 (F _ Hkv)). }
  split; [exact Hnd|]. split; [exact Hmem|].
  assert (Hs : NoDup (map (fun r => Some (Aggregate.val_id r)) records)).
  { rewrite <- (map_map Aggregate.val_id Some).
    induction Hnd as [|k ks Hk Hks IH]; cbn [map]; constructor; [|exact IH].
    intros Hin. apply in_map_iff in Hin. destruct Hin as [k' [E Hk']].
    injection E as ->. exact (Hk Hk'). }
  assert (Hi : incl (map (fun r => Some (Aggregate.val_id r)) records)
                    (map Validator.val_id validators)).
  { intros k Hk. apply in_map_iff in Hk. destruct Hk as [r [<- Hr]].
    destruct (Hmem r Hr) as [v [Hv [E _]]]. rewrite <- E. now apply in_map. }
  pose proof (NoDup_incl_length Hs Hi) as L. rewrite !length_map in L.
  unfold len. lia.
Qed.

(** Every record's last-attestation descriptor has one of two shapes.  A
    descriptor with an epoch [e] has status ['found'] or ['found_extended'],
    timestamp [1606824023 + 384 e] and age [latest_epoch - e].  A
    descriptor without an epoch has no timestamp and no age, and its status
    is ['older_than_N_days'] for an integer [N].  The preset score of a
    record is null or 0.0. *)
Theorem record_descriptor_shape (client : Client) (validators : list Validator.t)
  (latest_epoch epochs_to_analyze : Z) (r : Aggregate.t) :
  In r (fst (fst (query_attestation_performance client validators latest_epoch
                    epochs_to_analyze))) ->
  let d := Aggregate.last_attestation r in
  match epoch d with
  | Some e =>
      (status d = "found"%string \/ status d = "found_extended"%string)
      /\ timestamp d = Some (1606824023 + 384 * e)
      /\ datetime d = Some (LocalIso (1606824023 + 384 * e))
      /\ age_epochs d = Some (latest_epoch - e)
      /\ is_found d = true /\ is_older d = false
  | None =>
      timestamp d = None /\ datetime d = None /\ age_epochs d = None
      /\ (exists n, status d = older_than n)
      /\ is_found d = false /\ is_older d = true
  end
  /\ (Aggregate.performance_score r = None \/ Aggregate.performance_score r = Some 0%Q).
Proof.
  intros Hr d. apply record_entry in Hr.
  destruct Hr as (_ & _ & Hshape & Hscore & _). cbn [snd] in Hshape, Hscore.
  split; [|exact Hscore]. fold d in Hshape.
  destruct Hshape as [[e [s [Hs ->]]]|[n ->]].
  - cbn [attested epoch status timestamp datetime age_epochs].
    unfold genesis_timestamp. replace (e * 32 * 12) with (384 * e) by lia.
    destruct Hs as [-> | ->]; repeat split; auto.
  - cbn [status_only epoch status timestamp datetime age_epochs].
    repeat split; try reflexivity; [now exists n|].
    unfold is_older, startswith. apply String.prefix_correct.
    unfold status_only, older_than. cbn.
    now destruct (str_of_int n ++ "_days")%string.
Qed.

Lemma record_descriptor_shape_witness :
  let r := make_aggregate rowA vA (attested 990 1000 "found") in
  Aggregate.performance_score r = None \/ Aggregate.performance_score r = Some 0%Q.
Proof.
  apply (record_descriptor_shape example_client [vA; vB] 1000 225).
  left. reflexivity.
Defined.

(** *** Extended searches *)





(** *** Batches *)

Lemma batches_aux_nil {A : Type} (fuel n : nat) : batches_aux fuel n (@nil A) = [].
Proof. now destruct fuel. Qed.

Lemma batches_aux_sizes {A : Type} (n : nat) (fuel : nat) :
  forall l : list A,
    (0 < n)%nat -> (List.length l <= fuel)%nat ->
    Forall (fun b => b <> [] /\ (List.length b <= n)%nat) (batches_aux fuel n l)
    /\ (List.length l <= List.length (batches_aux fuel n l) * n < List.length l + n)%nat.
Proof.
  induction fuel as [|fuel IH]; intros l Hn Hl.
  - destruct l; [|simpl in Hl; lia]. simpl. split; [constructor|lia].
  - destruct l as [|x l]; [simpl; split; [constructor|lia]|].
    cbn [batches_aux].
    assert (Hs : (List.length (skipn n (x :: l)) <= fuel)%nat).
    { rewrite length_skipn. cbn [List.length] in *. lia. }
    destruct (IH (skipn n (x :: l)) Hn Hs) as [F B]. split.
    + constructor; [|exact F]. split.
      * destruct n; [lia|]. discriminate.
      * rewrite length_firstn. lia.
    + cbn [List.length]. rewrite length_skipn in B.
      destruct (Nat.le_gt_cases n (List.length (x :: l))) as [Hge|Hlt].
      * cbn [List.length] in *. lia.
      * assert (Hnil : skipn n (x :: l) = []) by (apply skipn_all2; lia).
        rewrite Hnil, batches_aux_nil. cbn [List.length] in *. lia.
Qed.

(** The validators are queried in batches of at most 1000: the batches are
    non-empty, taken in order they are exactly the validators, and their
    number is the number of validators divided by 1000, rounded up. *)
Theorem batches_cover_validators (validators : list Validator.t) :
  let bs := batches batch_size validators in
  List.concat bs = validators
  /\ Forall (fun b => b <> [] /\ len b <= 1000) bs
  /\ len bs = (len validators + 999) / 1000.
Proof.
  intros bs.
  destruct (batches_aux_sizes batch_size (List.length validators) validators) as [F B];
    [unfold batch_size; lia|lia|].
  fold (batches batch_size validators) in F, B. fold bs in F, B.
  split; [apply batches_concat; unfold batch_size; lia|]. split.
  - eapply Forall_impl; [|exact F]. intros b [Hne Hle]. split; [exact Hne|].
    unfold len, batch_size in *. lia.
  - unfold len, batch_size in *.
    apply (Z.div_unique _ _ _ (Z.of_nat (List.length validators) + 999
                               - 1000 * Z.of_nat (List.length bs))); lia.
Qed.

(** *** A store that does not answer *)

(** If no window query is answered, the aggregator returns no record and
    makes no extended search; the rollup of that result lists every roster
    node with score ["N/A"], and nothing once a numeric threshold is applied. *)
Theorem unanswered_queries_give_no_records (client : Client) (validators : list Validator.t)
  (latest_epoch epochs_to_analyze : Z) :
  (forall s e ids, performance_query client s e ids = None) ->
  let performance_data :=
    fst (fst (query_attestation_performance client validators latest_epoch epochs_to_analyze)) in
  performance_data = []
  /\ extended_calls client validators latest_epoch epochs_to_analyze = []
  /\ forall now all_rp_validators scan_data fusaka_deaths,
       (forall threshold_filter n,
           In n (fst (calculate_node_performance_scores now performance_data all_rp_validators
                        threshold_filter scan_data fusaka_deaths)) ->
           Node.performance_score n = NA)
       /\ (forall t,
             fst (calculate_node_performance_scores now performance_data all_rp_validators
                    (Some (Cutoff t)) scan_data fusaka_deaths) = []).
Proof.
  intros Hq performance_data.
  assert (G : forall bs st,
             fold_left (process_batch client (get_database_retention_info client)
                          (window_start latest_epoch epochs_to_analyze)
                          latest_epoch latest_epoch) bs st = st).
  { induction bs as [|b bs IH]; intros st; simpl; [reflexivity|].
    rewrite IH. unfold process_batch. destruct st as [aggs calls]. now rewrite Hq. }
  assert (E : performance_data = []).
  { unfold performance_data, query_attestation_performance, run_batches. cbn [fst].
    now rewrite G. }
  split; [exact E|]. split.
  { unfold extended_calls, run_batches. now rewrite G. }
  intros now all_rp_validators scan_data fusaka_deaths. rewrite E.
  assert (Hna : forall threshold_filter n,
             In n (fst (calculate_node_performance_scores now [] all_rp_validators
                          threshold_filter scan_data fusaka_deaths)) ->
             Node.performance_score n = NA).
  { intros threshold_filter n Hn. apply calculate_nodes in Hn.
    destruct Hn as [a [c [_ ->]]]. now rewrite node_record_score. }
  split; [exact Hna|]. intros t.
  destruct (fst (calculate_node_performance_scores now [] all_rp_validators
                   (Some (Cutoff t)) scan_data fusaka_deaths)) as [|n l] eqn:El;
    [reflexivity|].
  assert (Hin : In n (fst (calculate_node_performance_scores now [] all_rp_validators
                             (Some (Cutoff t)) scan_data fusaka_deaths)))
    by (rewrite El; now left).
  pose proof (Hna _ _ Hin) as Hs.
  rewrite calculate_fst in Hin. cbn [apply_threshold] in Hin. apply filter_In in Hin.
  rewrite Hs in Hin. destruct Hin as [_ Hin]. discriminate.
Qed.

(** A store whose window queries raise. *)
Definition silent_client : Client :=
  mkClient (Some (Some 100, Some 1000)) (fun _ _ _ => None) (fun _ _ _ => Some []).

Lemma unanswered_queries_give_no_records_witness :
  extended_calls silent_client [vA; vB] 1000 225 = [].
Proof.
  apply (unanswered_queries_give_no_records silent_client [vA; vB] 1000 225).
  reflexivity.
Defined.

End Aggregator.

(* ------------------------------------------------------------------ *)
(** ** Daily snapshot metrics                                          *)
(* ------------------------------------------------------------------ *)

Module Snapshots.
Import collect_daily_stats.

Lemma count_nil {A : Type} (p : A -> bool) : count p [] = 0.
Proof. reflexivity. Qed.

Lemma count_cons {A : Type} (p : A -> bool) (x : A) (l : list A) :
  count p (x :: l) = count p l + (if p x then 1 else 0).
Proof.
  unfold count. cbn [filter]. destruct (p x); [apply len_cons|lia].
Qed.

Lemma count_nonneg {A : Type} (p : A -> bool) (l : list A) : 0 <= count p l.
Proof. apply len_nonneg. Qed.

Lemma count_le_len {A : Type} (p : A -> bool) (l : list A) : count p l <= len l.
Proof.
  induction l as [|x l IH]; [reflexivity|].
  rewrite count_cons, len_cons. destruct (p x); lia.
Qed.

Lemma count_mono {A : Type} (p q : A -> bool) (l : list A) :
  (forall x, In x l -> p x = true -> q x = true) -> count p l <= count q l.
Proof.
  induction l as [|x l IH]; intros H; [reflexivity|].
  rewrite !count_cons. specialize (IH (fun y Hy => H y (or_intror Hy))).
  specialize (H x (or_introl eq_refl)).
  destruct (p x); [rewrite H by reflexivity; lia|destruct (q x); lia].
Qed.

(** The fields of the metrics that do not depend on the first loop. *)
Lemma metrics_minipools {Entry : Type} (fusaka_file : list Entry)
  (performance_data : list PerfEntry) (node_assignments validator_statuses : list (Z * string))
  (end_epoch : Z) :
  let m := calculate_snapshot_metrics fusaka_file performance_data node_assignments
             validator_statuses end_epoch in
  let mscores := minipool_scores node_assignments validator_statuses performance_data in
  underperforming_minipools m = count (fun s => qlt s PERFORMANCE_THRESHOLD) mscores
  /\ zero_performance_minipools m = count (fun s => Qeq_bool s 0) mscores
  /\ perf_band_99_5_100 m = count (fun s => Nat.eqb (band s) 6) mscores
  /\ perf_band_95_99_5 m = count (fun s => Nat.eqb (band s) 5) mscores
  /\ perf_band_90_95 m = count (fun s => Nat.eqb (band s) 4) mscores
  /\ perf_band_80_90 m = count (fun s => Nat.eqb (band s) 3) mscores
  /\ perf_band_50_80 m = count (fun s => Nat.eqb (band s) 2) mscores
  /\ perf_band_0_50 m = count (fun s => Nat.eqb (band s) 1) mscores
  /\ perf_band_0 m = count (fun s => Nat.eqb (band s) 0) mscores.
Proof.
  cbv zeta. unfold calculate_snapshot_metrics.
  destruct (fold_left _ performance_data _) as [np [[e m] p]]. repeat split.
Qed.

Lemma band_le_6 (s : Q) : (band s <= 6)%nat.
Proof.
  unfold band.
  destruct (Qeq_bool s 0); [lia|]. destruct (qlt s 50); [lia|].
  destruct (qlt s 80); [lia|]. destruct (qlt s 90); [lia|].
  destruct (qlt s 95); [lia|]. destruct (qlt s (995 # 10)); lia.
Qed.

Lemma qlt_trans_const (s a b : Q) : (a <= b)%Q -> qlt s a = true -> qlt s b = true.
Proof.
  intros Hab H. apply Analysis.qlt_iff in H. apply Analysis.qlt_iff.
  now apply Qlt_le_trans with (y := a).
Qed.

(** A score is below the threshold exactly when its band is one of the
    three lowest. *)
Lemma below_threshold_band (s : Q) :
  qlt s PERFORMANCE_THRESHOLD = (band s <=? 2)%nat.
Proof.
  unfold band, PERFORMANCE_THRESHOLD.
  destruct (Qeq_bool s 0) eqn:E0.
  - apply Qeq_bool_iff in E0. cbn [Nat.leb]. apply Analysis.qlt_iff. now rewrite E0.
  - destruct (qlt s 50) eqn:E1.
    + cbn [Nat.leb]. now apply (qlt_trans_const s 50 80).
    + destruct (qlt s 80) eqn:E2; [reflexivity|].
      destruct (qlt s 90); [reflexivity|]. destruct (qlt s 95); [reflexivity|].
      now destruct (qlt s (995 # 10)).
Qed.

Lemma zero_band (s : Q) : Qeq_bool s 0 = Nat.eqb (band s) 0.
Proof.
  unfold band. destruct (Qeq_bool s 0); [reflexivity|].
  destruct (qlt s 50); [reflexivity|]. destruct (qlt s 80); [reflexivity|].
  destruct (qlt s 90); [reflexivity|]. destruct (qlt s 95); [reflexivity|].
  now destruct (qlt s (995 # 10)).
Qed.

Lemma count_ext {A : Type} (p q : A -> bool) (l : list A) :
  (forall x, p x = q x) -> count p l = count q l.
Proof. intros H. unfold count. f_equal. now apply filter_ext. Qed.

Lemma band_counts (l : list Q) :
  count (fun s => Nat.eqb (band s) 0) l + count (fun s => Nat.eqb (band s) 1) l
  + count (fun s => Nat.eqb (band s) 2) l + count (fun s => Nat.eqb (band s) 3) l
  + count (fun s => Nat.eqb (band s) 4) l + count (fun s => Nat.eqb (band s) 5) l
  + count (fun s => Nat.eqb (band s) 6) l = len l
  /\ count (fun s => (band s <=? 2)%nat) l
     = count (fun s => Nat.eqb (band s) 0) l + count (fun s => Nat.eqb (band s) 1) l
       + count (fun s => Nat.eqb (band s) 2) l.
Proof.
  induction l as [|x l [IH1 IH2]]; [split; reflexivity|].
  rewrite !count_cons, len_cons. pose proof (band_le_6 x) as Hb.
  destruct (band x) as [|[|[|[|[|[|[|n]]]]]]]; cbn [Nat.eqb Nat.leb]; [..|lia]; split; lia.
Qed.

(** The seven performance bands partition the scored minipools (active
    validators with a node and at least one counted epoch): the band counts
    add up to their number; [zero_performance_minipools] is the lowest band;
    [underperforming_minipools] is the sum of the three bands below 80. *)
Theorem performance_bands_partition {Entry : Type} (fusaka_file : list Entry)
  (performance_data : list PerfEntry) (node_assignments validator_statuses : list (Z * string))
  (end_epoch : Z) :
  let m := calculate_snapshot_metrics fusaka_file performance_data node_assignments
             validator_statuses end_epoch in
  perf_band_0 m + perf_band_0_50 m + perf_band_50_80 m + perf_band_80_90 m
  + perf_band_90_95 m + perf_band_95_99_5 m + perf_band_99_5_100 m
  = len (minipool_scores node_assignments validator_statuses performance_data)
  /\ zero_performance_minipools m = perf_band_0 m
  /\ underperforming_minipools m = perf_band_0 m + perf_band_0_50 m + perf_band_50_80 m
  /\ len (minipool_scores node_assignments validator_statuses performance_data)
     <= len performance_data.
Proof.
  intros m.
  destruct (metrics_minipools fusaka_file performance_data node_assignments
              validator_statuses end_epoch)
    as (Hu & Hz & H6 & H5 & H4 & H3 & H2 & H1 & H0).
  fold m in Hu, Hz, H6, H5, H4, H3, H2, H1, H0.
  rewrite Hu, Hz, H6, H5, H4, H3, H2, H1, H0.
  destruct (band_counts (minipool_scores node_assignments validator_statuses
                           performance_data)) as [Hsum Hlow].
  split; [exact Hsum|]. split; [apply count_ext, zero_band|]. split.
  - rewrite <- Hlow. apply count_ext, below_threshold_band.
  - unfold minipool_scores, len. rewrite length_map.
    apply Nat2Z.inj_le. apply filter_length_le.
Qed.

(** *** The first loop *)

(** The entry belongs to a validator with a node: it counts for the
    network totals. *)
Definition counted (node_assignments : list (Z * string)) (perf : PerfEntry) : bool :=
  match assigned_node node_assignments (val_id perf) with
  | Some _ => true
  | None => false
  end.

(** The node the entry is scored for: that of an active validator. *)
Definition scoring_node (node_assignments validator_statuses : list (Z * string))
  (perf : PerfEntry) : list string :=
  match assigned_node node_assignments (val_id perf) with
  | Some a => if status_active (dict_get Z.eqb (val_id perf) validator_statuses) then [a] else []
  | None => []
  end.

Lemma accumulate_perf_totals (node_assignments validator_statuses : list (Z * string))
  (l : list PerfEntry) :
  forall np e m p,
    snd (fold_left (accumulate_perf node_assignments validator_statuses) l (np, (e, m, p)))
    = (e + zsum (map total_earned (filter (counted node_assignments) l)),
       m + zsum (map total_missed (filter (counted node_assignments) l)),
       p + zsum (map total_penalties (filter (counted node_assignments) l))).
Proof.
  induction l as [|x l IH]; intros np e m p; cbn [fold_left filter].
  - cbn. now rewrite !Z.add_0_r.
  - destruct (accumulate_perf node_assignments validator_statuses (np, (e, m, p)) x)
      as [np' [[e' m'] p']] eqn:Ea.
    rewrite IH. unfold accumulate_perf in Ea.
    destruct (counted node_assignments x) eqn:Ec; unfold counted in Ec;
      destruct (assigned_node node_assignments (val_id x)) as [a|]; try discriminate.
    + assert (E : (e', m', p')
                  = (e + total_earned x, m + total_missed x, p + total_penalties x))
        by (destruct (negb (status_active _)); now inversion Ea).
      inversion E; subst. unfold zsum. cbn [map fold_right]. f_equal; [f_equal|]; lia.
    + now inversion Ea.
Qed.

Lemma accumulate_perf_step_keys (node_assignments validator_statuses : list (Z * string))
  (acc : list (string * NodePerf) * (Z * Z * Z)) (x : PerfEntry) :
  NoDup (map fst (fst acc)) ->
  NoDup (map fst (fst (accumulate_perf node_assignments validator_statuses acc x)))
  /\ forall a,
       In a (map fst (fst (accumulate_perf node_assignments validator_statuses acc x)))
       <-> In a (map fst (fst acc))
           \/ In a (scoring_node node_assignments validator_statuses x).
Proof.
  destruct acc as [np [[e m] p]]. intros Hnd. unfold accumulate_perf, scoring_node.
  destruct (assigned_node node_assignments (val_id x)) as [a0|];
    [|split; [exact Hnd|intros a; cbn [In]; tauto]].
  destruct (status_active _); cbn [negb fst] in *;
    [|split; [exact Hnd|intros a; cbn [In]; tauto]].
  split; [now apply (dict_set_keys_NoDup String.eqb string_eqb_spec)|].
  intros a. rewrite (dict_set_keys_In String.eqb string_eqb_spec). cbn [In].
  intuition congruence.
Qed.

Lemma accumulate_perf_keys (node_assignments validator_statuses : list (Z * string))
  (l : list PerfEntry) :
  forall acc,
    NoDup (map fst (fst acc)) ->
    NoDup (map fst (fst (fold_left (accumulate_perf node_assignments validator_statuses) l acc)))
    /\ forall a,
         In a (map fst (fst (fold_left (accumulate_perf node_assignments validator_statuses)
                               l acc)))
         <-> In a (map fst (fst acc))
             \/ In a (flat_map (scoring_node node_assignments validator_statuses) l).
Proof.
  induction l as [|x l IH]; intros acc Hnd; cbn [fold_left flat_map].
  - split; [exact Hnd|]. intros a. cbn [In]. tauto.
  - destruct (accumulate_perf_step_keys node_assignments validator_statuses acc x Hnd)
      as [N1 K1].
    destruct (IH _ N1) as [N K]. split; [exact N|].
    intros a. rewrite K, K1, in_app_iff. tauto.
Qed.

Lemma accumulate_perf_bounded (node_assignments validator_statuses : list (Z * string))
  (l : list PerfEntry) :
  (forall x, In x l -> 0 <= successful_attestations x <= total_epochs x) ->
  forall acc,
    Forall (fun kv => 0 <= np_successful_attestations (snd kv) <= np_total_epochs (snd kv))
           (fst acc) ->
    Forall (fun kv => 0 <= np_successful_attestations (snd kv) <= np_total_epochs (snd kv))
           (fst (fold_left (accumulate_perf node_assignments validator_statuses) l acc)).
Proof.
  induction l as [|x l IH]; intros Hl [np [[e m] p]] H; cbn [fold_left]; [exact H|].
  apply IH; [intros y Hy; apply Hl; now right|].
  unfold accumulate_perf.
  destruct (assigned_node node_assignments (val_id x)) as [a0|]; [|exact H].
  destruct (status_active _); cbn [negb fst]; [|exact H].
  cbn [fst] in H. apply Aggregator.dict_set_entries; [|exact H].
  cbn [snd np_successful_attestations np_total_epochs].
  pose proof (Hl x (or_introl eq_refl)) as Hx.
  destruct (dict_get String.eqb a0 np) as [old|] eqn:Eg.
  - apply (dict_get_Some_In String.eqb string_eqb_spec) in Eg.
    rewrite Forall_forall in H. specialize (H _ Eg). cbn [snd] in H. lia.
  - cbn [np_successful_attestations np_total_epochs]. lia.
Qed.

Lemma metrics_nodes {Entry : Type} (fusaka_file : list Entry)
  (performance_data : list PerfEntry) (node_assignments validator_statuses : list (Z * string))
  (end_epoch : Z) :
  let m := calculate_snapshot_metrics fusaka_file performance_data node_assignments
             validator_statuses end_epoch in
  let acc := fold_left (accumulate_perf node_assignments validator_statuses) performance_data
               ([], (0, 0, 0)) in
  let scored := filter (fun kv => 0 <? np_total_epochs (snd kv)) (fst acc) in
  let node_score := fun kv : string * NodePerf =>
    percent (np_successful_attestations (snd kv)) (np_total_epochs (snd kv)) in
  let successes := fold_left (fun a kv => a + np_successful_attestations (snd kv)) scored 0 in
  let possible := fold_left (fun a kv => a + np_total_epochs (snd kv)) scored 0 in
  underperforming_nodes m = count (fun kv => qlt (node_score kv) PERFORMANCE_THRESHOLD) scored
  /\ zero_performance_nodes m = count (fun kv => Qeq_bool (node_score kv) 0) scored
  /\ total_nodes m = len (fst acc)
  /\ (total_earned_rewards_gwei m, total_missed_rewards_gwei m, total_penalties_gwei m)
     = snd acc
  /\ total_lost_gwei m = total_missed_rewards_gwei m + total_penalties_gwei m
  /\ avg_performance_score m
     = round2 (if 0 <? possible then percent successes possible else 0%Q).
Proof.
  cbv zeta. unfold calculate_snapshot_metrics.
  destruct (fold_left _ performance_data _) as [np [[e m] p]]. repeat split.
Qed.

(** [total_nodes] counts the nodes that have at least one active validator
    among the performance entries, each once; the nodes without any counted
    epoch are not scored, a node with score 0 is also underperforming, and
    so [zero_performance_nodes <= underperforming_nodes <= total_nodes]. *)
Theorem snapshot_node_counts {Entry : Type} (fusaka_file : list Entry)
  (performance_data : list PerfEntry) (node_assignments validator_statuses : list (Z * string))
  (end_epoch : Z) :
  let m := calculate_snapshot_metrics fusaka_file performance_data node_assignments
             validator_statuses end_epoch in
  0 <= zero_performance_nodes m <= underperforming_nodes m
  /\ underperforming_nodes m <= total_nodes m
  /\ total_nodes m
     = len (nodup string_dec
              (flat_map (scoring_node node_assignments validator_statuses) performance_data)).
Proof.
  intros m.
  destruct (metrics_nodes fusaka_file performance_data node_assignments validator_statuses
              end_epoch) as (Hu & Hz & Ht & _).
  fold m in Hu, Hz, Ht. rewrite Hu, Hz, Ht.
  split; [split; [apply count_nonneg|]|split].
  - apply count_mono. intros kv _ H. apply Qeq_bool_iff in H.
    apply Analysis.qlt_iff. rewrite H. reflexivity.
  - eapply Z.le_trans; [apply count_le_len|].
    unfold len. apply Nat2Z.inj_le. apply filter_length_le.
  - destruct (accumulate_perf_keys node_assignments validator_statuses performance_data
                ([], (0, 0, 0)) (NoDup_nil _)) as [N K].
    unfold len. f_equal. rewrite <- (length_map fst).
    apply Permutation_length. apply NoDup_Permutation; [exact N|apply NoDup_nodup|].
    intros a. rewrite K, nodup_In. cbn [fst map In]. tauto.
Qed.

(** The network's reward totals are summed over every performance entry
    whose validator has a node, active or not; [total_lost_gwei] is the sum
    of the missed rewards and the penalties. *)
Theorem snapshot_financial_totals {Entry : Type} (fusaka_file : list Entry)
  (performance_data : list PerfEntry) (node_assignments validator_statuses : list (Z * string))
  (end_epoch : Z) :
  let m := calculate_snapshot_metrics fusaka_file performance_data node_assignments
             validator_statuses end_epoch in
  let with_node := filter (counted node_assignments) performance_data in
  total_earned_rewards_gwei m = zsum (map total_earned with_node)
  /\ total_missed_rewards_gwei m = zsum (map total_missed with_node)
  /\ total_penalties_gwei m = zsum (map total_penalties with_node)
  /\ total_lost_gwei m
     = zsum (map total_missed with_node) + zsum (map total_penalties with_node)
  /\ (forall perf, In perf with_node
                   <-> In perf performance_data
                       /\ exists a, dict_get Z.eqb (val_id perf) node_assignments = Some a
                                    /\ a <> EmptyString).
Proof.
  intros m with_node.
  destruct (metrics_nodes fusaka_file performance_data node_assignments validator_statuses
              end_epoch) as (_ & _ & _ & Hs & Hl & _).
  fold m in Hs, Hl. rewrite accumulate_perf_totals in Hs. fold with_node in Hs.
  rewrite !Z.add_0_l in Hs. inversion Hs as [[He Hm Hp]].
  rewrite Hl, Hm, Hp. repeat split; try reflexivity.
  - apply filter_In in H. tauto.
  - apply filter_In in H. destruct H as [_ H]. unfold counted, assigned_node in H.
    destruct (dict_get Z.eqb (val_id perf) node_assignments) as [a|]; [|discriminate].
    exists a. split; [reflexivity|]. intros ->. discriminate.
  - intros [Hin [a [Ha Hne]]]. apply filter_In. split; [exact Hin|].
    unfold counted, assigned_node. rewrite Ha.
    destruct (String.eqb_spec a EmptyString); [contradiction|reflexivity].
Qed.

Lemma fold_sum_bounds {A : Type} (f g : A -> Z) (l : list A) :
  (forall x, In x l -> 0 <= f x <= g x) ->
  forall a b, 0 <= a <= b ->
              0 <= fold_left (fun s x => s + f x) l a <= fold_left (fun s x => s + g x) l b.
Proof.
  induction l as [|x l IH]; intros H a b Hab; cbn [fold_left]; [exact Hab|].
  apply IH; [intros y Hy; apply H; now right|].
  specialize (H x (or_introl eq_refl)). lia.
Qed.

(** When every entry has at least as many counted epochs as successful
    attestations, and none is negative, the network average lies between 0
    and 100. *)
Theorem avg_performance_within_0_100 {Entry : Type} (fusaka_file : list Entry)
  (performance_data : list PerfEntry) (node_assignments validator_statuses : list (Z * string))
  (end_epoch : Z) :
  (forall perf, In perf performance_data ->
                0 <= successful_attestations perf <= total_epochs perf) ->
  (0 <= avg_performance_score
          (calculate_snapshot_metrics fusaka_file performance_data node_assignments
             validator_statuses end_epoch) <= 100)%Q.
Proof.
  intros Hb.
  destruct (metrics_nodes fusaka_file performance_data node_assignments validator_statuses
              end_epoch) as (_ & _ & _ & _ & _ & Ha).
  rewrite Ha. clear Ha.
  pose proof (accumulate_perf_bounded node_assignments validator_statuses performance_data
                Hb ([], (0, 0, 0)) (Forall_nil _)) as F.
  set (acc := fold_left (accumulate_perf node_assignments validator_statuses)
                performance_data ([], (0, 0, 0))) in *.
  set (scored := filter (fun kv => 0 <? np_total_epochs (snd kv)) (fst acc)).
  assert (Fs : forall kv, In kv scored ->
                          0 <= np_successful_attestations (snd kv) <= np_total_epochs (snd kv)).
  { intros kv Hkv. apply filter_In in Hkv. rewrite Forall_forall in F. apply F. tauto. }
  pose proof (fold_sum_bounds (fun kv => np_successful_attestations (snd kv))
                (fun kv => np_total_epochs (snd kv)) scored Fs 0 0 ltac:(lia)) as B.
  destruct (0 <? fold_left (fun a kv => a + np_total_epochs (snd kv)) scored 0) eqn:E.
  - apply Z.ltb_lt in E. split.
    + apply Analysis.round2_nonneg. apply Analysis.percent_nonneg; lia.
    + apply Rollup.round2_le_100. apply Rollup.percent_le_100; lia.
  - split; [apply Analysis.round2_nonneg; apply Qle_refl
           |apply Rollup.round2_le_100; discriminate].
Qed.

Definition example_entries : list PerfEntry :=
  [mkPerfEntry 1 900 100 0 220 225 (Some 990) 32000000000;
   mkPerfEntry 2 0 1000 5 0 225 None 31000000000].

Definition example_assignments : list (Z * string) := [(1, "0xA"%string); (2, "0xB"%string)].

Definition example_statuses : list (Z * string) :=
  [(1, "active_ongoing"%string); (2, "active_ongoing"%string)].

Definition example_metrics : Metrics :=
  calculate_snapshot_metrics (@nil Z) example_entries example_assignments example_statuses
    1000.

Lemma avg_performance_within_0_100_witness :
  (0 <= avg_performance_score example_metrics <= 100)%Q.
Proof.
  apply avg_performance_within_0_100.
  intros perf [<-|[<-|[]]]; cbn; lia.
Defined.

(** *** Windows of consecutive days *)

Lemma metrics_window {Entry : Type} (fusaka_file : list Entry)
  (performance_data : list PerfEntry) (node_assignments validator_statuses : list (Z * string))
  (e : Z) :
  let m := calculate_snapshot_metrics fusaka_file performance_data node_assignments
             validator_statuses e in
  start_epoch m = e - ANALYSIS_PERIOD_EPOCHS + 1
  /\ end_epoch m = e
  /\ epochs_analyzed m = ANALYSIS_PERIOD_EPOCHS.
Proof.
  cbv zeta. unfold calculate_snapshot_metrics.
  destruct (fold_left _ performance_data _) as [np [[a b] c]]. repeat split.
Qed.

(** From the first day that ends after genesis on, the end epoch of a day
    [k] days later is [225 k] epochs later, in whatever zone the process
    runs; so the window of 1575 epochs of a snapshot begins with the epoch
    after the end epoch of the day seven days before, and the windows of
    snapshots a week apart neither overlap nor leave a gap. *)
Theorem daily_windows_tile (utcoffset : Z) (d d' : calendar_date) (k : Z) :
  0 <= k ->
  toordinal d' = toordinal d + k ->
  genesis_timestamp <= naive_timestamp utcoffset d 23 59 59 ->
  date_to_end_epoch utcoffset d' = date_to_end_epoch utcoffset d + k * EPOCHS_PER_DAY
  /\ (k = 7 ->
      forall (Entry : Type) (fusaka_file : list Entry) performance_data node_assignments
             validator_statuses,
        start_epoch (calculate_snapshot_metrics fusaka_file performance_data node_assignments
                       validator_statuses (date_to_end_epoch utcoffset d'))
        = date_to_end_epoch utcoffset d + 1).
Proof.
  intros Hk Hd Hg.
  assert (E : date_to_end_epoch utcoffset d'
              = date_to_end_epoch utcoffset d + k * EPOCHS_PER_DAY).
  { unfold date_to_end_epoch, EPOCHS_PER_DAY, int_div in *. cbv zeta.
    unfold naive_timestamp, utc_timestamp in *. rewrite Hd.
    set (t := (toordinal d - unix_epoch_ordinal) * 86400 + 23 * 3600 + 59 * 60 + 59
              - utcoffset - genesis_timestamp) in *.
    replace ((toordinal d + k - unix_epoch_ordinal) * 86400 + 23 * 3600 + 59 * 60 + 59
             - utcoffset - genesis_timestamp) with (t + k * 225 * 384) by (unfold t; lia).
    assert (Ht : 0 <= t) by (unfold t; lia).
    rewrite !Z.quot_div_nonneg by lia. now rewrite Z.div_add by lia. }
  split; [exact E|]. intros -> Entry fusaka_file performance_data node_assignments
                             validator_statuses.
  destruct (metrics_window fusaka_file performance_data node_assignments validator_statuses
              (date_to_end_epoch utcoffset d')) as [-> _].
  rewrite E. unfold ANALYSIS_PERIOD_EPOCHS, EPOCHS_PER_DAY. lia.
Qed.

Lemma daily_windows_tile_witness :
  date_to_end_epoch 3600 (mkdate 2024 3 22)
  = date_to_end_epoch 3600 (mkdate 2024 3 15) + 7 * EPOCHS_PER_DAY.
Proof.
  apply (daily_windows_tile 3600 (mkdate 2024 3 15) (mkdate 2024 3 22) 7).
  - lia.
  - reflexivity.
  - vm_compute. discriminate.
Defined.

(** *** Number of snapshots *)

Lemma kept_dates_distinct (d : string) (l : list Snapshot) :
  NoDup (map date l) ->
  NoDup (map date (filter (fun s => negb (String.eqb (date s) d)) l))
  /\ ~ In d (map date (filter (fun s => negb (String.eqb (date s) d)) l))
  /\ len (filter (fun s => negb (String.eqb (date s) d)) l)
     = len l - (if existsb (String.eqb d) (map date l) then 1 else 0).
Proof.
  induction l as [|x l IH]; intros Hd.
  - cbn. repeat split; [constructor|tauto].
  - cbn [map] in Hd. apply NoDup_cons_iff in Hd. destruct Hd as [Hx Hd].
    destruct (IH Hd) as (N & Hn & L). cbn [filter map existsb].
    rewrite (String.eqb_sym d (date x)).
    destruct (String.eqb_spec (date x) d) as [E|Ne]; cbn [negb orb].
    + split; [exact N|]. split; [exact Hn|]. rewrite L, len_cons.
      replace (existsb (String.eqb d) (map date l)) with false; [lia|].
      symmetry. apply not_true_is_false. intros H.
      apply (existsb_eqb_In String.eqb string_eqb_spec) in H. congruence.
    + cbn [map]. split; [|split].
      * apply NoDup_cons; [|exact N]. intros Hin. apply Hx.
        apply in_map_iff in Hin. destruct Hin as [y [Ey Hy]]. apply filter_In in Hy.
        apply in_map_iff. exists y. tauto.
      * intros [H|H]; [congruence|exact (Hn H)].
      * rewrite !len_cons, L. lia.
Qed.

(** In a history with one snapshot per date, [append_snapshot] keeps one
    snapshot per date; the snapshot count stays as it is when the date was
    already present and grows by one otherwise; the creation time and the
    description are kept and the update time is the clock's. *)
Theorem append_snapshot_count (now : string) (h : StatsHistory) (s : Snapshot) :
  NoDup (map date (snapshots h)) ->
  let h' := append_snapshot now h s in
  NoDup (map date (snapshots h'))
  /\ total_snapshots (metadata h')
     = len (snapshots h)
       + (if existsb (String.eqb (date s)) (map date (snapshots h)) then 0 else 1)
  /\ (forall d, In d (map date (snapshots h')) <-> d = date s \/ In d (map date (snapshots h)))
  /\ created_at (metadata h') = created_at (metadata h)
  /\ description (metadata h') = description (metadata h)
  /\ last_updated (metadata h') = now.
Proof.
  intros Hd h'.
  destruct (kept_dates_distinct (date s) (snapshots h) Hd) as (N & Hn & L).
  assert (P : Permutation (snapshots h')
                (filter (fun x => negb (String.eqb (date x) (date s))) (snapshots h) ++ [s]))
    by apply stable_sort_perm.
  split; [|split; [|split; [|repeat split]]].
  - apply (Permutation_NoDup (Permutation_sym (Permutation_map date P))).
    rewrite map_app. cbn [map]. apply NoDup_app; [exact N|repeat constructor; intros []|].
    intros x Hx [<-|[]]. exact (Hn Hx).
  - change (total_snapshots (metadata h')) with (len (snapshots h')).
    unfold len in *. rewrite (Permutation_length P), length_app. cbn [List.length].
    destruct (existsb _ _); lia.
  - intros d. split.
    + intros H. apply (Permutation_in _ (Permutation_map date P)) in H.
      rewrite map_app, in_app_iff in H. cbn [map In] in H.
      destruct H as [H|[H|[]]]; [right|left; now symmetry].
      apply in_map_iff in H. destruct H as [y [Ey Hy]]. apply filter_In in Hy.
      apply in_map_iff. exists y. tauto.
    + intros H. apply (Permutation_in _ (Permutation_sym (Permutation_map date P))).
      rewrite map_app, in_app_iff. cbn [map In].
      destruct (String.eqb_spec d (date s)) as [E|Ne]; [right; left; now symmetry|].
      destruct H as [H|H]; [contradiction|]. left.
      apply in_map_iff in H. destruct H as [y [Ey Hy]]. apply in_map_iff. exists y.
      split; [exact Ey|]. apply filter_In. split; [exact Hy|].
      apply negb_true_iff. apply String.eqb_neq. congruence.
Qed.

Lemma append_snapshot_count_witness :
  total_snapshots (metadata (append_snapshot "t1" DailyStats.two_days
                               (DailyStats.snap "2024-03-15" 3)))
  = len (snapshots DailyStats.two_days) + 1.
Proof.
  apply (append_snapshot_count "t1" DailyStats.two_days (DailyStats.snap "2024-03-15" 3)).
  repeat constructor; cbn; intuition discriminate.
Defined.

End Snapshots.

(* ------------------------------------------------------------------ *)
(** ** Totals of the node list                                         *)
(* ------------------------------------------------------------------ *)

Module Report.
Import rocketpool_analysis_only.
Import Analysis.

(** How often [k] occurs among the keys. *)
Definition occurrences (k : string) (keys : list string) : Z :=
  len (filter (String.eqb k) keys).

Lemma occurrences_distinct (k : string) (keys : list string) :
  NoDup keys -> In k keys -> occurrences k keys = 1.
Proof.
  unfold occurrences. induction keys as [|a keys IH]; intros Hd Hin; [destruct Hin|].
  apply NoDup_cons_iff in Hd. destruct Hd as [Ha Hd]. cbn [filter].
  destruct (String.eqb_spec k a) as [->|Hne].
  - rewrite len_cons.
    assert (E : filter (String.eqb a) keys = []).
    { apply Analysis.filter_nil_existsb. apply not_true_is_false. intros H.
      apply (existsb_eqb_In String.eqb string_eqb_spec) in H. contradiction. }
    rewrite E. reflexivity.
  - destruct Hin as [E|Hin]; [congruence|]. now apply IH.
Qed.

Lemma zsum_cons (x : Z) (l : list Z) : zsum (x :: l) = x + zsum l.
Proof. reflexivity. Qed.

Lemma zsum_perm (l l' : list Z) : Permutation l l' -> zsum l = zsum l'.
Proof. induction 1; rewrite ?zsum_cons; lia. Qed.

Lemma zsum_ones {A : Type} (l : list A) : zsum (map (fun _ => 1) l) = len l.
Proof.
  induction l as [|x l IH]; [reflexivity|]. cbn [map]. rewrite zsum_cons, len_cons. lia.
Qed.

Section ByNode.

Context {A : Type}.
Variable node_of : A -> string.
Variable g : A -> Z.

Lemma sum_by_node_cons (keys : list string) (x : A) (l : list A) :
  zsum (map (fun a => zsum (map g (filter (fun r => String.eqb (node_of r) a) (x :: l)))) keys)
  = g x * occurrences (node_of x) keys
    + zsum (map (fun a => zsum (map g (filter (fun r => String.eqb (node_of r) a) l))) keys).
Proof.
  induction keys as [|a keys IH].
  - cbn. lia.
  - cbn [map]. rewrite !zsum_cons, IH. unfold occurrences. cbn [filter].
    destruct (String.eqb (node_of x) a).
    + cbn [map]. rewrite zsum_cons, len_cons. lia.
    + lia.
Qed.

(** Summing a quantity node by node gives its sum over all elements, when
    every element's node is among the nodes. *)
Lemma sum_by_node (keys : list string) (l : list A) :
  NoDup keys ->
  (forall r, In r l -> In (node_of r) keys) ->
  zsum (map (fun a => zsum (map g (filter (fun r => String.eqb (node_of r) a) l))) keys)
  = zsum (map g l).
Proof.
  intros Hd. induction l as [|x l IH]; intros Hin.
  - clear Hd Hin. induction keys as [|a keys IHk]; [reflexivity|exact IHk].
  - rewrite sum_by_node_cons, IH by (intros r Hr; apply Hin; now right).
    rewrite (occurrences_distinct _ _ Hd (Hin x (or_introl eq_refl))).
    cbn [map]. rewrite zsum_cons. lia.
Qed.

End ByNode.

Lemma records_of_distinct_ids (a : string) (performance_data : list Aggregate.t) :
  NoDup (map Aggregate.val_id performance_data) ->
  NoDup (map Aggregate.val_id (records_of a performance_data)).
Proof.
  unfold records_of. induction performance_data as [|r l IH]; intros Hd; [exact Hd|].
  cbn [map] in Hd. apply NoDup_cons_iff in Hd. destruct Hd as [Hr Hd]. cbn [filter].
  destruct (String.eqb (Aggregate.node_address r) a); [|exact (IH Hd)].
  cbn [map]. apply NoDup_cons; [|exact (IH Hd)].
  intros Hin. apply Hr. apply in_map_iff in Hin. destruct Hin as [r' [E Hr']].
  apply filter_In in Hr'. apply in_map_iff. exists r'. tauto.
Qed.

(** The sum of a field over the unfiltered node list. *)
Lemma sum_over_nodes (f : Node.t -> Z) (now : string) (performance_data : list Aggregate.t)
  (all_rp_validators : list Validator.t) (scan_data : option (list ScanNode))
  (fusaka_deaths : option FusakaDeaths) :
  zsum (map f (fst (calculate_node_performance_scores now performance_data all_rp_validators
                      None scan_data fusaka_deaths)))
  = zsum (map (fun kv => f (node_record performance_data scan_data fusaka_deaths
                              (fst kv) (snd kv)))
              (count_minipools all_rp_validators)).
Proof.
  rewrite calculate_fst. cbn [apply_threshold].
  rewrite (zsum_perm _ _ (Permutation_map f (sort_nodes_perm _))).
  now rewrite score_nodes_records, map_map.
Qed.

Lemma sum_over_keys (h : string -> Z) (l : list (string * MinipoolCounts)) :
  zsum (map (fun kv => h (fst kv)) l) = zsum (map h (map fst l)).
Proof. now rewrite map_map. Qed.

(** Nothing is lost between the records and the unfiltered node list: the
    minipool totals of the nodes add up to the size of the roster; when
    every record names a roster node, the reward totals of the nodes add up
    to those of the records; and when in addition the records have distinct
    validator ids, the active minipools add up to the number of records and
    the exited ones to the rest of the roster. *)
Theorem node_list_conserves_totals (now : string) (performance_data : list Aggregate.t)
  (all_rp_validators : list Validator.t) (scan_data : option (list ScanNode))
  (fusaka_deaths : option FusakaDeaths) :
  let nodes := fst (calculate_node_performance_scores now performance_data all_rp_validators
                      None scan_data fusaka_deaths) in
  zsum (map Node.total_minipools nodes) = len all_rp_validators
  /\ ((forall r, In r performance_data ->
                 In (Aggregate.node_address r) (map Validator.node_address all_rp_validators)) ->
      zsum (map Node.total_earned_rewards nodes)
      = zsum (map Aggregate.total_earned_rewards performance_data)
      /\ zsum (map Node.total_missed_rewards nodes)
         = zsum (map Aggregate.total_missed_rewards performance_data)
      /\ zsum (map Node.total_penalties nodes)
         = zsum (map Aggregate.total_penalties performance_data)
      /\ zsum (map Node.total_possible_rewards nodes)
         = zsum (map Aggregate.total_possible_rewards performance_data)
      /\ zsum (map Node.total_lost nodes)
         = zsum (map Aggregate.total_lost performance_data)
      /\ (NoDup (map Aggregate.val_id performance_data) ->
          zsum (map Node.active_minipools nodes) = len performance_data
          /\ zsum (map Node.exited_minipools nodes)
             = len all_rp_validators - len performance_data)).
Proof.
  intros nodes. unfold nodes.
  pose proof (count_minipools_NoDup all_rp_validators) as Hd.
  assert (Htotal : zsum (map Node.total_minipools
                           (fst (calculate_node_performance_scores now performance_data
                                   all_rp_validators None scan_data fusaka_deaths)))
                   = len all_rp_validators).
  { rewrite sum_over_nodes.
    rewrite (map_ext_in _ (fun kv => zsum (map (fun _ => 1)
                                           (roster_of (fst kv) all_rp_validators)))).
    - rewrite (sum_over_keys (fun a => zsum (map (fun _ => 1) (roster_of a all_rp_validators)))).
      unfold roster_of. rewrite (sum_by_node Validator.node_address (fun _ => 1)); [|exact Hd|].
      + apply zsum_ones.
      + intros v Hv. apply count_minipools_keys. now apply in_map.
    - intros [a c] Hin. cbn [fst snd]. rewrite zsum_ones.
      unfold node_record, node_score. cbn [fst Node.total_minipools].
      now apply count_minipools_total. }
  split; [exact Htotal|]. intros Hroster.
  assert (Hkeys : forall r, In r performance_data ->
                            In (Aggregate.node_address r)
                               (map fst (count_minipools all_rp_validators))).
  { intros r Hr. apply count_minipools_keys. now apply Hroster. }
  assert (Hfield : forall (f : Node.t -> Z) (g : Aggregate.t -> Z),
             (forall a c, f (node_record performance_data scan_data fusaka_deaths a c)
                          = zsum (map g (records_of a performance_data))) ->
             zsum (map f (fst (calculate_node_performance_scores now performance_data
                                 all_rp_validators None scan_data fusaka_deaths)))
             = zsum (map g performance_data)).
  { intros f g Hf. rewrite sum_over_nodes.
    rewrite (map_ext _ (fun kv => zsum (map g (records_of (fst kv) performance_data))))
      by (intros [a c]; apply Hf).
    rewrite (sum_over_keys (fun a => zsum (map g (records_of a performance_data)))).
    unfold records_of. now apply (sum_by_node Aggregate.node_address g). }
  assert (Hnode : forall a c, node_record performance_data scan_data fusaka_deaths a c
                              = fst (node_score performance_data (group_by_node performance_data)
                                       scan_data (initial_fusaka_deaths fusaka_deaths) a c))
    by reflexivity.
  repeat split.
  - apply Hfield. intros a c. rewrite Hnode. unfold node_score.
    cbn [fst Node.total_earned_rewards]. rewrite group_by_node_spec, accumulate_earned.
    reflexivity.
  - apply Hfield. intros a c. rewrite Hnode. unfold node_score.
    cbn [fst Node.total_missed_rewards]. rewrite group_by_node_spec, accumulate_missed.
    reflexivity.
  - apply Hfield. intros a c. rewrite Hnode. unfold node_score.
    cbn [fst Node.total_penalties]. rewrite group_by_node_spec, Rollup.accumulate_penalties.
    reflexivity.
  - apply Hfield. intros a c. rewrite Hnode. unfold node_score.
    cbn [fst Node.total_possible_rewards]. rewrite group_by_node_spec, accumulate_possible.
    reflexivity.
  - apply Hfield. intros a c. rewrite Hnode. unfold node_score.
    cbn [fst Node.total_lost]. rewrite group_by_node_spec, Rollup.accumulate_lost.
    reflexivity.
  - rewrite <- zsum_ones. apply Hfield. intros a c.
    rewrite Rollup.node_record_active, zsum_ones.
    rewrite nodup_fixed_point by (now apply records_of_distinct_ids).
    unfold len. now rewrite length_map.
  - assert (Ha : zsum (map Node.active_minipools
                         (fst (calculate_node_performance_scores now performance_data
                                 all_rp_validators None scan_data fusaka_deaths)))
                 = len performance_data).
    { rewrite <- zsum_ones. apply Hfield. intros a c.
      rewrite Rollup.node_record_active, zsum_ones.
      rewrite nodup_fixed_point by (now apply records_of_distinct_ids).
    unfold len. now rewrite length_map. }
    rewrite <- Ha, <- Htotal. rewrite !sum_over_nodes.
    generalize (count_minipools all_rp_validators). intros cm.
    induction cm as [|[a c] cm IH]; [reflexivity|].
    cbn [map]. rewrite !zsum_cons, IH. cbn [fst snd].
    unfold node_record, node_score.
    cbn [fst Node.exited_minipools Node.total_minipools Node.active_minipools]. lia.
Qed.

End Report.

(* ------------------------------------------------------------------ *)
(** ** Status resolver and analysis run                                *)
(* ------------------------------------------------------------------ *)

Module Resolver.
Import rocketpool_analysis_only.
Import Analysis.

(** What holds of every entry of [validator_statuses]. *)
Definition resolved (validators : list Validator.t) (kv : string * StatusInfo) : Prop :=
  (exists v, In v validators
             /\ Validator.pubkey v = fst kv
             /\ Validator.node_address v = info_node_address (snd kv)
             /\ Validator.minipool_address v = info_minipool_address (snd kv))
  /\ (info_val_id (snd kv) = None -> info_status (snd kv) = "not_in_database"%string).

Definition statuses_ok (validators : list Validator.t) (statuses : list (string * StatusInfo))
  : Prop :=
  NoDup (map fst statuses) /\ Forall (resolved validators) statuses.

Lemma record_status_ok (validators : list Validator.t) (validator_ids : list (string * Z))
  (status_map : list (Z * string)) (statuses : list (string * StatusInfo)) (v : Validator.t) :
  In v validators ->
  statuses_ok validators statuses ->
  statuses_ok validators (record_status validator_ids status_map statuses v).
Proof.
  intros Hv [Hnd Hall]. unfold record_status.
  destruct (dict_get String.eqb (Validator.pubkey v) validator_ids) as [val_id|]; split;
    try (now apply (dict_set_keys_NoDup String.eqb string_eqb_spec));
    (apply Aggregator.dict_set_entries; [|exact Hall]);
    (split; [exists v; cbn; auto|cbn; intros H; (discriminate || reflexivity)]).
Qed.

Lemma resolve_batch_ok (index : Index) (latest_epoch : Z) (validators batch : list Validator.t)
  (statuses : list (string * StatusInfo)) :
  incl batch validators ->
  statuses_ok validators statuses ->
  statuses_ok validators (resolve_batch index latest_epoch statuses batch).
Proof.
  intros Hb H. unfold resolve_batch.
  destruct (index_query index _) as [rows|]; [|exact H].
  destruct (index_rows rows) as [|kv ids] eqn:Ei; [exact H|].
  destruct (status_query index _ latest_epoch) as [status_result|]; [|exact H].
  assert (G : forall l st, incl l validators -> statuses_ok validators st ->
                           statuses_ok validators
                             (fold_left (record_status (kv :: ids) (status_rows status_result))
                                        l st)).
  { induction l as [|v l IH]; intros st Hl Hst; cbn [fold_left]; [exact Hst|].
    apply IH; [intros x Hx; apply Hl; now right|].
    apply record_status_ok; [apply Hl; now left|exact Hst]. }
  now apply G.
Qed.

Lemma get_all_validator_statuses_ok (index : Index) (validators : list Validator.t)
  (statuses : list (string * StatusInfo)) (latest_epoch : Z) :
  get_all_validator_statuses index validators = Some (statuses, latest_epoch) ->
  statuses_ok validators statuses /\ latest_epoch_query index = Some latest_epoch.
Proof.
  unfold get_all_validator_statuses.
  destruct (latest_epoch_query index) as [e|]; [|discriminate].
  intros H. injection H as <- <-. split; [|reflexivity].
  assert (G : forall bs st, (forall b, In b bs -> incl b validators) ->
                            statuses_ok validators st ->
                            statuses_ok validators (fold_left (resolve_batch index e) bs st)).
  { induction bs as [|b bs IH]; intros st Hbs Hst; cbn [fold_left]; [exact Hst|].
    apply IH; [intros b' Hb'; apply Hbs; now right|].
    apply resolve_batch_ok; [apply Hbs; now left|exact Hst]. }
  apply G.
  - intros b Hb. apply (Aggregator.batch_incl batch_size); [unfold batch_size; lia|exact Hb].
  - split; constructor.
Qed.

(** A validator as the scan gives it: without its id. *)
Definition scanned (v : Validator.t) : string * string * string :=
  (Validator.node_address v, Validator.minipool_address v, Validator.pubkey v).

(** The status recorded for the validator is active. *)
Definition is_active (statuses : list (string * StatusInfo)) (v : Validator.t) : bool :=
  match dict_get String.eqb (Validator.pubkey v) statuses with
  | Some info => str_in (info_status info) active_statuses
  | None => false
  end.

Lemma keep_active_spec (statuses : list (string * StatusInfo)) (v : Validator.t) :
  map scanned (keep_active statuses v) = if is_active statuses v then [scanned v] else [].
Proof.
  unfold keep_active, is_active.
  destruct (dict_get String.eqb (Validator.pubkey v) statuses) as [info|]; [|reflexivity].
  now destruct (str_in (info_status info) active_statuses).
Qed.

Lemma flat_map_keep_active (statuses : list (string * StatusInfo)) (validators : list Validator.t) :
  map scanned (flat_map (keep_active statuses) validators)
  = map scanned (filter (is_active statuses) validators).
Proof.
  induction validators as [|v l IH]; [reflexivity|].
  cbn [flat_map filter]. rewrite map_app, keep_active_spec, IH.
  now destruct (is_active statuses v).
Qed.

(** The active validators are the scan's validators whose recorded status
    is ['active_ongoing'] or ['active_exiting'], in the scan's order, each
    with the id the index gave for its public key: an active validator
    always has an id.  A validator recorded as ['not_in_database'] or
    ['unknown'], or not recorded at all, is not among them. *)
Theorem active_validators_resolved (index : Index) (validators : list Validator.t)
  (statuses : list (string * StatusInfo)) (latest_epoch : Z) (active : list Validator.t) :
  get_all_validator_statuses index validators = Some (statuses, latest_epoch) ->
  get_active_validators index validators (Some statuses) = Some active ->
  map scanned active = map scanned (filter (is_active statuses) validators)
  /\ (forall v, In v active ->
                exists id info,
                  Validator.val_id v = Some id
                  /\ dict_get String.eqb (Validator.pubkey v) statuses = Some info
                  /\ info_val_id info = Some id
                  /\ (info_status info = "active_ongoing"%string
                      \/ info_status info = "active_exiting"%string)
                  /\ exists v0, In v0 validators /\ scanned v0 = scanned v)
  /\ get_active_validators index validators None = Some active
  /\ NoDup (map fst statuses)
  /\ (forall k info, In (k, info) statuses ->
                     (info_val_id info = None -> info_status info = "not_in_database"%string)
                     /\ exists v0, In v0 validators
                                   /\ Validator.pubkey v0 = k
                                   /\ Validator.node_address v0 = info_node_address info
                                   /\ Validator.minipool_address v0 = info_minipool_address info).
Proof.
  intros Hs Ha.
  destruct (get_all_validator_statuses_ok index validators statuses latest_epoch Hs)
    as [[Hnd Hall] _].
  cbn in Ha. injection Ha as <-.
  split; [apply flat_map_keep_active|]. split; [|split; [|split; [exact Hnd|]]].
  - intros v Hv. apply in_flat_map in Hv. destruct Hv as [v0 [Hv0 Hv]].
    unfold keep_active in Hv.
    destruct (dict_get String.eqb (Validator.pubkey v0) statuses) as [info|] eqn:Eg;
      [|destruct Hv].
    destruct (str_in (info_status info) active_statuses) eqn:Est; [|destruct Hv].
    destruct Hv as [<-|[]]. cbn [Validator.val_id Validator.pubkey].
    pose proof (dict_get_Some_In String.eqb string_eqb_spec _ _ _ Eg) as Hin.
    rewrite Forall_forall in Hall. destruct (Hall _ Hin) as [_ Hnone]. cbn [snd] in Hnone.
    assert (Hst : info_status info = "active_ongoing"%string
                  \/ info_status info = "active_exiting"%string).
    { unfold str_in, active_statuses in Est. cbn [existsb] in Est.
      rewrite orb_false_r in Est. apply orb_true_iff in Est.
      now rewrite !String.eqb_eq in Est. }
    destruct (info_val_id info) as [id|] eqn:Eid.
    + exists id, info. repeat split; auto. exists v0. split; [exact Hv0|reflexivity].
    + specialize (Hnone eq_refl). rewrite Hnone in Hst. destruct Hst; discriminate.
  - unfold get_active_validators. now rewrite Hs.
  - intros k info Hin. rewrite Forall_forall in Hall.
    destruct (Hall _ Hin) as [[v0 Hv0] Hnone]. cbn [fst snd] in *. split; [exact Hnone|].
    exists v0. tauto.
Qed.

(** The validators of a two-node scan, and a store that knows two of them. *)
Definition scan_validators : list Validator.t :=
  [Validator.mk "0xA" "mpA" "pkA" None; Validator.mk "0xA" "mpB" "pkB" None;
   Validator.mk "0xC" "mpC" "pkC" None].

Definition example_index : Index :=
  mkIndex (Some 1000)
          (fun _ => Some [(1, "0xpkA"%string); (2, "0xpkB"%string)])
          (fun _ _ => Some [(1, "active_ongoing"%string); (2, "exited_unslashed"%string)]).

Definition example_statuses : list (string * StatusInfo) :=
  [("pkA"%string, mkStatusInfo (Some 1) "active_ongoing" "0xA" "mpA");
   ("pkB"%string, mkStatusInfo (Some 2) "exited_unslashed" "0xA" "mpB");
   ("pkC"%string, mkStatusInfo None "not_in_database" "0xC" "mpC")].

Lemma active_validators_resolved_witness :
  map scanned [Validator.mk "0xA" "mpA" "pkA" (Some 1)]
  = map scanned (filter (is_active example_statuses) scan_validators).
Proof.
  apply (active_validators_resolved example_index scan_validators example_statuses 1000
           [Validator.mk "0xA" "mpA" "pkA" (Some 1)]); reflexivity.
Defined.

(** *** The validators of the scan *)

Lemma truthy_spec (pubkey : option string) (pk : string) :
  truthy pubkey = Some pk -> pubkey = Some pk /\ pk <> EmptyString.
Proof.
  destruct pubkey as [[|c s]|]; cbn; try discriminate.
  intros H. injection H as <-. split; [reflexivity|discriminate].
Qed.

Lemma node_validators_spec (node : ScanResult) (pubkeys : list (option string)) :
  forall i validators,
    node_validators node i pubkeys = Some validators ->
    forall v, In v validators ->
              Validator.node_address v = scan_address node
              /\ Validator.val_id v = None
              /\ In (Some (Validator.pubkey v)) pubkeys
              /\ Validator.pubkey v <> EmptyString
              /\ In (Validator.minipool_address v) (scan_minipool_addresses node).
Proof.
  induction pubkeys as [|pubkey rest IH]; intros i validators H v Hv; cbn [node_validators] in H.
  - injection H as <-. destruct Hv.
  - destruct (truthy pubkey) as [pk|] eqn:Et.
    + destruct (nth_error (scan_minipool_addresses node) i) as [addr|] eqn:En; [|discriminate].
      destruct (node_validators node (S i) rest) as [vs|] eqn:Er; [|discriminate].
      injection H as <-. apply truthy_spec in Et. destruct Et as [-> Hne].
      destruct Hv as [<-|Hv].
      * cbn. repeat split; auto. now apply nth_error_In in En.
      * destruct (IH _ _ Er v Hv) as (A & B & C & D & E). repeat split; auto. now right.
    + destruct (IH _ _ H v Hv) as (A & B & C & D & E). repeat split; auto. now right.
Qed.

Lemma extract_validators_spec (scan_results : list ScanResult) :
  forall validators,
    extract_validators scan_results = Some validators ->
    forall v, In v validators ->
              exists node, In node scan_results
                           /\ 0 < scan_minipool_count node
                           /\ Validator.node_address v = scan_address node
                           /\ Validator.val_id v = None
                           /\ In (Some (Validator.pubkey v)) (scan_minipool_pubkeys node)
                           /\ Validator.pubkey v <> EmptyString
                           /\ In (Validator.minipool_address v) (scan_minipool_addresses node).
Proof.
  induction scan_results as [|node rest IH]; intros validators H v Hv;
    cbn [extract_validators] in H.
  - injection H as <-. destruct Hv.
  - destruct (0 <? scan_minipool_count node) eqn:Ec.
    + destruct (node_validators node 0 (scan_minipool_pubkeys node)) as [vs|] eqn:En;
        [|discriminate].
      destruct (extract_validators rest) as [more|] eqn:Er; [|discriminate].
      injection H as <-. apply in_app_iff in Hv. destruct Hv as [Hv|Hv].
      * exists node. split; [now left|]. split; [now apply Z.ltb_lt|].
        exact (node_validators_spec node _ _ _ En v Hv).
      * destruct (IH _ eq_refl v Hv) as [n [Hn Hrest]]. exists n. split; [now right|exact Hrest].
    + destruct (extract_validators rest) as [more|] eqn:Er; [|discriminate].
      injection H as <-. cbn [app] in Hv.
      destruct (IH _ eq_refl v Hv) as [n [Hn Hrest]]. exists n. split; [now right|exact Hrest].
Qed.

(** *** The analysis run *)

Lemma keep_active_In (statuses : list (string * StatusInfo)) (validators : list Validator.t)
  (v : Validator.t) :
  In v (flat_map (keep_active statuses) validators) ->
  exists v0 info,
    In v0 validators
    /\ scanned v0 = scanned v
    /\ dict_get String.eqb (Validator.pubkey v) statuses = Some info
    /\ str_in (info_status info) active_statuses = true
    /\ Validator.val_id v = info_val_id info.
Proof.
  intros Hv. apply in_flat_map in Hv. destruct Hv as [v0 [Hv0 Hv]].
  unfold keep_active in Hv.
  destruct (dict_get String.eqb (Validator.pubkey v0) statuses) as [info|] eqn:Eg;
    [|destruct Hv].
  destruct (str_in (info_status info) active_statuses) eqn:Est; [|destruct Hv].
  destruct Hv as [<-|[]]. exists v0, info. cbn. auto.
Qed.

Lemma validator_balances_lookup_keys (performance_data : list Aggregate.t) (k : string) :
  In k (map fst (validator_balances_lookup performance_data)) ->
  exists r, In r performance_data /\ Aggregate.pubkey r = k.
Proof.
  unfold validator_balances_lookup.
  assert (G : forall l acc,
             In k (map fst (fold_left
                              (fun lookup record =>
                                 match Aggregate.pubkey record with
                                 | EmptyString => lookup
                                 | pubkey =>
                                     dict_set String.eqb pubkey
                                       (mkBalanceInfo (Aggregate.val_id record)
                                          (Aggregate.val_balance_eth record)
                                          (Aggregate.val_effective_balance_eth record))
                                       lookup
                                 end) l acc)) ->
             In k (map fst acc) \/ exists r, In r l /\ Aggregate.pubkey r = k).
  { induction l as [|r l IH]; intros acc H; cbn [fold_left] in H; [now left|].
    apply IH in H. destruct H as [H|[r' [Hr' E]]]; [|right; exists r'; split; [now right|exact E]].
    destruct (Aggregate.pubkey r) as [|c s] eqn:Ep; [now left|].
    apply (dict_set_keys_In String.eqb string_eqb_spec) in H.
    destruct H as [->|H]; [right; exists r; split; [now left|exact Ep]|now left]. }
  intros H. apply G in H. destruct H as [[]|H]. exact H.
Qed.

(** The report of a run that writes one.  Its node list has one record per
    node address, its length is [total_nodes], and every node in it is a
    node of the scan with a positive minipool count, has an active minipool
    and a numeric score strictly below the threshold.  The window ends at
    the latest epoch of the store and has the length of the period.  Every
    key of [validator_balances] is a public key of the scan whose recorded
    status is active. *)
Theorem run_analysis_report (index : Index) (client : Client) (now : string)
  (scan_results : list ScanResult) (fusaka_deaths : FusakaDeaths)
  (threshold epochs_to_analyze : Z) (out : Output) :
  run_analysis index client now scan_results fusaka_deaths threshold epochs_to_analyze
  = Some out ->
  report_total_nodes out = len (node_performance_scores out)
  /\ NoDup (map Node.node_address (node_performance_scores out))
  /\ (forall n, In n (node_performance_scores out) ->
                (exists q, Node.performance_score n = Num q /\ (q < inject_Z threshold)%Q)
                /\ 0 < Node.active_minipools n
                /\ exists node, In node scan_results
                                /\ scan_address node = Node.node_address n
                                /\ 0 < scan_minipool_count node)
  /\ latest_epoch_query index = Some (report_end_epoch out)
  /\ report_start_epoch out = report_end_epoch out - epochs_to_analyze + 1
  /\ epochs_analyzed out = epochs_to_analyze
  /\ (forall k, In k (map fst (validator_balances out)) ->
                (exists node, In node scan_results
                              /\ In (Some k) (scan_minipool_pubkeys node))
                /\ exists info,
                     dict_get String.eqb k (report_validator_statuses out) = Some info
                     /\ str_in (info_status info) active_statuses = true).
Proof.
  intros H. unfold run_analysis in H.
  destruct scan_results as [|s0 rest] eqn:Escan; [discriminate|]. rewrite <- Escan in *.
  clear Escan s0 rest.
  destruct (extract_validators scan_results) as [validators|] eqn:Ex; [|discriminate].
  destruct (latest_epoch_query index) as [latest|] eqn:El; [|discriminate].
  destruct (get_all_validator_statuses index validators) as [[statuses e]|] eqn:Es;
    [|discriminate].
  unfold get_active_validators, query_attestation_performance in H. cbv beta iota zeta in H.
  set (active := flat_map (keep_active statuses) validators) in *.
  set (performance_data := map snd (fst (run_batches client active latest epochs_to_analyze)))
    in *.
  destruct (calculate_node_performance_scores now performance_data validators
              (Some (Cutoff (inject_Z threshold))) (Some (map as_scan_node scan_results))
              (Some fusaka_deaths)) as [nodes fd] eqn:Ec.
  injection H as <-.
  cbn [report_total_nodes node_performance_scores report_end_epoch report_start_epoch
       epochs_analyzed validator_balances report_validator_statuses].
  assert (En : nodes = fst (calculate_node_performance_scores now performance_data validators
                              (Some (Cutoff (inject_Z threshold)))
                              (Some (map as_scan_node scan_results)) (Some fusaka_deaths)))
    by (now rewrite Ec).
  split; [reflexivity|]. split; [|split; [|split; [reflexivity|split; [|split]]]].
  - rewrite En, calculate_fst.
    destruct (Rollup.apply_threshold_filter (Some (Cutoff (inject_Z threshold)))
                (sort_nodes (fst (score_nodes performance_data validators
                                    (Some (map as_scan_node scan_results))
                                    (initial_fusaka_deaths (Some fusaka_deaths))))))
      as [p ->].
    apply Rollup.kept_addresses_distinct.
    apply (Permutation_NoDup (Permutation_sym (Rollup.unfiltered_addresses _ _ _ _))).
    apply count_minipools_NoDup.
  - intros n Hn. rewrite En in Hn. pose proof Hn as Hf.
    rewrite calculate_fst in Hf. cbn [apply_threshold] in Hf. apply filter_In in Hf.
    destruct Hf as [_ Hf]. apply calculate_nodes in Hn. destruct Hn as [a [c [Hin ->]]].
    destruct (Node.performance_score (node_record performance_data
                                        (Some (map as_scan_node scan_results))
                                        (Some fusaka_deaths) a c)) as [|q] eqn:Eq;
      [discriminate|].
    split; [exists q; split; [reflexivity|now apply qlt_iff]|]. split.
    + rewrite node_record_score in Eq.
      destruct (0 <? Node.active_minipools _) eqn:Ea; [now apply Z.ltb_lt|discriminate].
    + assert (Ha : In a (map Validator.node_address validators)).
      { apply count_minipools_keys. apply in_map_iff. exists (a, c). auto. }
      apply in_map_iff in Ha. destruct Ha as [v [Ev Hv]].
      destruct (extract_validators_spec scan_results validators Ex v Hv)
        as (node & Hnode & Hc & Ha & _).
      exists node. repeat split; auto. cbn. congruence.
  - unfold window_start. lia.
  - reflexivity.
  - intros k Hk. apply validator_balances_lookup_keys in Hk. destruct Hk as [r [Hr <-]].
    apply (Aggregator.record_entry client active latest epochs_to_analyze) in Hr.
    destruct Hr as (_ & (v & Hv & _ & _ & _ & Hp) & _). cbn [snd] in Hp. rewrite Hp.
    apply keep_active_In in Hv. destruct Hv as (v0 & info & Hv0 & Hsc & Hg & Hst & _).
    split; [|exists info; auto].
    destruct (extract_validators_spec scan_results validators Ex v0 Hv0)
      as (node & Hnode & _ & _ & _ & Hpk & _).
    exists node. split; [exact Hnode|].
    assert (E : Validator.pubkey v0 = Validator.pubkey v) by (now inversion Hsc).
    now rewrite <- E.
Qed.

(** A scan of two nodes: validator [pkA] is active and scores 90, below a
    threshold of 95; [pkB] has exited and [pkC] is not in the index. *)
Definition example_scan : list ScanResult :=
  [mkScanResult 0 "0xA" 2 ["mpA"; "mpB"]%string [Some "pkA"; Some "pkB"]%string None;
   mkScanResult 1 "0xC" 1 ["mpC"]%string [Some "pkC"%string] None].

Lemma run_analysis_report_witness :
  exists out,
    run_analysis example_index example_client "now" example_scan example_fusaka 95 225
    = Some out
    /\ map Node.node_address (node_performance_scores out) = ["0xA"%string]
    /\ latest_epoch_query example_index = Some (report_end_epoch out).
Proof.
  eexists. split; [reflexivity|]. split; [reflexivity|].
  apply (run_analysis_report example_index example_client "now" example_scan example_fusaka
           95 225).
  reflexivity.
Defined.

End Resolver.

(* ------------------------------------------------------------------ *)
(** ** Missing days and backfill                                       *)
(* ------------------------------------------------------------------ *)

Module Backfill.
Import collect_daily_stats.

Lemma days_from_lower (keep : Z -> bool) (up_to_date : Z) (fuel : nat) :
  forall current d, In d (days_from fuel current up_to_date keep) ->
                    current <= d <= up_to_date /\ keep d = true.
Proof.
  induction fuel as [|fuel IH]; intros current d H; cbn [days_from] in H; [destruct H|].
  destruct (current <=? up_to_date) eqn:E; [|destruct H]. apply Z.leb_le in E.
  apply in_app_iff in H. destruct H as [H|H].
  - destruct (keep current) eqn:Ek; [|destruct H]. destruct H as [<-|[]]. split; [lia|exact Ek].
  - apply IH in H. split; [lia|tauto].
Qed.

Lemma days_from_In (keep : Z -> bool) (up_to_date : Z) (fuel : nat) :
  forall current d,
    up_to_date - current + 1 <= Z.of_nat fuel ->
    current <= d <= up_to_date -> keep d = true ->
    In d (days_from fuel current up_to_date keep).
Proof.
  induction fuel as [|fuel IH]; intros current d Hf Hd Hk; [lia|].
  cbn [days_from]. replace (current <=? up_to_date) with true by (symmetry; apply Z.leb_le; lia).
  apply in_app_iff. destruct (Z.eq_dec d current) as [->|Hne].
  - left. rewrite Hk. now left.
  - right. apply IH; [lia|lia|exact Hk].
Qed.

Lemma days_from_ascending (keep : Z -> bool) (up_to_date : Z) (fuel : nat) :
  forall current, StronglySorted Z.lt (days_from fuel current up_to_date keep).
Proof.
  induction fuel as [|fuel IH]; intros current; cbn [days_from]; [constructor|].
  destruct (current <=? up_to_date); [|constructor].
  destruct (keep current); cbn [app]; [|apply IH].
  constructor; [apply IH|]. apply Forall_forall. intros d Hd.
  apply days_from_lower in Hd. lia.
Qed.

Lemma days_from_length (up_to_date : Z) (fuel : nat) :
  forall current,
    up_to_date - current + 1 <= Z.of_nat fuel ->
    current <= up_to_date + 1 ->
    len (days_from fuel current up_to_date (fun _ => true)) = up_to_date - current + 1.
Proof.
  induction fuel as [|fuel IH]; intros current Hf Hc.
  - cbn. lia.
  - cbn [days_from]. destruct (current <=? up_to_date) eqn:E.
    + apply Z.leb_le in E. cbn [app]. rewrite len_cons, IH; lia.
    + apply Z.leb_gt in E. cbn. lia.
Qed.

Lemma sorted_days_unchanged (l : list Z) : StronglySorted Z.lt l -> stable_sort Z.leb l = l.
Proof.
  induction 1 as [|d l Hs IH Hd]; [reflexivity|]. cbn [stable_sort]. rewrite IH.
  apply (insert_by_head Z.leb).
  eapply Forall_impl; [|exact Hd]. intros x Hx. apply Z.leb_le. lia.
Qed.

Lemma fold_max_spec (l : list Z) :
  forall m, In (fold_left Z.max l m) (m :: l)
            /\ forall x, In x (m :: l) -> x <= fold_left Z.max l m.
Proof.
  induction l as [|y l IH]; intros m; cbn [fold_left].
  - split; [now left|]. intros x [<-|[]]. lia.
  - destruct (IH (Z.max m y)) as [Hin Hmax]. split.
    + destruct Hin as [E|Hin]; [|right; now right].
      rewrite <- E. destruct (Z.max_spec m y) as [[_ ->]|[_ ->]]; [right|]; now left.
    + intros x [<-|[<-|Hx]].
      * specialize (Hmax _ (or_introl eq_refl)). lia.
      * specialize (Hmax _ (or_introl eq_refl)). lia.
      * apply Hmax. now right.
Qed.

(** What [get_missing_dates] returns.  The days are in ascending order
    without repetition.  For an empty history they are the 120 days ending
    with [up_to_date].  Otherwise they are all the days after the most
    recent snapshot date up to [up_to_date]: a day before the most recent
    snapshot is never reported, whether the history has it or not, and none
    at all when [up_to_date] is not after the most recent snapshot. *)
Theorem get_missing_dates_spec (parse_date : string -> Z) (stats_history : StatsHistory)
  (up_to_date : Z) :
  let missing := get_missing_dates parse_date stats_history up_to_date in
  let existing := map (fun s => parse_date (date s)) (snapshots stats_history) in
  StronglySorted Z.lt missing
  /\ (existing = [] ->
      len missing = 120 /\ forall d, In d missing <-> up_to_date - 119 <= d <= up_to_date)
  /\ (existing <> [] ->
      exists most_recent,
        In most_recent existing
        /\ (forall d, In d existing -> d <= most_recent)
        /\ (forall d, In d missing <-> most_recent < d <= up_to_date)
        /\ (up_to_date <= most_recent -> missing = [])).
Proof.
  intros missing existing. unfold missing, existing, get_missing_dates.
  destruct (snapshots stats_history) as [|s rest].
  - cbv zeta. split; [apply days_from_ascending|]. split; [|intros H; now contradiction H].
    intros _. split.
    + rewrite days_from_length; lia.
    + intros d. split.
      * intros H. apply days_from_lower in H. lia.
      * intros H. apply days_from_In; [lia|lia|reflexivity].
  - cbv zeta. cbn [map].
    set (first := parse_date (date s)).
    set (others := map (fun s0 => parse_date (date s0)) rest).
    destruct (fold_max_spec others first) as [Hin Hmax].
    set (most_recent := fold_left Z.max others first) in *.
    set (keep := fun current => negb (existsb (Z.eqb current) (first :: others))).
    assert (Hkeep : forall d, most_recent < d -> keep d = true).
    { intros d Hd. unfold keep. apply negb_true_iff. apply not_true_is_false. intros H.
      apply (existsb_eqb_In Z.eqb Z_eqb_spec) in H. apply Hmax in H. lia. }
    rewrite sorted_days_unchanged by apply days_from_ascending.
    split; [apply days_from_ascending|]. split; [intros H; discriminate H|]. intros _.
    exists most_recent. split; [exact Hin|]. split; [exact Hmax|]. split.
    + intros d. split.
      * intros H. apply days_from_lower in H. lia.
      * intros H. apply days_from_In; [lia|lia|apply Hkeep; lia].
    + intros Hle.
      destruct (days_from (Z.to_nat (up_to_date - (most_recent + 1) + 1)) (most_recent + 1)
                          up_to_date keep) as [|d l] eqn:E; [reflexivity|].
      assert (Hd : In d (d :: l)) by now left.
      rewrite <- E in Hd. apply days_from_lower in Hd. lia.
Qed.

(** *** One collected day *)

Lemma append_snapshot_dates (now : string) (h : StatsHistory) (s : Snapshot) :
  (forall x, In x (snapshots (append_snapshot now h s)) -> x = s \/ In x (snapshots h))
  /\ In s (snapshots (append_snapshot now h s))
  /\ (forall d, In d (map date (snapshots h)) ->
                In d (map date (snapshots (append_snapshot now h s))))
  /\ (NoDup (map date (snapshots h)) ->
      NoDup (map date (snapshots (append_snapshot now h s)))).
Proof.
  assert (P : Permutation (snapshots (append_snapshot now h s))
                (filter (fun x => negb (String.eqb (date x) (date s))) (snapshots h) ++ [s]))
    by apply stable_sort_perm.
  split; [|split; [|split]].
  - intros x Hx. apply (Permutation_in _ P) in Hx. apply in_app_iff in Hx.
    destruct Hx as [Hx|[<-|[]]]; [right|now left]. apply filter_In in Hx. tauto.
  - apply (Permutation_in _ (Permutation_sym P)). apply in_app_iff. right. now left.
  - intros d Hd. apply (Permutation_in _ (Permutation_sym (Permutation_map date P))).
    rewrite map_app, in_app_iff. cbn [map In].
    destruct (String.eqb_spec d (date s)) as [E|Ne]; [right; left; now symmetry|]. left.
    apply in_map_iff in Hd. destruct Hd as [y [Ey Hy]]. apply in_map_iff. exists y.
    split; [exact Ey|]. apply filter_In. split; [exact Hy|].
    apply negb_true_iff. apply String.eqb_neq. congruence.
  - intros Hd. destruct (Snapshots.kept_dates_distinct (date s) (snapshots h) Hd)
      as (N & Hn & _).
    apply (Permutation_NoDup (Permutation_sym (Permutation_map date P))).
    rewrite map_app. cbn [map]. apply NoDup_app; [exact N|repeat constructor; intros []|].
    intros x Hx [<-|[]]. exact (Hn Hx).
Qed.

Section Run.

Context {Entry : Type}.
Variable utcoffset : Z.
Variable clock : Clock.
Variable fusaka_file : list Entry.
Variable store : Store.
Variable date_of_ordinal : Z -> calendar_date.
Variable validators : list ScanValidator.
Variable val_id_map : list (string * Z).

(** The snapshot collected for the day with ordinal [d]. *)
Definition collected (d : Z) (s : Snapshot) : Prop :=
  collect_snapshot_for_date utcoffset clock fusaka_file store (date_of_ordinal d)
    validators val_id_map = Done (Some s).

Lemma collected_spec (d : Z) (s : Snapshot) :
  collected d s ->
  exists latest_epoch,
    latest_epoch_query store = Some latest_epoch
    /\ date_to_end_epoch utcoffset (date_of_ordinal d) <= latest_epoch
    /\ date s = isoformat (date_of_ordinal d)
    /\ end_epoch (metrics s) = date_to_end_epoch utcoffset (date_of_ordinal d)
    /\ start_epoch (metrics s) = end_epoch (metrics s) - 1574.
Proof.
  unfold collected, collect_snapshot_for_date. cbv zeta.
  destruct (latest_epoch_query store) as [latest|]; [|discriminate].
  destruct (latest <? _) eqn:E; [discriminate|]. apply Z.ltb_ge in E.
  destruct (performance_rows_query store _ _) as [rows|]; [|discriminate].
  intros H. injection H as <-. exists latest. split; [reflexivity|]. split; [exact E|].
  cbn [make_snapshot date metrics].
  match goal with
  | |- context [calculate_snapshot_metrics ?f ?p ?a ?v ?e] =>
      destruct (Snapshots.metrics_window f p a v e) as (Hs & He & _)
  end.
  rewrite Hs, He. unfold ANALYSIS_PERIOD_EPOCHS. repeat split. lia.
Qed.

Lemma backfill_day_spec (h h' : StatsHistory) (n n' d : Z) :
  backfill_day utcoffset clock fusaka_file store date_of_ordinal validators val_id_map
    (Done (h, n)) d = Done (h', n') ->
  (h' = h /\ n' = n
   /\ collect_snapshot_for_date utcoffset clock fusaka_file store (date_of_ordinal d)
        validators val_id_map = Done None)
  \/ exists s, collected d s
               /\ h' = append_snapshot (updated_at clock (date_of_ordinal d)) h s
               /\ n' = n + 1.
Proof.
  unfold backfill_day, collected. cbv zeta.
  destruct (collect_snapshot_for_date _ _ _ _ _ _ _) as [|[s|]]; [discriminate| |].
  - intros H. injection H as <- <-. right. exists s. auto.
  - intros H. injection H as <- <-. left. auto.
Qed.

Lemma backfill_exit (days : list Z) :
  fold_left (backfill_day utcoffset clock fusaka_file store date_of_ordinal validators
               val_id_map) days Exit = Exit.
Proof. induction days as [|d l IH]; [reflexivity|exact IH]. Qed.

Lemma backfill_fold (days : list Z) :
  forall h n h' n',
    fold_left (backfill_day utcoffset clock fusaka_file store date_of_ordinal validators
                 val_id_map) days (Done (h, n)) = Done (h', n') ->
    n <= n'
    /\ (n' = n -> h' = h)
    /\ (n < n' -> DailyStats.date_sorted (snapshots h')
                  /\ total_snapshots (metadata h') = len (snapshots h'))
    /\ (forall s, In s (snapshots h') ->
                  In s (snapshots h) \/ exists d, In d days /\ collected d s)
    /\ (forall d s, In d days -> collected d s -> In (date s) (map date (snapshots h')))
    /\ (forall x, In x (map date (snapshots h)) -> In x (map date (snapshots h')))
    /\ (NoDup (map date (snapshots h)) -> NoDup (map date (snapshots h'))).
Proof.
  induction days as [|d l IH]; intros h n h' n' H; cbn [fold_left] in H.
  - injection H as <- <-. repeat split; auto; try lia. intros d s [].
  - destruct (backfill_day utcoffset clock fusaka_file store date_of_ordinal validators
                val_id_map (Done (h, n)) d) as [|[h1 n1]] eqn:Ed;
      [rewrite backfill_exit in H; discriminate|].
    destruct (IH _ _ _ _ H) as (Hn & Hsame & Hsorted & Hfrom & Hdates & Hmono & Hnd).
    apply backfill_day_spec in Ed.
    destruct Ed as [(-> & -> & Hskip)|(s & Hs & -> & ->)].
    + split; [exact Hn|]. split; [exact Hsame|]. split; [exact Hsorted|]. split; [|split].
      * intros x Hx. destruct (Hfrom x Hx) as [Hh|[d' [Hd' Hc]]]; [now left|].
        right. exists d'. split; [now right|exact Hc].
      * intros d' s' [<-|Hd'] Hc; [|now apply (Hdates d' s')].
        unfold collected in Hc. rewrite Hskip in Hc. discriminate.
      * split; [exact Hmono|exact Hnd].
    + destruct (append_snapshot_dates (updated_at clock (date_of_ordinal d)) h s)
        as (Ain & As & Amono & And).
      split; [lia|]. split; [intros E; lia|]. split; [|split; [|split; [|split]]].
      * intros _. destruct (Z.eq_dec n' (n + 1)) as [E|Ne].
        -- rewrite (Hsame E). split; [|reflexivity].
           apply (stable_sort_sorted date_le DailyStats.date_le_total DailyStats.date_le_trans).
        -- apply Hsorted. lia.
      * intros x Hx. destruct (Hfrom x Hx) as [Hh|[d' [Hd' Hc]]].
        -- destruct (Ain x Hh) as [->|Hh']; [right; exists d; split; [now left|exact Hs]
                                           |now left].
        -- right. exists d'. split; [now right|exact Hc].
      * intros d' s' [<-|Hd'] Hc; [|now apply (Hdates d' s')].
        unfold collected in Hs, Hc. rewrite Hs in Hc. injection Hc as <-.
        apply Hmono. now apply in_map.
      * intros x Hx. apply Hmono. now apply Amono.
      * intros Hd. apply Hnd. now apply And.
Qed.

(** A backfill that does not end the process.  If no day was collected the
    history is returned as it was and not saved.  Otherwise it is saved,
    sorted by date, and its snapshot count is its length.  Every snapshot of
    the result is one of the given history or the snapshot collected for a
    missing day; such a snapshot carries the day's ISO date and a window of
    1575 epochs that ends at the day's end epoch, which the store has.  The
    date of every missing day that could be collected is in the result, and
    no date is lost or doubled. *)
Theorem backfill_missing_days_spec (parse_date : string -> Z) (stats_history : StatsHistory)
  (up_to_date : Z) (result : StatsHistory) (saved : bool) :
  backfill_missing_days utcoffset clock fusaka_file store parse_date date_of_ordinal
    stats_history validators val_id_map up_to_date = Done (result, saved) ->
  let missing := get_missing_dates parse_date stats_history up_to_date in
  (saved = false -> result = stats_history)
  /\ (saved = true -> DailyStats.date_sorted (snapshots result)
                      /\ total_snapshots (metadata result) = len (snapshots result))
  /\ (forall s, In s (snapshots result) ->
                In s (snapshots stats_history)
                \/ exists d latest_epoch,
                     In d missing
                     /\ latest_epoch_query store = Some latest_epoch
                     /\ date_to_end_epoch utcoffset (date_of_ordinal d) <= latest_epoch
                     /\ date s = isoformat (date_of_ordinal d)
                     /\ end_epoch (metrics s) = date_to_end_epoch utcoffset (date_of_ordinal d)
                     /\ start_epoch (metrics s) = end_epoch (metrics s) - 1574)
  /\ (forall d s, In d missing -> collected d s ->
                  In (isoformat (date_of_ordinal d)) (map date (snapshots result)))
  /\ (forall x, In x (map date (snapshots stats_history)) -> In x (map date (snapshots result)))
  /\ (NoDup (map date (snapshots stats_history)) -> NoDup (map date (snapshots result))).
Proof.
  intros H missing. unfold backfill_missing_days in H. fold missing in H.
  destruct missing as [|d0 l] eqn:Em.
  - injection H as <- <-. repeat split; auto; try discriminate. intros d s [].
  - destruct (fold_left _ (d0 :: l) _) as [|[h' n']] eqn:Ef; [discriminate|].
    injection H as <- <-.
    destruct (backfill_fold _ _ _ _ _ Ef) as (Hn & Hsame & Hsorted & Hfrom & Hdates & Hmono & Hnd).
    split; [|split; [|split; [|split; [|split]]]].
    + intros E. apply Z.ltb_ge in E. apply Hsame. lia.
    + intros E. apply Z.ltb_lt in E. now apply Hsorted.
    + intros s Hs. destruct (Hfrom s Hs) as [Hh|[d [Hd Hc]]]; [now left|].
      right. destruct (collected_spec d s Hc) as (latest & Hl & Hle & Hdate & He & Hst).
      exists d, latest. auto 10.
    + intros d s Hd Hc. destruct (collected_spec d s Hc) as (_ & _ & _ & <- & _).
      now apply (Hdates d s).
    + exact Hmono.
    + exact Hnd.
Qed.

End Run.

(** A history that ends on 2024-03-14, backfilled up to 2024-03-16 from a
    store whose latest epoch lies inside 2024-03-16: the 15th is collected
    and the 16th is not available yet. *)
Definition march_14 : Z := toordinal (mkdate 2024 3 14).

Definition march (n : Z) : calendar_date := mkdate 2024 3 (14 + (n - march_14)).

Definition example_clock : Clock :=
  mkClock (fun _ => "t1"%string) (fun _ => "note"%string) (fun _ => "t2"%string).

Definition example_store : Store :=
  mkStore (Some 270200) (fun _ => Some []) (fun _ _ => Some []) (fun _ => Some []).

Definition one_day : StatsHistory :=
  mkStatsHistory (mkMetadata "t0" "t0" 1 "history") [DailyStats.snap "2024-03-14" 1].

Lemma backfill_missing_days_spec_witness :
  exists result,
    backfill_missing_days 0 example_clock (@nil Z) example_store (fun _ => march_14) march
      one_day [] [] (march_14 + 2) = Done (result, true)
    /\ map date (snapshots result) = ["2024-03-14"; "2024-03-15"]%string
    /\ DailyStats.date_sorted (snapshots result).
Proof.
  eexists. split; [vm_compute; reflexivity|]. split; [reflexivity|].
  apply (backfill_missing_days_spec 0 example_clock (@nil Z) example_store march [] []
           (fun _ => march_14) one_day (march_14 + 2) _ true);
    reflexivity.
Defined.

End Backfill.

(* ------------------------------------------------------------------ *)
(** ** From the scan to the snapshot                                   *)
(* ------------------------------------------------------------------ *)

Module Collector.
Import collect_daily_stats.

(** The address of a scan node, if it has one. *)
Definition address_of (node : ScannedNode) : list string :=
  match scanned_node_address node with
  | Some a => [a]
  | None => []
  end.

Lemma enumerate_In {A : Type} (l : list A) (i : nat) (x : A) :
  In (i, x) (enumerate l) -> In x l.
Proof. unfold enumerate. apply in_combine_r. Qed.

Lemma get_validator_list_from_scan_In (scan_data : list ScannedNode) (v : ScanValidator) :
  In v (get_validator_list_from_scan scan_data) ->
  exists node, In node scan_data
               /\ sv_node_address v = scanned_node_address node
               /\ In (sv_pubkey v) (scanned_minipool_pubkeys node).
Proof.
  unfold get_validator_list_from_scan. intros H. apply in_flat_map in H.
  destruct H as [node [Hn H]]. cbv zeta in H. apply in_map_iff in H.
  destruct H as [[i pk] [<- Hip]]. exists node. cbn. split; [exact Hn|]. split; [reflexivity|].
  now apply enumerate_In in Hip.
Qed.

Lemma get_validator_list_from_scan_length (scan_data : list ScannedNode) :
  len (get_validator_list_from_scan scan_data)
  = zsum (map (fun node => len (scanned_minipool_pubkeys node)) scan_data).
Proof.
  unfold get_validator_list_from_scan.
  induction scan_data as [|node l IH]; [reflexivity|].
  cbn [flat_map map]. rewrite Report.zsum_cons, <- IH. unfold len.
  rewrite length_app, length_map. unfold enumerate.
  rewrite length_combine, length_seq. lia.
Qed.

(** What holds of every entry of [assignments]. *)
Definition assigned_from (validators : list ScanValidator) (kv : Z * string) : Prop :=
  snd kv = EmptyString
  \/ exists v, In v validators /\ sv_node_address v = Some (snd kv).

Lemma get_node_assignments_from (validators : list ScanValidator)
  (val_id_map : list (string * Z)) :
  Forall (assigned_from validators) (get_node_assignments validators val_id_map).
Proof.
  unfold get_node_assignments.
  assert (G : forall l acc,
             incl l validators ->
             Forall (assigned_from validators) acc ->
             Forall (assigned_from validators)
                    (fold_left
                       (fun assignments v =>
                          match sv_pubkey v with
                          | Some pubkey =>
                              match dict_get String.eqb pubkey val_id_map with
                              | Some val_id =>
                                  dict_set Z.eqb val_id
                                    (match sv_node_address v with
                                     | Some node_address => node_address
                                     | None => EmptyString
                                     end) assignments
                              | None => assignments
                              end
                          | None => assignments
                          end) l acc)).
  { induction l as [|v l IH]; intros acc Hl Hacc; cbn [fold_left]; [exact Hacc|].
    apply IH; [intros x Hx; apply Hl; now right|].
    destruct (sv_pubkey v) as [pk|]; [|exact Hacc].
    destruct (dict_get String.eqb pk val_id_map) as [id|]; [|exact Hacc].
    apply Aggregator.dict_set_entries; [|exact Hacc].
    unfold assigned_from. cbn [snd].
    destruct (sv_node_address v) as [a|] eqn:Ea; [right|now left].
    exists v. split; [apply Hl; now left|exact Ea]. }
  apply G; [apply incl_refl|constructor].
Qed.

Lemma get_validator_statuses_keys (store : Store) (validator_ids : list (string * Z))
  (end_epoch : Z) :
  NoDup (map fst (get_validator_statuses store validator_ids end_epoch))
  /\ incl (map fst (get_validator_statuses store validator_ids end_epoch))
          (map snd validator_ids).
Proof.
  unfold get_validator_statuses. cbv zeta.
  destruct (status_rows_query store end_epoch) as [rows|];
    [|split; [constructor|intros x []]].
  assert (G : forall l acc,
             NoDup (map fst acc) /\ incl (map fst acc) (map snd validator_ids) ->
             let r := fold_left
                        (fun statuses (row : Z * string) =>
                           if existsb (Z.eqb (fst row)) (map snd validator_ids)
                           then dict_set Z.eqb (fst row) (snd row) statuses
                           else statuses) l acc in
             NoDup (map fst r) /\ incl (map fst r) (map snd validator_ids)).
  { induction l as [|row l IH]; intros acc H; cbn [fold_left]; [exact H|].
    apply IH. destruct (existsb (Z.eqb (fst row)) (map snd validator_ids)) eqn:E; [|exact H].
    destruct H as [Hnd Hincl]. split.
    - now apply (dict_set_keys_NoDup Z.eqb Z_eqb_spec).
    - intros k Hk. apply (dict_set_keys_In Z.eqb Z_eqb_spec) in Hk.
      destruct Hk as [->|Hk]; [|now apply Hincl].
      now apply (existsb_eqb_In Z.eqb Z_eqb_spec) in E. }
  apply G. split; [constructor|intros x []].
Qed.

Lemma metrics_statuses {Entry : Type} (fusaka_file : list Entry)
  (performance_data : list PerfEntry) (node_assignments validator_statuses : list (Z * string))
  (e : Z) :
  let m := calculate_snapshot_metrics fusaka_file performance_data node_assignments
             validator_statuses e in
  active_minipools m = count (fun kv => str_in (snd kv) active_statuses) validator_statuses
  /\ exited_minipools m
     = count (fun kv => negb (str_in (snd kv) active_statuses)
                        && str_in (snd kv) exited_statuses) validator_statuses
  /\ total_minipools m = active_minipools m + exited_minipools m
  /\ fusaka_deaths m = len fusaka_file.
Proof.
  cbv zeta. unfold calculate_snapshot_metrics.
  destruct (fold_left _ performance_data _) as [np [[a b] c]]. repeat split.
Qed.

Lemma disjoint_counts {A : Type} (p q : A -> bool) (l : list A) :
  count p l + count (fun x => negb (p x) && q x) l <= len l.
Proof.
  induction l as [|x l IH]; [reflexivity|].
  rewrite !Snapshots.count_cons, len_cons. destruct (p x), (q x); cbn; lia.
Qed.

(** A collected snapshot stays within the scan it was collected for: it
    counts at most as many nodes as the scan has distinct node addresses,
    every minipool it counts as active or exited is one of the resolved
    validator ids, the total is the sum of the two, and the Fusaka count is
    the length of the tracking file. *)
Theorem snapshot_counts_within_scan {Entry : Type} (utcoffset : Z) (clock : Clock)
  (fusaka_file : list Entry) (store : Store) (target_date : calendar_date)
  (scan_data : list ScannedNode) (val_id_map : list (string * Z)) (s : Snapshot) :
  collect_snapshot_for_date utcoffset clock fusaka_file store target_date
    (get_validator_list_from_scan scan_data) val_id_map = Done (Some s) ->
  0 <= total_nodes (metrics s)
    <= len (nodup string_dec (flat_map address_of scan_data))
  /\ total_minipools (metrics s) = active_minipools (metrics s) + exited_minipools (metrics s)
  /\ 0 <= active_minipools (metrics s)
  /\ 0 <= exited_minipools (metrics s)
  /\ total_minipools (metrics s) <= len val_id_map
  /\ fusaka_deaths (metrics s) = len fusaka_file
  /\ len (get_validator_list_from_scan scan_data)
     = zsum (map (fun node => len (scanned_minipool_pubkeys node)) scan_data).
Proof.
  unfold collect_snapshot_for_date. cbv zeta.
  destruct (latest_epoch_query store) as [latest|]; [|discriminate].
  destruct (latest <? _); [discriminate|].
  destruct (performance_rows_query store _ _) as [rows|]; [|discriminate].
  intros H. injection H as <-. cbn [make_snapshot metrics].
  set (e := date_to_end_epoch utcoffset target_date).
  set (validators := get_validator_list_from_scan scan_data).
  set (performance_data := query_7day_performance (map snd val_id_map) rows).
  set (assignments := get_node_assignments validators val_id_map).
  set (statuses := get_validator_statuses store val_id_map e).
  destruct (metrics_statuses fusaka_file performance_data assignments statuses e)
    as (Ha & He & Ht & Hf).
  destruct (Snapshots.metrics_nodes fusaka_file performance_data assignments statuses e)
    as (_ & _ & Hn & _).
  rewrite Hn, Ht, Hf, Ha, He.
  split; [split; [apply len_nonneg|]|].
  - destruct (Snapshots.accumulate_perf_keys assignments statuses performance_data
                ([], (0, 0, 0)) (NoDup_nil _)) as [N K].
    unfold len. apply Nat2Z.inj_le. rewrite <- (length_map fst).
    apply NoDup_incl_length; [exact N|]. intros a Hin. apply K in Hin.
    destruct Hin as [[]|Hin]. apply nodup_In. apply in_flat_map in Hin.
    destruct Hin as [perf [_ Hin]]. unfold Snapshots.scoring_node, assigned_node in Hin.
    destruct (dict_get Z.eqb (val_id perf) assignments) as [a0|] eqn:Eg; [|destruct Hin].
    destruct (String.eqb_spec a0 EmptyString) as [E0|Hne]; [destruct Hin|].
    destruct (status_active _); [|destruct Hin]. destruct Hin as [<-|[]].
    apply (dict_get_Some_In Z.eqb Z_eqb_spec) in Eg.
    pose proof (get_node_assignments_from validators val_id_map) as F.
    rewrite Forall_forall in F. destruct (F _ Eg) as [E|[v [Hv Hav]]]; [contradiction|].
    cbn [snd] in Hav. apply get_validator_list_from_scan_In in Hv.
    destruct Hv as [node [Hnode [Hadr _]]]. apply in_flat_map. exists node.
    split; [exact Hnode|]. unfold address_of. rewrite <- Hadr, Hav. now left.
  - split; [reflexivity|]. split; [apply Snapshots.count_nonneg|].
    split; [apply Snapshots.count_nonneg|]. split; [|split; [reflexivity|]].
    + eapply Z.le_trans; [apply disjoint_counts|].
      destruct (get_validator_statuses_keys store val_id_map e) as [Hnd Hincl].
      pose proof (NoDup_incl_length Hnd Hincl) as L. rewrite !length_map in L.
      unfold len. fold statuses in L. lia.
    + apply get_validator_list_from_scan_length.
Qed.

Definition example_scan_data : list ScannedNode :=
  [mkScannedNode (Some "0xA"%string) ["mpA"; "mpB"]%string [Some "pkA"; Some "pkB"]%string].

Definition day_store : Store :=
  mkStore (Some 270200) (fun _ => Some [])
          (fun _ _ => Some [mkPerfRow 1 (Some 900) (Some 100) (Some 0) (Some 1500) (Some 1575)
                                      (Some 270100) (Some 32000000000)])
          (fun _ => Some [(1, "active_ongoing"%string); (2, "exited_unslashed"%string)]).

Lemma snapshot_counts_within_scan_witness :
  exists s,
    collect_snapshot_for_date 0 Backfill.example_clock (@nil Z) day_store (mkdate 2024 3 15)
      (get_validator_list_from_scan example_scan_data)
      [("pkA"%string, 1); ("pkB"%string, 2)] = Done (Some s)
    /\ total_nodes (metrics s) = 1
    /\ total_minipools (metrics s) = active_minipools (metrics s) + exited_minipools (metrics s).
Proof.
  eexists. split; [vm_compute; reflexivity|]. split; [reflexivity|].
  apply (snapshot_counts_within_scan 0 Backfill.example_clock (@nil Z) day_store
           (mkdate 2024 3 15) example_scan_data [("pkA"%string, 1); ("pkB"%string, 2)]).
  reflexivity.
Defined.

(** *** Validator ids *)

Lemma substring_all (s : string) : substring 0 (String.length s) s = s.
Proof. induction s as [|c s IH]; [reflexivity|]. cbn. now rewrite IH. Qed.

Lemma clean_pubkey_prefixed (pk : string) : clean_pubkey ("0x" ++ pk) = pk.
Proof.
  unfold clean_pubkey.
  assert (P : String.prefix "0x" ("0x" ++ pk) = true).
  { apply String.prefix_correct. cbn. now destruct pk. }
  rewrite P. cbn. rewrite Nat.sub_0_r. apply substring_all.
Qed.

(** An entry of the id map comes from a row of an answered batch. *)
Definition from_rows (store : Store) (validators : list ScanValidator) (kv : string * Z)
  : Prop :=
  exists batch rows pubkey,
    In batch (batches 1000 validators)
    /\ validator_ids_query store (map prefixed_pubkey batch) = Some rows
    /\ In (snd kv, pubkey) rows
    /\ clean_pubkey pubkey = fst kv.

Lemma ids_of_batch_ok (store : Store) (validators batch : list ScanValidator)
  (m : list (string * Z)) :
  In batch (batches 1000 validators) ->
  NoDup (map fst m) /\ Forall (from_rows store validators) m ->
  NoDup (map fst (ids_of_batch store m batch))
  /\ Forall (from_rows store validators) (ids_of_batch store m batch).
Proof.
  intros Hb H. unfold ids_of_batch.
  destruct (validator_ids_query store (map prefixed_pubkey batch)) as [rows|] eqn:Eq;
    [|exact H].
  assert (G : forall l acc,
             incl l rows ->
             NoDup (map fst acc) /\ Forall (from_rows store validators) acc ->
             let r := fold_left (fun m (row : Z * string) =>
                                   dict_set String.eqb (clean_pubkey (snd row)) (fst row) m)
                                l acc in
             NoDup (map fst r) /\ Forall (from_rows store validators) r).
  { induction l as [|row l IH]; intros acc Hl Hacc; cbn [fold_left]; [exact Hacc|].
    apply IH; [intros x Hx; apply Hl; now right|]. destruct Hacc as [Hnd Hall]. split.
    - now apply (dict_set_keys_NoDup String.eqb string_eqb_spec).
    - apply Aggregator.dict_set_entries; [|exact Hall].
      exists batch, rows, (snd row). cbn [fst snd]. repeat split; auto.
      rewrite <- surjective_pairing. apply Hl. now left. }
  apply G; [apply incl_refl|exact H].
Qed.

(** The id map has one entry per cleaned public key, each taken from a row
    of a batch whose query was answered; the key under which a row is
    stored is its public key without a leading [0x], so that a row echoing
    the queried text [0x] + pubkey is found under the validator's pubkey;
    if no query is answered the map is empty. *)
Theorem get_validator_ids_spec (store : Store) (validators : list ScanValidator) :
  let val_id_map := get_validator_ids store validators in
  NoDup (map fst val_id_map)
  /\ (forall k id, In (k, id) val_id_map ->
                   exists batch rows pubkey,
                     In batch (batches 1000 validators)
                     /\ validator_ids_query store (map prefixed_pubkey batch) = Some rows
                     /\ In (id, pubkey) rows
                     /\ clean_pubkey pubkey = k)
  /\ (forall v pk, sv_pubkey v = Some pk -> clean_pubkey (prefixed_pubkey v) = pk)
  /\ ((forall l, validator_ids_query store l = None) -> val_id_map = []).
Proof.
  intros val_id_map. unfold val_id_map, get_validator_ids.
  assert (G : forall bs acc,
             incl bs (batches 1000 validators) ->
             NoDup (map fst acc) /\ Forall (from_rows store validators) acc ->
             NoDup (map fst (fold_left (ids_of_batch store) bs acc))
             /\ Forall (from_rows store validators) (fold_left (ids_of_batch store) bs acc)).
  { induction bs as [|b bs IH]; intros acc Hbs Hacc; cbn [fold_left]; [exact Hacc|].
    apply IH; [intros x Hx; apply Hbs; now right|].
    apply ids_of_batch_ok; [apply Hbs; now left|exact Hacc]. }
  destruct (G (batches 1000 validators) [] (incl_refl _) (conj (NoDup_nil _) (Forall_nil _)))
    as [Hnd Hall].
  split; [exact Hnd|]. split; [|split].
  - intros k id Hin. rewrite Forall_forall in Hall. exact (Hall _ Hin).
  - intros v pk Hpk. unfold prefixed_pubkey. rewrite Hpk. apply clean_pubkey_prefixed.
  - intros Hq. generalize (batches 1000 validators). intros bs.
    induction bs as [|b bs IH]; [reflexivity|]. cbn [fold_left].
    unfold ids_of_batch at 2. now rewrite Hq.
Qed.

(** *** The daily run *)

Lemma appended_once (now : string) (h : StatsHistory) (s : Snapshot) :
  filter (fun x => String.eqb (date x) (date s)) (snapshots (append_snapshot now h s)) = [s].
Proof.
  rewrite DailyStats.snapshots_append.
  rewrite (filter_stable_sort date_le DailyStats.date_le_total DailyStats.date_le_trans).
  rewrite filter_app, (filter_filter_negb (fun x => String.eqb (date x) (date s))).
  cbn. now rewrite String.eqb_refl.
Qed.

(** A daily run that does not end with [sys.exit] leaves a history that is
    sorted by date, whose snapshot count is its length, and that holds
    exactly one snapshot for the target day: the one collected last, with
    the day's ISO date and a window of 1575 epochs ending at the day's end
    epoch, which is not after the store's latest epoch.  No date of the
    loaded history is lost and distinct dates stay distinct. *)
Theorem main_collects_target {Entry : Type} (utcoffset : Z) (clock : Clock)
  (fusaka_file : list Entry) (store : Store) (parse_date : string -> Z)
  (date_of_ordinal : Z -> calendar_date) (scan_data : list ScannedNode)
  (stats_history result : StatsHistory) (target_date : Z) :
  main utcoffset clock fusaka_file store parse_date date_of_ordinal scan_data stats_history
    target_date = Done result ->
  DailyStats.date_sorted (snapshots result)
  /\ total_snapshots (metadata result) = len (snapshots result)
  /\ (exists s latest_epoch,
        filter (fun x => String.eqb (date x) (isoformat (date_of_ordinal target_date)))
               (snapshots result) = [s]
        /\ date s = isoformat (date_of_ordinal target_date)
        /\ latest_epoch_query store = Some latest_epoch
        /\ end_epoch (metrics s) = date_to_end_epoch utcoffset (date_of_ordinal target_date)
        /\ end_epoch (metrics s) <= latest_epoch
        /\ start_epoch (metrics s) = end_epoch (metrics s) - 1574)
  /\ (forall x, In x (map date (snapshots stats_history)) -> In x (map date (snapshots result)))
  /\ (NoDup (map date (snapshots stats_history)) -> NoDup (map date (snapshots result))).
Proof.
  unfold main. cbv zeta.
  set (validators := get_validator_list_from_scan scan_data).
  set (val_id_map := get_validator_ids store validators).
  destruct (backfill_missing_days utcoffset clock fusaka_file store parse_date date_of_ordinal
              stats_history validators val_id_map target_date) as [|[h saved]] eqn:Eb;
    [discriminate|].
  destruct (collect_snapshot_for_date utcoffset clock fusaka_file store
              (date_of_ordinal target_date) validators val_id_map) as [|[s|]] eqn:Ec;
    try discriminate.
  intros H. injection H as <-.
  destruct (Backfill.collected_spec utcoffset clock fusaka_file store date_of_ordinal
              validators val_id_map target_date s Ec) as (latest & Hl & Hle & Hd & He & Hs).
  destruct (Backfill.append_snapshot_dates (updated_at clock (date_of_ordinal target_date)) h s)
    as (_ & _ & Amono & And).
  assert (Hb : (forall x, In x (map date (snapshots stats_history)) ->
                          In x (map date (snapshots h)))
               /\ (NoDup (map date (snapshots stats_history)) ->
                   NoDup (map date (snapshots h)))).
  { unfold backfill_missing_days in Eb.
    destruct (get_missing_dates parse_date stats_history target_date) as [|d0 l].
    - injection Eb as <- _. auto.
    - destruct (fold_left _ (d0 :: l) _) as [|[h' n']] eqn:Ef; [discriminate|].
      injection Eb as <- _.
      destruct (Backfill.backfill_fold utcoffset clock fusaka_file store date_of_ordinal
                  validators val_id_map _ _ _ _ _ Ef) as (_ & _ & _ & _ & _ & Hmono & Hnd).
      auto. }
  split; [apply (stable_sort_sorted date_le DailyStats.date_le_total DailyStats.date_le_trans)|].
  split; [reflexivity|]. split; [|split].
  - exists s, latest. rewrite <- Hd. split; [apply appended_once|].
    repeat split; auto. lia.
  - intros x Hx. apply Amono. now apply (proj1 Hb).
  - intros Hn. apply And. now apply (proj2 Hb).
Qed.

Lemma main_collects_target_witness :
  exists result,
    main 0 Backfill.example_clock (@nil Z) day_store (fun _ => Backfill.march_14)
      Backfill.march example_scan_data Backfill.one_day (Backfill.march_14 + 1) = Done result
    /\ map date (snapshots result) = ["2024-03-14"; "2024-03-15"]%string
    /\ total_snapshots (metadata result) = len (snapshots result).
Proof.
  eexists. split; [vm_compute; reflexivity|]. split; [reflexivity|].
  apply (main_collects_target 0 Backfill.example_clock (@nil Z) day_store
           (fun _ => Backfill.march_14) Backfill.march example_scan_data Backfill.one_day _
           (Backfill.march_14 + 1)).
  reflexivity.
Defined.

End Collector.

(* ------------------------------------------------------------------ *)
(** ** Worked instances                                                *)
(* ------------------------------------------------------------------ *)

Module Instances.
Import rocketpool_analysis_only.
Import Analysis.

(** Node [0xA] of the worked example, tracked as a Fusaka death, attests
    after the fork: the tracking set loses its entry. *)
Definition recovering_performance : list Aggregate.t :=
  fst (fst (query_attestation_performance late_client [vA] 500010 225)).

Lemma fusaka_tracking_settles_witness :
  len (fusaka_validators
         (snd (calculate_node_performance_scores "now" recovering_performance [vA] None None
                 (Some example_fusaka))))
  < len (fusaka_validators example_fusaka).
Proof.
  pose proof (Rollup.fusaka_tracking_settles "now" "later" recovering_performance [vA] None
                None (Some example_fusaka)) as H.
  cbv zeta in H. destruct H as (_ & _ & H).
  apply (H "0xA"%string). reflexivity.
Defined.


(** The two records of the worked example belong to roster nodes and have
    distinct ids: the nodes' active minipools add up to 2. *)
Lemma node_list_conserves_totals_witness :
  zsum (map Node.active_minipools example_nodes) = len example_performance.
Proof.
  pose proof (Report.node_list_conserves_totals "now" example_performance [vA; vB; vC]
                None None) as H.
  cbv zeta in H. destruct H as (_ & H).
  assert (Hroster : forall r, In r example_performance ->
                              In (Aggregate.node_address r)
                                 (map Validator.node_address [vA; vB; vC])).
  { intros r [<-|[<-|[]]]; left; reflexivity. }
  destruct (H Hroster) as (_ & _ & _ & _ & _ & Hids).
  apply Hids. repeat constructor; cbn; intuition discriminate.
Defined.

(** A history that ends on 2024-03-14, asked for the days up to the 16th. *)
Lemma get_missing_dates_spec_witness :
  exists most_recent,
    most_recent = Backfill.march_14
    /\ forall d,
         In d (collect_daily_stats.get_missing_dates (fun _ => Backfill.march_14)
                 Backfill.one_day (Backfill.march_14 + 2))
         <-> most_recent < d <= Backfill.march_14 + 2.
Proof.
  pose proof (Backfill.get_missing_dates_spec (fun _ => Backfill.march_14) Backfill.one_day
                (Backfill.march_14 + 2)) as H.
  cbv zeta in H. destruct H as (_ & _ & H).
  destruct H as (m & Hin & _ & Hd & _); [discriminate|].
  exists m. split; [|exact Hd]. destruct Hin as [<-|[]]. reflexivity.
Defined.

End Instances.
